(** * Student performance engines: normalisation and the three metric engines

    A shallow embedding of the Python sources

    - [src/core/s_engine.py] (raw-input engines, module [SEngine]),
    - [src/core/student_perf/student_engine.py] (engines over an already
      normalised vector, module [StudentEngine]; with the kind of the
      argument, a Python list or an array, module [StudentEngineTyped]),
    - [src/main.py] (the analyzer variant, module [Main]).

    Numbers.  The program computes with IEEE doubles through Python and NumPy.
    The embedding keeps the special values the control flow of the code
    depends on (NaN for the [x != x] test, the infinities and NaN that NumPy
    returns for a division by zero) and idealises every finite double as a
    real number: rounding, overflow and the sign of zero are not modelled.
    Statements proved there speak of the formulas the code evaluates.  Where
    a question is decided by rounding itself, the module [Binary64] runs the
    same arithmetic on the doubles of the kernel, for concrete inputs.

    Effects.  Exceptions are an [outcome]; the calls of the normaliser are
    recorded in an event log threaded through the constructors, so that
    statements about how often and how far normalisation runs can be made. *)

From Stdlib Require Import PrimFloat.
From Stdlib Require Import Reals Lra List.
From stdpp Require Import gmap strings.
Open Scope R_scope.
#[local] Set Warnings "-clear-no-such-hyp,-inexact-float".

(** ** Floating-point values *)

Inductive pyfloat : Type :=
  | NaN
  | PInf
  | NInf
  | Fin (r : R).

#[global] Instance Req_decision (x y : R) : Decision (x = y) := Req_dec_T x y.
#[global] Instance Rlt_decision (x y : R) : Decision (x < y) := Rlt_dec x y.
#[global] Instance Rle_decision (x y : R) : Decision (x <= y) := Rle_dec x y.

Definition isnan (x : pyfloat) : bool :=
  match x with NaN => true | _ => false end.

(** [x == y]: NaN is equal to nothing, itself included. *)
Definition feqb (x y : pyfloat) : bool :=
  match x, y with
  | Fin a, Fin b => bool_decide (a = b)
  | PInf, PInf => true
  | NInf, NInf => true
  | _, _ => false
  end.

(** [x != y] is the negation of [==], so [x != x] holds exactly for NaN. *)
Definition fneb (x y : pyfloat) : bool := negb (feqb x y).

(** [x <= y]: false as soon as one side is NaN. *)
Definition fleb (x y : pyfloat) : bool :=
  match x, y with
  | NaN, _ | _, NaN => false
  | NInf, _ => true
  | _, PInf => true
  | Fin a, Fin b => bool_decide (a <= b)
  | _, _ => false
  end.

(** [x < y]. *)
Definition fltb (x y : pyfloat) : bool :=
  match x, y with
  | NaN, _ | _, NaN => false
  | NInf, NInf | PInf, PInf => false
  | NInf, _ => true
  | _, PInf => true
  | Fin a, Fin b => bool_decide (a < b)
  | _, _ => false
  end.

(** [x > y]. *)
Definition fgtb (x y : pyfloat) : bool := fltb y x.

Definition fneg (x : pyfloat) : pyfloat :=
  match x with
  | NaN => NaN
  | PInf => NInf
  | NInf => PInf
  | Fin a => Fin (- a)
  end.

Definition fabs (x : pyfloat) : pyfloat :=
  match x with
  | NaN => NaN
  | PInf | NInf => PInf
  | Fin a => Fin (Rabs a)
  end.

Definition fadd (x y : pyfloat) : pyfloat :=
  match x, y with
  | NaN, _ | _, NaN => NaN
  | PInf, NInf | NInf, PInf => NaN
  | PInf, _ | _, PInf => PInf
  | NInf, _ | _, NInf => NInf
  | Fin a, Fin b => Fin (a + b)
  end.

Definition fsub (x y : pyfloat) : pyfloat := fadd x (fneg y).

(** An infinity of the given sign ([true] is positive). *)
Definition inf_of (positive : bool) : pyfloat :=
  if positive then PInf else NInf.

(** Infinity times a finite factor: NaN for a zero factor. *)
Definition inf_times (positive : bool) (r : R) : pyfloat :=
  if bool_decide (r = 0) then NaN
  else if bool_decide (0 < r) then inf_of positive
  else inf_of (negb positive).

Definition fmul (x y : pyfloat) : pyfloat :=
  match x, y with
  | NaN, _ | _, NaN => NaN
  | PInf, PInf | NInf, NInf => PInf
  | PInf, NInf | NInf, PInf => NInf
  | PInf, Fin b | Fin b, PInf => inf_times true b
  | NInf, Fin b | Fin b, NInf => inf_times false b
  | Fin a, Fin b => Fin (a * b)
  end.

(** Division as NumPy performs it on [float64] scalars and arrays: a zero
    divisor raises nothing (a warning at most) and yields NaN for [0/0] and
    an infinity otherwise.  Python's own [float] division, which raises
    [ZeroDivisionError], agrees with it for every non-zero divisor; the one
    scalar division of the sources that may see plain Python numbers
    ([_normalizeScore]) is guarded by [maxScore != 0]. *)
Definition fdiv (x y : pyfloat) : pyfloat :=
  match x, y with
  | NaN, _ | _, NaN => NaN
  | (PInf | NInf), (PInf | NInf) => NaN
  | PInf, Fin b => if bool_decide (b < 0) then NInf else PInf
  | NInf, Fin b => if bool_decide (b < 0) then PInf else NInf
  | Fin a, (PInf | NInf) => Fin 0
  | Fin a, Fin b =>
      if bool_decide (b = 0) then
        if bool_decide (a = 0) then NaN
        else if bool_decide (0 < a) then PInf else NInf
      else Fin (a / b)
  end.

Definition fsqrt (x : pyfloat) : pyfloat :=
  match x with
  | NaN | NInf => NaN
  | PInf => PInf
  | Fin a => if bool_decide (a < 0) then NaN else Fin (sqrt a)
  end.

Definition log2 (a : R) : R := ln a / ln 2.

(** [np.log2]: minus infinity at zero, NaN below. *)
Definition flog2 (x : pyfloat) : pyfloat :=
  match x with
  | NaN | NInf => NaN
  | PInf => PInf
  | Fin a =>
      if bool_decide (a < 0) then NaN
      else if bool_decide (a = 0) then NInf
      else Fin (log2 a)
  end.

(** [np.maximum] and [np.minimum] of two values propagate NaN. *)
Definition fmax (x y : pyfloat) : pyfloat :=
  if isnan x || isnan y then NaN else if fleb x y then y else x.

Definition fmin (x y : pyfloat) : pyfloat :=
  if isnan x || isnan y then NaN else if fleb x y then x else y.

(** ** Exceptions and the event log *)

Inductive exn : Type :=
  | ValueError (msg : string)
  | TypeError (msg : string).

Inductive outcome (A : Type) : Type :=
  | Raise (e : exn)
  | Return (a : A).
Arguments Raise {A} e.
Arguments Return {A} a.

(** What the log records: an entry into [_normalizeAllScores], and each call
    of [_normalizeScore] with its arguments. *)
Inductive event : Type :=
  | EvNormalizeAll
  | EvNormalizeScore (maxScore obtainedScore : pyfloat).

Definition M (A : Type) : Type := list event -> outcome A * list event.

Definition ret {A} (a : A) : M A := fun log => (Return a, log).
Definition raise {A} (e : exn) : M A := fun log => (Raise e, log).
Definition emit (ev : event) : M unit := fun log => (Return tt, log ++ [ev]).
Definition bind {A B} (m : M A) (k : A -> M B) : M B :=
  fun log =>
    match m log with
    | (Raise e, log') => (Raise e, log')
    | (Return a, log') => k a log'
    end.
Definition lift {A} (o : outcome A) : M A := fun log => (o, log).

#[global] Instance M_ret : MRet M := @ret.
#[global] Instance M_bind : MBind M := fun A B k m => bind m k.

(** Number of times the log shows a whole-vector normalisation. *)
Fixpoint count_normalize_all (log : list event) : nat :=
  match log with
  | [] => 0%nat
  | EvNormalizeAll :: log' => S (count_normalize_all log')
  | EvNormalizeScore _ _ :: log' => count_normalize_all log'
  end.

Definition run {A} (m : M A) : outcome A * list event := m [].

#[global] Instance outcome_ret : MRet outcome := @Return.
#[global] Instance outcome_bind : MBind outcome := fun A B k o =>
  match o with
  | Raise e => Raise e
  | Return a => k a
  end.

(** ** The NumPy and SciPy functions the engines call

    An [ndarray] of doubles is a [list pyfloat]; [np.array] of a list is the
    list itself. *)

(** [np.sum]; the sum of the empty array is [0.0]. *)
Definition np_sum (a : list pyfloat) : pyfloat := fold_right fadd (Fin 0) a.

(** The element count, as the divisor of a mean. *)
Definition array_size (a : list pyfloat) : pyfloat := Fin (INR (length a)).

(** [np.mean]: the sum over the number of elements (NaN for the empty array). *)
Definition np_mean (a : list pyfloat) : pyfloat := fdiv (np_sum a) (array_size a).

(** [np.var(a, ddof=0)]: the mean of the squared deviations from the mean. *)
Definition np_var (a : list pyfloat) : pyfloat :=
  let arrmean := np_mean a in
  np_mean (map (fun x => let d := fsub x arrmean in fmul d d) a).

(** [np.std]: the square root of [np.var]. *)
Definition np_std (a : list pyfloat) : pyfloat := fsqrt (np_var a).

Definition zero_size_max : string :=
  "zero-size array to reduction operation maximum which has no identity".
Definition zero_size_min : string :=
  "zero-size array to reduction operation minimum which has no identity".

(** [np.max] and [np.min] raise [ValueError] on an empty array. *)
Definition np_max (a : list pyfloat) : outcome pyfloat :=
  match a with
  | [] => Raise (ValueError zero_size_max)
  | x :: a' => Return (fold_left fmax a' x)
  end.

Definition np_min (a : list pyfloat) : outcome pyfloat :=
  match a with
  | [] => Raise (ValueError zero_size_min)
  | x :: a' => Return (fold_left fmin a' x)
  end.

(** Ascending sort, for arrays without NaN. *)
Fixpoint insert_sorted (x : pyfloat) (a : list pyfloat) : list pyfloat :=
  match a with
  | [] => [x]
  | y :: a' => if fleb x y then x :: y :: a' else y :: insert_sorted x a'
  end.

Definition np_sort (a : list pyfloat) : list pyfloat :=
  fold_right insert_sorted [] a.

(** NumPy's interpolation between two neighbouring order statistics. *)
Definition lerp (a b t : pyfloat) : pyfloat :=
  let diff_b_a := fsub b a in
  if fleb (Fin (1 / 2)) t
  then fsub b (fmul diff_b_a (fsub (Fin 1) t))
  else fadd a (fmul diff_b_a t).

(** [np.percentile(a, q)] with the default linear method, for an integer
    percentage [q]: the virtual index [q/100 * (n-1)] is split into its floor
    and its fractional part.  An array holding a NaN gives NaN.  The engines
    call it on non-empty arrays only (their constructor has taken [np.max]). *)
Definition np_percentile (a : list pyfloat) (q : nat) : pyfloat :=
  if existsb isnan a then NaN
  else
    let n := length a in
    let s := np_sort a in
    let virtual := (q * (n - 1))%nat in
    let previous := (virtual / 100)%nat in
    let next := Nat.min (previous + 1) (n - 1) in
    let gamma := Fin (INR (virtual mod 100) / 100) in
    lerp (nth previous s NaN) (nth next s NaN) gamma.

(** The machine epsilon of binary64, [np.finfo(np.float64).eps]. *)
Definition float_eps : R := / 2 ^ 52.

(** [scipy.stats.skew] with its defaults (biased): the third central moment
    over the second central moment to the power 3/2, the latter written as
    [m2 * sqrt m2].  SciPy is not part of the sources; this follows its
    implementation, which first tests whether the second moment is
    negligible against the mean,
    [zero = m2 <= (tolerance * mean) ** 2], and returns NaN where it is.
    The tolerance is a constant of the SciPy release (the machine epsilon, or
    the coarser [np.finfo.resolution]), so it is a parameter here; [skew]
    takes the machine epsilon. *)
Definition skew_with (tolerance : R) (a : list pyfloat) : pyfloat :=
  let mean := np_mean a in
  let m2 := np_mean (map (fun x => let d := fsub x mean in fmul d d) a) in
  let m3 := np_mean (map (fun x => let d := fsub x mean in fmul (fmul d d) d) a) in
  let zero := fleb m2 (let t := fmul (Fin tolerance) mean in fmul t t) in
  if zero then NaN else fdiv m3 (fmul m2 (fsqrt m2)).

Definition skew (a : list pyfloat) : pyfloat := skew_with float_eps a.

(** The dictionary union [a | b]: every key of either side, the value of the
    right-hand side where both have the key.  stdpp's [∪] prefers its left
    operand, hence the swap. *)
Definition dict_or (a b : gmap string pyfloat) : gmap string pyfloat := b ∪ a.

(** ** [s_engine.py]: engines over raw score pairs *)

Module SEngine.

Record StudentPerformanceComputeEngine : Type := {
  name : string;
  testScores : list pyfloat;
  maxScores : list pyfloat;
  normalizedTestScores : list pyfloat;
  maximumScore : pyfloat;
  minimumScore : pyfloat
}.

Definition set_name (n : string) (self : StudentPerformanceComputeEngine)
  : StudentPerformanceComputeEngine :=
  {| name := n;
     testScores := testScores self;
     maxScores := maxScores self;
     normalizedTestScores := normalizedTestScores self;
     maximumScore := maximumScore self;
     minimumScore := minimumScore self |}.

Definition normalize_error : string := "Obtained score <= Maximum score (!= 0)".

(** The static method [_normalizeScore(maxScore, obtainedScore)]. *)
Definition _normalizeScore (maxScore obtainedScore : pyfloat) : outcome pyfloat :=
  if fneb obtainedScore obtainedScore then Return (Fin 0)
  else if (fneb maxScore (Fin 0) && feqb maxScore maxScore)
          && fleb obtainedScore maxScore
  then Return (fmul (fdiv obtainedScore maxScore) (Fin 10))
  else Raise (ValueError normalize_error).

(** The loop of [_normalizeAllScores] over the zipped pairs, with the list
    built so far. *)
Fixpoint _normalizeAllScores_loop (pairs : list (pyfloat * pyfloat))
    (normalized : list pyfloat) : M (list pyfloat) :=
  match pairs with
  | [] => ret normalized
  | (score, maxScore) :: pairs' =>
      emit (EvNormalizeScore maxScore score);;
      normalizedScore ← lift (_normalizeScore maxScore score);
      _normalizeAllScores_loop pairs' (normalized ++ [normalizedScore])
  end.

Definition _normalizeAllScores (testScores maxScores : list pyfloat)
  : M (list pyfloat) :=
  emit EvNormalizeAll;;
  _normalizeAllScores_loop (combine testScores maxScores) [].

(** [StudentPerformanceComputeEngine.__init__]. *)
Definition init (testScores maxScores : list pyfloat)
  : M StudentPerformanceComputeEngine :=
  normalized ← _normalizeAllScores testScores maxScores;
  maximum ← lift (np_max normalized);
  minimum ← lift (np_min normalized);
  ret {| name := "Basic Compute Engine";
         testScores := testScores;
         maxScores := maxScores;
         normalizedTestScores := normalized;
         maximumScore := maximum;
         minimumScore := minimum |}.

Definition _calculateMean (self : StudentPerformanceComputeEngine) : pyfloat :=
  np_mean (normalizedTestScores self).

Definition _calculateStandardDeviation (self : StudentPerformanceComputeEngine)
  : pyfloat :=
  np_std (normalizedTestScores self).

(** *** ConsistencyComputeEngine *)

Record ConsistencyComputeEngine : Type := {
  consistency_base :> StudentPerformanceComputeEngine;
  ALPHA : pyfloat;
  BETA : pyfloat
}.

Definition ConsistencyComputeEngine_init (testScores maxScores : list pyfloat)
  : M ConsistencyComputeEngine :=
  base ← init testScores maxScores;
  ret {| consistency_base := set_name "Consistency Compute Engine" base;
         ALPHA := Fin 0.3;
         BETA := Fin 0.7 |}.

Definition _calculateVariance (self : ConsistencyComputeEngine) : pyfloat :=
  np_var (normalizedTestScores self).

Definition _calculateMeanAbsoluteDeviation (self : ConsistencyComputeEngine)
  : pyfloat :=
  let sampleDataMean := _calculateMean self in
  let absoluteDeviations :=
    map (fun x => fabs (fsub x sampleDataMean)) (normalizedTestScores self) in
  np_mean absoluteDeviations.

Definition returnConsistencyScores (self : ConsistencyComputeEngine)
  : gmap string pyfloat :=
  let variance := _calculateVariance self in
  let standardDeviation := _calculateStandardDeviation self in
  let consistency :=
    fdiv (Fin 1)
      (fadd (fadd (Fin 1) (fmul (ALPHA self) variance))
            (fmul (BETA self) standardDeviation)) in
  {[ "consistency" := consistency;
     "mad" := _calculateMeanAbsoluteDeviation self ]}.

(** *** StatisticsComputeEngine *)

Record StatisticsComputeEngine : Type := {
  statistics_base :> StudentPerformanceComputeEngine
}.

Definition StatisticsComputeEngine_init (testScores maxScores : list pyfloat)
  : M StatisticsComputeEngine :=
  base ← init testScores maxScores;
  ret {| statistics_base := set_name "Statistics Compute Engine" base |}.

Definition _checkSkewness (self : StatisticsComputeEngine) : pyfloat :=
  skew (normalizedTestScores self).

Definition _calculatePercentiles (self : StatisticsComputeEngine)
  : gmap string pyfloat :=
  let q1 := np_percentile (normalizedTestScores self) 25 in
  let median := np_percentile (normalizedTestScores self) 50 in
  let q3 := np_percentile (normalizedTestScores self) 75 in
  {[ "q1" := q1; "median" := median; "q3" := q3 ]}.

Definition returnStatistics (self : StatisticsComputeEngine)
  : gmap string pyfloat :=
  let coreStats : gmap string pyfloat :=
    {[ "mean" := _calculateMean self;
       "skewness" := _checkSkewness self;
       "min" := minimumScore self;
       "max" := maximumScore self ]} in
  let percentileStats := _calculatePercentiles self in
  dict_or coreStats percentileStats.

(** *** DistributionComputeEngine *)

Record DistributionComputeEngine : Type := {
  distribution_base :> StudentPerformanceComputeEngine;
  logarithmBase : Z
}.

Definition DistributionComputeEngine_init (testScores maxScores : list pyfloat)
  : M DistributionComputeEngine :=
  base ← init testScores maxScores;
  ret {| distribution_base := set_name "Distribution Compute Engine" base;
         logarithmBase := 2 |}.

Definition _calculateShannonEntropy (self : DistributionComputeEngine)
  : pyfloat :=
  let sampleData := normalizedTestScores self in
  let filteredData := List.filter (fun x => fgtb x (Fin 0)) sampleData in
  let total := np_sum filteredData in
  let probabilities := map (fun x => fdiv x total) filteredData in
  let h := fneg (np_sum (map (fun p => fmul p (flog2 p)) probabilities)) in
  h.

Definition _calculateRange (self : DistributionComputeEngine) : pyfloat :=
  fsub (maximumScore self) (minimumScore self).

Definition _calculateCoefficientOfVariation (self : DistributionComputeEngine)
  : pyfloat :=
  fdiv (_calculateStandardDeviation self) (_calculateMean self).

Definition returnDistributionScores (self : DistributionComputeEngine)
  : gmap string pyfloat :=
  {[ "entropy" := _calculateShannonEntropy self;
     "range" := _calculateRange self;
     "cv" := _calculateCoefficientOfVariation self;
     "std" := _calculateStandardDeviation self ]}.

(** *** The wrapper class *)

Record ComputeStudentPerformance : Type := {
  wrapper_name : string;
  studentId : Z;
  wrapper_testScores : list pyfloat;
  wrapper_maxScores : list pyfloat;
  consistencyScoresObj : ConsistencyComputeEngine;
  statisticsObj : StatisticsComputeEngine;
  distributionScoresObj : DistributionComputeEngine
}.

Definition ComputeStudentPerformance_init (studentId : Z)
    (testScores maxScores : list pyfloat) : M ComputeStudentPerformance :=
  consistencyScoresObj ← ConsistencyComputeEngine_init testScores maxScores;
  statisticsObj ← StatisticsComputeEngine_init testScores maxScores;
  distributionScoresObj ← DistributionComputeEngine_init testScores maxScores;
  ret {| wrapper_name := "Compute Engine Wrapper Class";
         studentId := studentId;
         wrapper_testScores := testScores;
         wrapper_maxScores := maxScores;
         consistencyScoresObj := consistencyScoresObj;
         statisticsObj := statisticsObj;
         distributionScoresObj := distributionScoresObj |}.

Definition compute (self : ComputeStudentPerformance) : gmap string pyfloat :=
  let consistencyScores := returnConsistencyScores (consistencyScoresObj self) in
  let statistics := returnStatistics (statisticsObj self) in
  let distributionScores :=
    returnDistributionScores (distributionScoresObj self) in
  let allScores := dict_or (dict_or consistencyScores statistics) distributionScores in
  allScores.

(** A whole request: build the wrapper from the raw scores, then [compute]. *)
Definition request (studentId : Z) (testScores maxScores : list pyfloat)
  : M (gmap string pyfloat) :=
  self ← ComputeStudentPerformance_init studentId testScores maxScores;
  ret (compute self).

End SEngine.

(** ** [student_perf/student_engine.py]: engines over a normalised vector

    The same three engines, constructed from the normalised scores directly;
    nothing is normalised here, so the constructors only raise (through
    [np.max] on an empty array) and log nothing.

    The file stores its argument as it comes.  The functions of NumPy and
    SciPy, and the subtraction of a NumPy scalar, take a Python list for the
    array of its items, so the definitions of this module hold for a list and
    for an array alike, with one exception: the comparison [sampleData > 0]
    of [_calculateShannonEntropy] is elementwise on an array only.  The
    module gives that method, and with it [returnDistributionScores] and
    [compute], for an array; [StudentEngineTyped] below adds the kind of the
    argument. *)

Module StudentEngine.

Record StudentPerformanceComputeEngine : Type := {
  name : string;
  normalizedTestScores : list pyfloat;
  maximumScore : pyfloat;
  minimumScore : pyfloat
}.

Definition set_name (n : string) (self : StudentPerformanceComputeEngine)
  : StudentPerformanceComputeEngine :=
  {| name := n;
     normalizedTestScores := normalizedTestScores self;
     maximumScore := maximumScore self;
     minimumScore := minimumScore self |}.

(** [StudentPerformanceComputeEngine.__init__]. *)
Definition init (normalizedTestScores : list pyfloat)
  : outcome StudentPerformanceComputeEngine :=
  maximum ← np_max normalizedTestScores;
  minimum ← np_min normalizedTestScores;
  mret {| name := "Basic Compute Engine";
          normalizedTestScores := normalizedTestScores;
          maximumScore := maximum;
          minimumScore := minimum |}.

Definition _calculateMean (self : StudentPerformanceComputeEngine) : pyfloat :=
  np_mean (normalizedTestScores self).

Definition _calculateStandardDeviation (self : StudentPerformanceComputeEngine)
  : pyfloat :=
  np_std (normalizedTestScores self).

(** *** ConsistencyComputeEngine *)

Record ConsistencyComputeEngine : Type := {
  consistency_base :> StudentPerformanceComputeEngine;
  ALPHA : pyfloat;
  BETA : pyfloat
}.

Definition ConsistencyComputeEngine_init (normalizedTestScores : list pyfloat)
  : outcome ConsistencyComputeEngine :=
  base ← init normalizedTestScores;
  mret {| consistency_base := set_name "Consistency Compute Engine" base;
          ALPHA := Fin 0.3;
          BETA := Fin 0.7 |}.

Definition _calculateVariance (self : ConsistencyComputeEngine) : pyfloat :=
  np_var (normalizedTestScores self).

Definition _calculateMeanAbsoluteDeviation (self : ConsistencyComputeEngine)
  : pyfloat :=
  let sampleDataMean := _calculateMean self in
  let absoluteDeviations :=
    map (fun x => fabs (fsub x sampleDataMean)) (normalizedTestScores self) in
  np_mean absoluteDeviations.

Definition returnConsistencyScores (self : ConsistencyComputeEngine)
  : gmap string pyfloat :=
  let variance := _calculateVariance self in
  let standardDeviation := _calculateStandardDeviation self in
  let consistency :=
    fdiv (Fin 1)
      (fadd (fadd (Fin 1) (fmul (ALPHA self) variance))
            (fmul (BETA self) standardDeviation)) in
  {[ "consistency" := consistency;
     "mad" := _calculateMeanAbsoluteDeviation self ]}.

(** *** StatisticsComputeEngine *)

Record StatisticsComputeEngine : Type := {
  statistics_base :> StudentPerformanceComputeEngine
}.

Definition StatisticsComputeEngine_init (normalizedTestScores : list pyfloat)
  : outcome StatisticsComputeEngine :=
  base ← init normalizedTestScores;
  mret {| statistics_base := set_name "Statistics Compute Engine" base |}.

Definition _checkSkewness (self : StatisticsComputeEngine) : pyfloat :=
  skew (normalizedTestScores self).

Definition _calculatePercentiles (self : StatisticsComputeEngine)
  : gmap string pyfloat :=
  let q1 := np_percentile (normalizedTestScores self) 25 in
  let median := np_percentile (normalizedTestScores self) 50 in
  let q3 := np_percentile (normalizedTestScores self) 75 in
  {[ "q1" := q1; "median" := median; "q3" := q3 ]}.

Definition returnStatistics (self : StatisticsComputeEngine)
  : gmap string pyfloat :=
  let coreStats : gmap string pyfloat :=
    {[ "mean" := _calculateMean self;
       "skewness" := _checkSkewness self;
       "min" := minimumScore self;
       "max" := maximumScore self ]} in
  let percentiles := _calculatePercentiles self in
  dict_or coreStats percentiles.

(** *** DistributionComputeEngine *)

Record DistributionComputeEngine : Type := {
  distribution_base :> StudentPerformanceComputeEngine;
  logarithmBase : Z
}.

Definition DistributionComputeEngine_init (normalizedTestScores : list pyfloat)
  : outcome DistributionComputeEngine :=
  base ← init normalizedTestScores;
  mret {| distribution_base := set_name "Distribution Compute Engine" base;
          logarithmBase := 2 |}.

Definition _calculateShannonEntropy (self : DistributionComputeEngine)
  : pyfloat :=
  let sampleData := normalizedTestScores self in
  let filteredData := List.filter (fun x => fgtb x (Fin 0)) sampleData in
  let total := np_sum filteredData in
  let probabilities := map (fun x => fdiv x total) filteredData in
  let h := fneg (np_sum (map (fun p => fmul p (flog2 p)) probabilities)) in
  h.

Definition _calculateRange (self : DistributionComputeEngine) : pyfloat :=
  fsub (maximumScore self) (minimumScore self).

Definition _calculateCoefficientOfVariation (self : DistributionComputeEngine)
  : pyfloat :=
  fdiv (_calculateStandardDeviation self) (_calculateMean self).

Definition returnDistributionScores (self : DistributionComputeEngine)
  : gmap string pyfloat :=
  {[ "entropy" := _calculateShannonEntropy self;
     "range" := _calculateRange self;
     "cv" := _calculateCoefficientOfVariation self;
     "std" := _calculateStandardDeviation self ]}.

(** *** The wrapper class *)

Record ComputeStudentPerformance : Type := {
  wrapper_name : string;
  studentId : Z;
  wrapper_normalizedTestScores : list pyfloat;
  consistencyScoresObj : ConsistencyComputeEngine;
  statisticsObj : StatisticsComputeEngine;
  distributionScoresObj : DistributionComputeEngine
}.

Definition ComputeStudentPerformance_init (studentId : Z)
    (normalizedTestScores : list pyfloat) : outcome ComputeStudentPerformance :=
  consistencyScoresObj ← ConsistencyComputeEngine_init normalizedTestScores;
  statisticsObj ← StatisticsComputeEngine_init normalizedTestScores;
  distributionScoresObj ← DistributionComputeEngine_init normalizedTestScores;
  mret {| wrapper_name := "Compute Engine Wrapper Class";
          studentId := studentId;
          wrapper_normalizedTestScores := normalizedTestScores;
          consistencyScoresObj := consistencyScoresObj;
          statisticsObj := statisticsObj;
          distributionScoresObj := distributionScoresObj |}.

Definition compute (self : ComputeStudentPerformance) : gmap string pyfloat :=
  let consistencyScores := returnConsistencyScores (consistencyScoresObj self) in
  let statistics := returnStatistics (statisticsObj self) in
  let distributionScores :=
    returnDistributionScores (distributionScoresObj self) in
  let allScores := dict_or (dict_or consistencyScores statistics) distributionScores in
  allScores.

End StudentEngine.

(** ** [student_engine.py] with the kind of its argument

    The constructor's parameter is annotated [list] and stored unconverted.
    On a Python list the comparison [sampleData > 0] is Python's own, which
    does not order a list against an int and raises [TypeError]; on an array
    it is the elementwise mask, and [sampleData[mask]] keeps the items where
    the mask is set. *)

Inductive container : Type :=
  | PyList
  | NdArray.

Definition list_int_order : string :=
  "'>' not supported between instances of 'list' and 'int'".

Module StudentEngineTyped.

(** [sampleData > 0]. *)
Definition greater_than_zero (kind : container) (sampleData : list pyfloat)
  : outcome (list bool) :=
  match kind with
  | PyList => Raise (TypeError list_int_order)
  | NdArray => Return (map (fun x => fgtb x (Fin 0)) sampleData)
  end.

(** [sampleData[mask]] for a boolean mask of the array's length. *)
Fixpoint masked (sampleData : list pyfloat) (mask : list bool) : list pyfloat :=
  match sampleData, mask with
  | x :: sampleData', b :: mask' =>
      if b then x :: masked sampleData' mask' else masked sampleData' mask'
  | _, _ => []
  end.

Definition _calculateShannonEntropy (kind : container)
    (self : StudentEngine.DistributionComputeEngine) : outcome pyfloat :=
  let sampleData :=
    StudentEngine.normalizedTestScores (StudentEngine.distribution_base self) in
  mask ← greater_than_zero kind sampleData;
  let filteredData := masked sampleData mask in
  let total := np_sum filteredData in
  let probabilities := map (fun x => fdiv x total) filteredData in
  let h := fneg (np_sum (map (fun p => fmul p (flog2 p)) probabilities)) in
  mret h.

(** The dictionary literal evaluates its values in order, the entropy first. *)
Definition returnDistributionScores (kind : container)
    (self : StudentEngine.DistributionComputeEngine)
  : outcome (gmap string pyfloat) :=
  entropy ← _calculateShannonEntropy kind self;
  mret ({[ "entropy" := entropy;
           "range" := StudentEngine._calculateRange self;
           "cv" := StudentEngine._calculateCoefficientOfVariation self;
           "std" := StudentEngine._calculateStandardDeviation
                      (StudentEngine.distribution_base self) ]}
        : gmap string pyfloat).

Definition compute (kind : container)
    (self : StudentEngine.ComputeStudentPerformance)
  : outcome (gmap string pyfloat) :=
  let consistencyScores :=
    StudentEngine.returnConsistencyScores
      (StudentEngine.consistencyScoresObj self) in
  let statistics :=
    StudentEngine.returnStatistics (StudentEngine.statisticsObj self) in
  distributionScores ←
    returnDistributionScores kind (StudentEngine.distributionScoresObj self);
  let allScores := dict_or (dict_or consistencyScores statistics) distributionScores in
  mret allScores.

(** A whole request: build the wrapper from the vector, then [compute]. *)
Definition request (studentId : Z) (kind : container)
    (normalizedTestScores : list pyfloat) : outcome (gmap string pyfloat) :=
  self ← StudentEngine.ComputeStudentPerformance_init studentId normalizedTestScores;
  compute kind self.

End StudentEngineTyped.

(** ** [main.py]: the analyzer variant

    Only the base class and the distribution analyzer are needed below. *)

Module Main.

Record StudentPerformanceAnalyzer : Type := {
  studentId : Z;
  testScores : list pyfloat;
  maxScores : list pyfloat;
  normalizedTestScores : list pyfloat;
  maximumScore : pyfloat;
  minimumScore : pyfloat
}.

Definition normalize_error : string := "Obtained score <= Maximum score (!= 0)".

Definition _normalizeScore (maxScore obtainedScore : pyfloat) : outcome pyfloat :=
  if fneb obtainedScore obtainedScore then Return (Fin 0)
  else if (fneb maxScore (Fin 0) && feqb maxScore maxScore)
          && fleb obtainedScore maxScore
  then Return (fmul (fdiv obtainedScore maxScore) (Fin 10))
  else Raise (ValueError normalize_error).

Fixpoint _normalizeAllScores_loop (pairs : list (pyfloat * pyfloat))
    (normalized : list pyfloat) : M (list pyfloat) :=
  match pairs with
  | [] => ret normalized
  | (score, maxScore) :: pairs' =>
      emit (EvNormalizeScore maxScore score);;
      normalizedScore ← lift (_normalizeScore maxScore score);
      _normalizeAllScores_loop pairs' (normalized ++ [normalizedScore])
  end.

Definition _normalizeAllScores (testScores maxScores : list pyfloat)
  : M (list pyfloat) :=
  emit EvNormalizeAll;;
  _normalizeAllScores_loop (combine testScores maxScores) [].

(** [StudentPerformanceAnalyzer.__init__]. *)
Definition init (studentId : Z) (testScores maxScores : list pyfloat)
  : M StudentPerformanceAnalyzer :=
  normalized ← _normalizeAllScores testScores maxScores;
  maximum ← lift (np_max normalized);
  minimum ← lift (np_min normalized);
  ret {| studentId := studentId;
         testScores := testScores;
         maxScores := maxScores;
         normalizedTestScores := normalized;
         maximumScore := maximum;
         minimumScore := minimum |}.

Record DistributionAnalyzer : Type := {
  distribution_base :> StudentPerformanceAnalyzer;
  name : string;
  logarithmBase : Z
}.

Definition DistributionAnalyzer_init (studentId : Z)
    (testScores maxScores : list pyfloat) : M DistributionAnalyzer :=
  base ← init studentId testScores maxScores;
  ret {| distribution_base := base;
         name := "Distribution Analyzer Engine";
         logarithmBase := 2 |}.

(** Here the positive scores themselves are used as the probabilities. *)
Definition _calculateShannonEntropy (self : DistributionAnalyzer) : pyfloat :=
  let sampleData := normalizedTestScores self in
  let probabilities := List.filter (fun x => fgtb x (Fin 0)) sampleData in
  let h := fneg (np_sum (map (fun p => fmul p (flog2 p)) probabilities)) in
  h.

End Main.

(** ** Reference definitions used in the statements *)

(** The per-pair rule of the normaliser as the specification words it:
    a NaN score gives [0.0]; otherwise a zero or NaN maximum, or a score above
    the maximum, is an error; otherwise the score is rescaled to 0..10. *)
Definition normalize_rule (maxScore obtained : pyfloat) : outcome pyfloat :=
  if isnan obtained then Return (Fin 0)
  else if feqb maxScore (Fin 0) || isnan maxScore || fgtb obtained maxScore
  then Raise (ValueError SEngine.normalize_error)
  else Return (fmul (fdiv obtained maxScore) (Fin 10)).

(** A pair the rule rejects. *)
Definition invalid_pair (p : pyfloat * pyfloat) : bool :=
  let '(obtained, maxScore) := p in
  negb (isnan obtained)
  && (feqb maxScore (Fin 0) || isnan maxScore || fgtb obtained maxScore).

(** "Passes validation" as the specification describes it: the score is NaN,
    or it is at most the maximum and the maximum is neither zero nor NaN. *)
Definition passes_validation (maxScore obtained : pyfloat) : bool :=
  isnan obtained
  || (fleb obtained maxScore && negb (feqb maxScore (Fin 0)) && negb (isnan maxScore)).

(** Membership in the closed interval from 0 to 10. *)
Definition in_0_10 (x : pyfloat) : bool := fleb (Fin 0) x && fleb x (Fin 10).

(** Sums, means and population variance over the reals. *)
Definition Rsum (l : list R) : R := fold_right Rplus 0 l.
Definition Rmean (l : list R) : R := Rsum l / INR (length l).
Definition Rvar (l : list R) : R :=
  Rmean (map (fun x => (x - Rmean l) * (x - Rmean l)) l).
Definition Rstd (l : list R) : R := sqrt (Rvar l).

(** The strictly positive entries, and the Shannon entropy (base 2) of the
    distribution obtained by dividing each of them by their sum. *)
Definition positives (l : list R) : list R :=
  List.filter (fun x => bool_decide (0 < x)) l.
Definition shannon (l : list R) : R :=
  - Rsum (map (fun x => x / Rsum l * log2 (x / Rsum l)) l).

(** The same sum taken over the values themselves, not divided by their sum. *)
Definition raw_xlog2x (l : list R) : R :=
  - Rsum (map (fun x => x * log2 x) l).

(** The thirteen metric names of the merged report. *)
Definition metric_keys : gset string :=
  {[ "consistency"; "mad"; "mean"; "skewness"; "min"; "max"; "q1"; "median";
     "q3"; "entropy"; "range"; "cv"; "std" ]}.

(** The log entries of the pairs handed to [_normalizeScore]. *)
Definition score_events (pairs : list (pyfloat * pyfloat)) : list event :=
  map (fun p => EvNormalizeScore (snd p) (fst p)) pairs.

(** The normalised vector as a function of the zipped pairs alone: the
    results of [_normalizeScore] in order, or the first error. *)
Fixpoint normalize_pairs (pairs : list (pyfloat * pyfloat))
  : outcome (list pyfloat) :=
  match pairs with
  | [] => Return []
  | (score, maxScore) :: pairs' =>
      normalizedScore ← SEngine._normalizeScore maxScore score;
      rest ← normalize_pairs pairs';
      mret (normalizedScore :: rest)
  end.

(** The pairs the loop reaches: all of them up to and including the first
    one [_normalizeScore] rejects. *)
Fixpoint attempted (pairs : list (pyfloat * pyfloat)) : list (pyfloat * pyfloat) :=
  match pairs with
  | [] => []
  | (score, maxScore) :: pairs' =>
      (score, maxScore) ::
        match SEngine._normalizeScore maxScore score with
        | Raise _ => []
        | Return _ => attempted pairs'
        end
  end.

(** What one run of [_normalizeAllScores] appends to the log. *)
Definition normalize_log (testScores maxScores : list pyfloat) : list event :=
  EvNormalizeAll :: score_events (attempted (combine testScores maxScores)).

(** The base object [__init__] builds, as a function of the raw scores. *)
Definition build_base (testScores maxScores : list pyfloat)
  : outcome SEngine.StudentPerformanceComputeEngine :=
  normalized ← normalize_pairs (combine testScores maxScores);
  maximum ← np_max normalized;
  minimum ← np_min normalized;
  mret {| SEngine.name := "Basic Compute Engine";
          SEngine.testScores := testScores;
          SEngine.maxScores := maxScores;
          SEngine.normalizedTestScores := normalized;
          SEngine.maximumScore := maximum;
          SEngine.minimumScore := minimum |}.

(** The wrapper object assembled from one base object per engine. *)
Definition build_wrapper (studentId : Z) (testScores maxScores : list pyfloat)
    (base : SEngine.StudentPerformanceComputeEngine)
  : SEngine.ComputeStudentPerformance :=
  {| SEngine.wrapper_name := "Compute Engine Wrapper Class";
     SEngine.studentId := studentId;
     SEngine.wrapper_testScores := testScores;
     SEngine.wrapper_maxScores := maxScores;
     SEngine.consistencyScoresObj :=
       {| SEngine.consistency_base :=
            SEngine.set_name "Consistency Compute Engine" base;
          SEngine.ALPHA := Fin 0.3;
          SEngine.BETA := Fin 0.7 |};
     SEngine.statisticsObj :=
       {| SEngine.statistics_base :=
            SEngine.set_name "Statistics Compute Engine" base |};
     SEngine.distributionScoresObj :=
       {| SEngine.distribution_base :=
            SEngine.set_name "Distribution Compute Engine" base;
          SEngine.logarithmBase := 2 |} |}.

(** The base object for a single finite pair, used in the examples. *)
Definition single_base (a b : R) : SEngine.StudentPerformanceComputeEngine :=
  {| SEngine.name := "Basic Compute Engine";
     SEngine.testScores := [Fin a];
     SEngine.maxScores := [Fin b];
     SEngine.normalizedTestScores := [Fin (a / b * 10)];
     SEngine.maximumScore := Fin (a / b * 10);
     SEngine.minimumScore := Fin (a / b * 10) |}.

(** ** [main.py]: the remaining analyzers

    The consistency and statistics analyzers and the other two methods of the
    distribution analyzer, over the base class of module [Main]. *)

Module MainAnalyzers.

Definition _calculateMean (self : Main.StudentPerformanceAnalyzer) : pyfloat :=
  np_mean (Main.normalizedTestScores self).

Definition _calculateStandardDeviation (self : Main.StudentPerformanceAnalyzer)
  : pyfloat :=
  np_std (Main.normalizedTestScores self).

Record ConsistencyAnalyzer : Type := {
  consistency_base : Main.StudentPerformanceAnalyzer;
  consistency_name : string;
  ALPHA : pyfloat;
  BETA : pyfloat
}.

Definition ConsistencyAnalyzer_init (studentId : Z)
    (testScores maxScores : list pyfloat) : M ConsistencyAnalyzer :=
  base ← Main.init studentId testScores maxScores;
  ret {| consistency_base := base;
         consistency_name := "Consistency Analyzer Engine";
         ALPHA := Fin 0.3;
         BETA := Fin 0.7 |}.

Definition _calculateVariance (self : ConsistencyAnalyzer) : pyfloat :=
  np_var (Main.normalizedTestScores (consistency_base self)).

Definition _calculateMeanAbsoluteDeviation (self : ConsistencyAnalyzer)
  : pyfloat :=
  let sampleDataMean := _calculateMean (consistency_base self) in
  let absoluteDeviations :=
    map (fun x => fabs (fsub x sampleDataMean))
      (Main.normalizedTestScores (consistency_base self)) in
  np_mean absoluteDeviations.

Definition analyzeStudentConsistency (self : ConsistencyAnalyzer) : pyfloat :=
  let variance := _calculateVariance self in
  let standardDeviation := _calculateStandardDeviation (consistency_base self) in
  let consistency :=
    fdiv (Fin 1)
      (fadd (fadd (Fin 1) (fmul (ALPHA self) variance))
            (fmul (BETA self) standardDeviation)) in
  consistency.

Record StatisticsAnalyzer : Type := {
  statistics_base : Main.StudentPerformanceAnalyzer;
  statistics_name : string
}.

Definition StatisticsAnalyzer_init (studentId : Z)
    (testScores maxScores : list pyfloat) : M StatisticsAnalyzer :=
  base ← Main.init studentId testScores maxScores;
  ret {| statistics_base := base;
         statistics_name := "Statistics Analyzer Engine" |}.

Definition _checkSkewness (self : StatisticsAnalyzer) : pyfloat :=
  skew (Main.normalizedTestScores (statistics_base self)).

Definition _calculatePercentiles (self : StatisticsAnalyzer)
  : gmap string pyfloat :=
  let q1 := np_percentile (Main.normalizedTestScores (statistics_base self)) 25 in
  let median := np_percentile (Main.normalizedTestScores (statistics_base self)) 50 in
  let q3 := np_percentile (Main.normalizedTestScores (statistics_base self)) 75 in
  {[ "q1" := q1; "median" := median; "q3" := q3 ]}.

Definition _calculateRange (self : Main.DistributionAnalyzer) : pyfloat :=
  fsub (Main.maximumScore (Main.distribution_base self))
       (Main.minimumScore (Main.distribution_base self)).

Definition _calculateCoefficientOfVariation (self : Main.DistributionAnalyzer)
  : pyfloat :=
  fdiv (_calculateStandardDeviation (Main.distribution_base self))
       (_calculateMean (Main.distribution_base self)).

End MainAnalyzers.

(** ** The consistency path on IEEE doubles

    The normaliser and the methods behind the "consistency" and "mad"
    entries once more, on the binary64 numbers of the kernel, whose
    operations round as the hardware does.  Python's [float] and NumPy's
    [float64] are these numbers.  It is used to run the code on concrete
    inputs where rounding decides the answer.  [np.sum] adds from the left;
    NumPy does so for fewer than eight items, and the inputs used below are
    such that the order of the additions does not change the sum. *)

Module Binary64.

Definition _normalizeScore (maxScore obtainedScore : float) : outcome float :=
  if negb (obtainedScore =? obtainedScore)%float then Return 0%float
  else if (negb (maxScore =? 0)%float && (maxScore =? maxScore)%float)
          && (obtainedScore <=? maxScore)%float
  then Return (obtainedScore / maxScore * 10)%float
  else Raise (ValueError SEngine.normalize_error).

Fixpoint _normalizeAllScores_loop (pairs : list (float * float))
    (normalized : list float) : outcome (list float) :=
  match pairs with
  | [] => Return normalized
  | (score, maxScore) :: pairs' =>
      normalizedScore ← _normalizeScore maxScore score;
      _normalizeAllScores_loop pairs' (normalized ++ [normalizedScore])
  end.

Definition _normalizeAllScores (testScores maxScores : list float)
  : outcome (list float) :=
  _normalizeAllScores_loop (combine testScores maxScores) [].

Definition np_sum (a : list float) : float :=
  fold_left (fun acc x => (acc + x)%float) a 0%float.

(** The element count as a double (exact below 2^53). *)
Fixpoint array_size (a : list float) : float :=
  match a with
  | [] => 0%float
  | _ :: a' => (array_size a' + 1)%float
  end.

Definition np_mean (a : list float) : float := (np_sum a / array_size a)%float.

(** [np.var]: the deviations from the mean, squared, summed, over the count. *)
Definition np_var (a : list float) : float :=
  let arrmean := np_mean a in
  let x := map (fun v => (v - arrmean)%float) a in
  let x := map (fun d => (d * d)%float) x in
  (np_sum x / array_size a)%float.

Definition np_std (a : list float) : float := PrimFloat.sqrt (np_var a).

Definition ALPHA : float := 0.3%float.
Definition BETA : float := 0.7%float.

Definition _calculateMeanAbsoluteDeviation (normalizedTestScores : list float)
  : float :=
  let sampleDataMean := np_mean normalizedTestScores in
  let absoluteDeviations :=
    map (fun x => PrimFloat.abs (x - sampleDataMean)%float) normalizedTestScores in
  np_mean absoluteDeviations.

(** The "consistency" entry of [returnConsistencyScores]. *)
Definition consistency (normalizedTestScores : list float) : float :=
  let variance := np_var normalizedTestScores in
  let standardDeviation := np_std normalizedTestScores in
  (1 / (1 + ALPHA * variance + BETA * standardDeviation))%float.

End Binary64.

(** ** Further reference definitions *)

(** Mean absolute deviation over the reals. *)
Definition Rmad (l : list R) : R :=
  Rmean (map (fun x => Rabs (x - Rmean l)) l).

(** Largest and smallest entry, folded from the left as [np.max] folds. *)
Definition Rmaxl (x : R) (l : list R) : R := fold_left Rmax l x.
Definition Rminl (x : R) (l : list R) : R := fold_left Rmin l x.

(** Insertion sort over the reals, ascending. *)
Fixpoint Rinsert (x : R) (l : list R) : list R :=
  match l with
  | [] => [x]
  | y :: l' => if bool_decide (x <= y) then x :: y :: l' else y :: Rinsert x l'
  end.

Definition Rsort (l : list R) : list R := fold_right Rinsert [] l.

(** Ascending order, as a relation between neighbours. *)
Inductive ascending : list R -> Prop :=
  | ascending_nil : ascending []
  | ascending_one (x : R) : ascending [x]
  | ascending_cons (x y : R) (l : list R) :
      x <= y -> ascending (y :: l) -> ascending (x :: y :: l).

(** The percentile of the default linear method on a sorted list of reals:
    the order statistic at the floor of the virtual index, moved towards the
    next one by the fractional part. *)
Definition Rpercentile (s : list R) (q : nat) : R :=
  let n := length s in
  let virtual := (q * (n - 1))%nat in
  let previous := (virtual / 100)%nat in
  let next := Nat.min (previous + 1) (n - 1) in
  let gamma := INR (virtual mod 100) / 100 in
  nth previous s 0 + (nth next s 0 - nth previous s 0) * gamma.

(** A pair as an assessment produces it: the score is missing (NaN), or it
    is a finite number between 0 and a finite positive maximum.  The pair is
    (score, maximum), as [zip] gives it. *)
Definition graded_pair (p : pyfloat * pyfloat) : Prop :=
  isnan (fst p) = true
  \/ exists o m, p = (Fin o, Fin m) /\ 0 <= o <= m /\ 0 < m.

(** ** Comparisons and arithmetic on finite values *)

Lemma fneb_self (x : pyfloat) : fneb x x = isnan x.
Proof.
  destruct x as [| | |a]; unfold fneb; simpl; try reflexivity.
  rewrite bool_decide_eq_true_2; reflexivity.
Qed.

Lemma feqb_self (x : pyfloat) : feqb x x = negb (isnan x).
Proof. rewrite <- fneb_self. unfold fneb. now rewrite negb_involutive. Qed.

Lemma fleb_not_gt (x y : pyfloat) :
  isnan x = false -> isnan y = false -> fleb x y = negb (fgtb x y).
Proof.
  destruct x as [| | |a], y as [| | |b]; simpl; intros; try congruence.
  unfold fgtb; simpl. do 2 case_bool_decide; simpl; auto; lra.
Qed.

Lemma fdiv_Fin (a b : R) : b <> 0 -> fdiv (Fin a) (Fin b) = Fin (a / b).
Proof. intros Hb. simpl. now rewrite bool_decide_eq_false_2. Qed.

Lemma fsqrt_Fin (a : R) : 0 <= a -> fsqrt (Fin a) = Fin (sqrt a).
Proof. intros Ha. simpl. rewrite bool_decide_eq_false_2; [reflexivity | lra]. Qed.

Lemma flog2_Fin (a : R) : 0 < a -> flog2 (Fin a) = Fin (log2 a).
Proof.
  intros Ha. simpl.
  rewrite !bool_decide_eq_false_2; [reflexivity | lra | lra].
Qed.

(** ** The normaliser *)

Lemma normalizeScore_rule (maxScore obtained : pyfloat) :
  SEngine._normalizeScore maxScore obtained = normalize_rule maxScore obtained.
Proof.
  unfold SEngine._normalizeScore, normalize_rule.
  rewrite fneb_self. destruct (isnan obtained) eqn:Hn; [reflexivity|].
  unfold fneb. rewrite feqb_self.
  destruct (feqb maxScore (Fin 0)) eqn:H0; simpl; [reflexivity|].
  destruct (isnan maxScore) eqn:Hm; simpl; [reflexivity|].
  rewrite (fleb_not_gt _ _ Hn Hm).
  destruct (fgtb obtained maxScore); reflexivity.
Qed.

Lemma Main_normalizeScore_eq (maxScore obtained : pyfloat) :
  Main._normalizeScore maxScore obtained = SEngine._normalizeScore maxScore obtained.
Proof. reflexivity. Qed.

(** C3. Both copies of [_normalizeScore] follow the per-pair rule in its
    order: a NaN score gives 0.0 without error; otherwise a maximum that is
    zero or NaN, or a score above the maximum, raises the validation error
    (Python's [ValueError]); otherwise the result is
    [(obtained / maximum) * 10.0]. *)
Theorem C3_normalizeScore_follows_rule (maxScore obtained : pyfloat) :
  SEngine._normalizeScore maxScore obtained = normalize_rule maxScore obtained
  /\ Main._normalizeScore maxScore obtained = normalize_rule maxScore obtained.
Proof.
  split; [| rewrite Main_normalizeScore_eq]; apply normalizeScore_rule.
Qed.

(** C4 as stated fails: a negative score against a positive maximum passes
    validation and is normalised to a negative value. *)
Lemma C4_negative_score_counterexample :
  passes_validation (Fin 10) (Fin (-5)) = true
  /\ SEngine._normalizeScore (Fin 10) (Fin (-5)) = Return (Fin (-5 / 10 * 10))
  /\ in_0_10 (Fin (-5 / 10 * 10)) = false.
Proof.
  split; [| split].
  - unfold passes_validation; simpl.
    rewrite bool_decide_eq_true_2 by lra.
    rewrite bool_decide_eq_false_2 by lra. reflexivity.
  - rewrite normalizeScore_rule. unfold normalize_rule, fgtb; simpl.
    rewrite !bool_decide_eq_false_2 by lra. reflexivity.
  - unfold in_0_10; simpl. rewrite bool_decide_eq_false_2 by lra. reflexivity.
Qed.

(** C4, amended. A pair whose score is NaN, or whose score is a finite
    non-negative number at most the maximum, with the maximum neither zero nor
    NaN, is normalised without error to a value in the closed interval from 0
    to 10. *)
Theorem C4_normalized_in_range (maxScore obtained : pyfloat) :
  isnan obtained = true
  \/ (exists o, obtained = Fin o /\ 0 <= o)
     /\ fleb obtained maxScore = true
     /\ feqb maxScore (Fin 0) = false
     /\ isnan maxScore = false ->
  exists r, SEngine._normalizeScore maxScore obtained = Return (Fin r)
            /\ Main._normalizeScore maxScore obtained = Return (Fin r)
            /\ 0 <= r <= 10.
Proof.
  change (Main._normalizeScore maxScore obtained)
    with (SEngine._normalizeScore maxScore obtained).
  rewrite normalizeScore_rule. unfold normalize_rule.
  intros [Hn | ([o [-> Ho]] & Hle & H0 & Hm)].
  - rewrite Hn. exists 0. repeat split; lra.
  - simpl isnan. cbv iota. rewrite H0, Hm.
    rewrite (fleb_not_gt (Fin o) maxScore eq_refl Hm) in Hle.
    apply negb_true_iff in Hle. rewrite Hle. simpl orb. cbv iota.
    destruct maxScore as [| | |b]; try discriminate.
    + exists (0 * 10). simpl. repeat split; lra.
    + simpl in H0, Hle. unfold fgtb in Hle. simpl in Hle.
      apply bool_decide_eq_false in H0. apply bool_decide_eq_false in Hle.
      assert (Hb : 0 < b) by lra.
      exists (o / b * 10). rewrite fdiv_Fin by lra. simpl.
      repeat split; try reflexivity.
      * apply Rmult_le_pos; [apply Rmult_le_pos; [lra|] | lra].
        left. now apply Rinv_0_lt_compat.
      * assert (o / b <= 1); [| lra].
        apply (Rmult_le_reg_r b); [lra|]. unfold Rdiv.
        rewrite Rmult_assoc, Rinv_l by lra. lra.
Qed.

Lemma C4_normalized_in_range_witness :
  exists r, SEngine._normalizeScore (Fin 10) (Fin 8) = Return (Fin r)
            /\ Main._normalizeScore (Fin 10) (Fin 8) = Return (Fin r)
            /\ 0 <= r <= 10.
Proof.
  apply (C4_normalized_in_range (Fin 10) (Fin 8)). right.
  split; [exists 8; split; [reflexivity | lra] |].
  simpl. rewrite bool_decide_eq_true_2 by lra.
  rewrite bool_decide_eq_false_2 by lra. auto.
Defined.

Lemma normalizeScore_Fin (a b : R) :
  b <> 0 -> a <= b ->
  SEngine._normalizeScore (Fin b) (Fin a) = Return (Fin (a / b * 10)).
Proof.
  intros Hb Hab. rewrite normalizeScore_rule. unfold normalize_rule, fgtb.
  simpl. rewrite !bool_decide_eq_false_2 by lra. reflexivity.
Qed.

Lemma normalizeScore_invalid (score maxScore : pyfloat) :
  invalid_pair (score, maxScore) = true ->
  SEngine._normalizeScore maxScore score = Raise (ValueError SEngine.normalize_error).
Proof.
  rewrite normalizeScore_rule. unfold invalid_pair, normalize_rule.
  intros [Hn Hc]%andb_true_iff. apply negb_true_iff in Hn.
  now rewrite Hn, Hc.
Qed.

Lemma normalizeScore_valid (score maxScore : pyfloat) :
  invalid_pair (score, maxScore) = false ->
  exists n, SEngine._normalizeScore maxScore score = Return n.
Proof.
  rewrite normalizeScore_rule. unfold invalid_pair, normalize_rule.
  destruct (isnan score); simpl; [eauto|]. intros ->. eauto.
Qed.

(** *** Running the loop *)

Lemma loop_run (pairs : list (pyfloat * pyfloat)) (acc : list pyfloat)
    (log : list event) :
  SEngine._normalizeAllScores_loop pairs acc log =
  (v ← normalize_pairs pairs; mret (acc ++ v),
   log ++ score_events (attempted pairs)).
Proof.
  revert acc log. induction pairs as [|[score maxScore] pairs IH]; intros acc log.
  - simpl. unfold ret. now rewrite !app_nil_r.
  - cbn [SEngine._normalizeAllScores_loop normalize_pairs attempted score_events map].
    unfold mbind at 1 2. unfold M_bind, bind, emit, lift. cbn [fst snd].
    destruct (SEngine._normalizeScore maxScore score) as [e|n]; simpl.
    + reflexivity.
    + rewrite IH. rewrite <- !app_assoc. simpl.
      destruct (normalize_pairs pairs); simpl; [reflexivity|].
      unfold mret, outcome_ret. now rewrite <- app_assoc.
Qed.

Lemma normalizeAllScores_run (testScores maxScores : list pyfloat)
    (log : list event) :
  SEngine._normalizeAllScores testScores maxScores log =
  (normalize_pairs (combine testScores maxScores),
   log ++ normalize_log testScores maxScores).
Proof.
  unfold SEngine._normalizeAllScores, normalize_log.
  unfold mbind, M_bind, bind, emit. rewrite loop_run.
  rewrite <- app_assoc. simpl.
  destruct (normalize_pairs (combine testScores maxScores)); reflexivity.
Qed.

Lemma Main_normalizeAllScores_eq (testScores maxScores : list pyfloat) :
  Main._normalizeAllScores testScores maxScores
  = SEngine._normalizeAllScores testScores maxScores.
Proof. reflexivity. Qed.

(** *** Running the constructors *)

Lemma init_run (testScores maxScores : list pyfloat) (log : list event) :
  SEngine.init testScores maxScores log =
  (build_base testScores maxScores, log ++ normalize_log testScores maxScores).
Proof.
  unfold SEngine.init, build_base.
  unfold mbind at 1. unfold M_bind, bind. rewrite normalizeAllScores_run.
  destruct (normalize_pairs (combine testScores maxScores)) as [e|v];
    [reflexivity|].
  unfold mbind, M_bind, bind, lift, ret, outcome_bind.
  destruct (np_max v); [reflexivity|]. destruct (np_min v); reflexivity.
Qed.

Lemma wrapper_run (studentId : Z) (testScores maxScores : list pyfloat)
    (log : list event) :
  SEngine.ComputeStudentPerformance_init studentId testScores maxScores log =
  match build_base testScores maxScores with
  | Raise e => (Raise e, log ++ normalize_log testScores maxScores)
  | Return base =>
      (Return (build_wrapper studentId testScores maxScores base),
       log ++ normalize_log testScores maxScores
           ++ normalize_log testScores maxScores
           ++ normalize_log testScores maxScores)
  end.
Proof.
  unfold SEngine.ComputeStudentPerformance_init,
    SEngine.ConsistencyComputeEngine_init, SEngine.StatisticsComputeEngine_init,
    SEngine.DistributionComputeEngine_init.
  unfold mbind, M_bind, bind, ret.
  destruct (build_base testScores maxScores) as [e|base] eqn:Hbase.
  - now rewrite init_run, Hbase.
  - do 3 (rewrite init_run, Hbase; cbv beta iota).
    rewrite <- !app_assoc. reflexivity.
Qed.

Lemma count_normalize_all_app (l1 l2 : list event) :
  count_normalize_all (l1 ++ l2)
  = (count_normalize_all l1 + count_normalize_all l2)%nat.
Proof.
  induction l1 as [|[|m o] l1 IH]; simpl; [reflexivity | now rewrite IH | exact IH].
Qed.

Lemma count_score_events (pairs : list (pyfloat * pyfloat)) :
  count_normalize_all (score_events pairs) = 0%nat.
Proof. induction pairs as [|p pairs IH]; simpl; auto. Qed.

Lemma count_normalize_log (testScores maxScores : list pyfloat) :
  count_normalize_all (normalize_log testScores maxScores) = 1%nat.
Proof. unfold normalize_log. simpl. now rewrite count_score_events. Qed.

Lemma build_base_normalized (testScores maxScores : list pyfloat)
    (base : SEngine.StudentPerformanceComputeEngine) :
  build_base testScores maxScores = Return base ->
  normalize_pairs (combine testScores maxScores)
  = Return (SEngine.normalizedTestScores base)
  /\ SEngine.normalizedTestScores base <> []
  /\ np_max (SEngine.normalizedTestScores base) = Return (SEngine.maximumScore base)
  /\ np_min (SEngine.normalizedTestScores base) = Return (SEngine.minimumScore base).
Proof.
  unfold build_base.
  destruct (normalize_pairs (combine testScores maxScores)) as [e|v];
    simpl; [discriminate|].
  destruct v as [|x v]; simpl; [discriminate|].
  intros [= <-]. simpl. repeat split; congruence.
Qed.

(** A failing prefix decides the whole normalisation. *)
Lemma normalize_pairs_first_invalid (pre post : list (pyfloat * pyfloat))
    (p : pyfloat * pyfloat) :
  forallb (fun q => negb (invalid_pair q)) pre = true ->
  invalid_pair p = true ->
  normalize_pairs (pre ++ p :: post) = Raise (ValueError SEngine.normalize_error)
  /\ attempted (pre ++ p :: post) = pre ++ [p].
Proof.
  intros Hpre Hp. induction pre as [|[s m] pre IH]; simpl.
  - destruct p as [s m]. simpl. rewrite (normalizeScore_invalid _ _ Hp). auto.
  - simpl in Hpre. apply andb_true_iff in Hpre as [Hq Hpre].
    apply negb_true_iff in Hq.
    destruct (normalizeScore_valid _ _ Hq) as [n ->]. simpl.
    destruct (IH Hpre) as [-> ->]. auto.
Qed.

Lemma first_invalid_split (pairs : list (pyfloat * pyfloat)) :
  existsb invalid_pair pairs = true ->
  exists pre p post,
    pairs = pre ++ p :: post
    /\ forallb (fun q => negb (invalid_pair q)) pre = true
    /\ invalid_pair p = true.
Proof.
  induction pairs as [|q pairs IH]; simpl; [discriminate|].
  destruct (invalid_pair q) eqn:Hq; simpl.
  - intros _. exists [], q, pairs. auto.
  - intros H. destruct (IH H) as (pre & p & post & -> & Hpre & Hp).
    exists (q :: pre), p, post. simpl. rewrite Hq, Hpre. auto.
Qed.

Lemma request_run (studentId : Z) (testScores maxScores : list pyfloat)
    (log : list event) :
  SEngine.request studentId testScores maxScores log =
  match build_base testScores maxScores with
  | Raise e => (Raise e, log ++ normalize_log testScores maxScores)
  | Return base =>
      (Return (SEngine.compute (build_wrapper studentId testScores maxScores base)),
       log ++ normalize_log testScores maxScores
           ++ normalize_log testScores maxScores
           ++ normalize_log testScores maxScores)
  end.
Proof.
  unfold SEngine.request. unfold mbind, M_bind, bind, ret. rewrite wrapper_run.
  destruct (build_base testScores maxScores); reflexivity.
Qed.

Lemma build_base_single (a b : R) :
  b <> 0 -> a <= b -> build_base [Fin a] [Fin b] = Return (single_base a b).
Proof.
  intros Hb Hab. unfold build_base. simpl.
  rewrite normalizeScore_Fin by assumption. reflexivity.
Qed.

(** C8 as stated fails: one request over the single pair (8, 10) enters
    [_normalizeAllScores] three times, not once. *)
Lemma C8_three_normalisations_counterexample :
  exists self log,
    run (SEngine.ComputeStudentPerformance_init 1 [Fin 8] [Fin 10])
    = (Return self, log)
    /\ count_normalize_all log = 3%nat
    /\ count_normalize_all log <> 1%nat.
Proof.
  unfold run. rewrite wrapper_run, (build_base_single 8 10) by lra.
  do 2 eexists. split; [reflexivity|].
  rewrite !count_normalize_all_app, !count_normalize_log. simpl. lia.
Qed.

(** C8, amended. Every request over raw score pairs that succeeds normalises
    the pairs three times, once in the constructor of each engine; the three
    engines hold equal normalised vectors, each the result of its own run. *)
Theorem C8_one_normalisation_per_engine (studentId : Z)
    (testScores maxScores : list pyfloat)
    (self : SEngine.ComputeStudentPerformance) (log : list event) :
  run (SEngine.ComputeStudentPerformance_init studentId testScores maxScores)
  = (Return self, log) ->
  exists v,
    normalize_pairs (combine testScores maxScores) = Return v
    /\ log = normalize_log testScores maxScores
             ++ normalize_log testScores maxScores
             ++ normalize_log testScores maxScores
    /\ count_normalize_all log = 3%nat
    /\ SEngine.normalizedTestScores
         (SEngine.consistency_base (SEngine.consistencyScoresObj self)) = v
    /\ SEngine.normalizedTestScores
         (SEngine.statistics_base (SEngine.statisticsObj self)) = v
    /\ SEngine.normalizedTestScores
         (SEngine.distribution_base (SEngine.distributionScoresObj self)) = v.
Proof.
  unfold run. rewrite wrapper_run.
  destruct (build_base testScores maxScores) as [e|base] eqn:Hbase;
    [discriminate|].
  rewrite app_nil_l. intros Heq. apply pair_equal_spec in Heq as [Hs <-].
  injection Hs as <-. destruct (build_base_normalized _ _ _ Hbase) as (Hv & _).
  exists (SEngine.normalizedTestScores base).
  rewrite !count_normalize_all_app, !count_normalize_log. repeat split; auto.
Qed.

Lemma C8_one_normalisation_per_engine_witness :
  exists v,
    normalize_pairs (combine [Fin 8] [Fin 10]) = Return v
    /\ normalize_log [Fin 8] [Fin 10] ++ normalize_log [Fin 8] [Fin 10]
         ++ normalize_log [Fin 8] [Fin 10]
       = normalize_log [Fin 8] [Fin 10] ++ normalize_log [Fin 8] [Fin 10]
         ++ normalize_log [Fin 8] [Fin 10]
    /\ count_normalize_all
         (normalize_log [Fin 8] [Fin 10] ++ normalize_log [Fin 8] [Fin 10]
          ++ normalize_log [Fin 8] [Fin 10]) = 3%nat
    /\ [Fin (8 / 10 * 10)] = v /\ [Fin (8 / 10 * 10)] = v
    /\ [Fin (8 / 10 * 10)] = v.
Proof.
  apply (C8_one_normalisation_per_engine 1 [Fin 8] [Fin 10]
           (build_wrapper 1 [Fin 8] [Fin 10] (single_base 8 10))).
  unfold run. rewrite wrapper_run, (build_base_single 8 10) by lra.
  reflexivity.
Defined.

(** C9. When the zipped input holds an invalid pair, the loop of
    [_normalizeAllScores] raises at the first such pair in input order: the
    log shows the pairs before it and that pair, and none after.  No vector is
    returned, and the whole request raises the same error after this single
    normalisation attempt, so no report is produced. *)
Theorem C9_fail_fast_no_partial_report (studentId : Z)
    (testScores maxScores : list pyfloat) :
  existsb invalid_pair (combine testScores maxScores) = true ->
  exists pre p post,
    combine testScores maxScores = pre ++ p :: post
    /\ forallb (fun q => negb (invalid_pair q)) pre = true
    /\ invalid_pair p = true
    /\ run (SEngine._normalizeAllScores testScores maxScores)
       = (Raise (ValueError SEngine.normalize_error),
          EvNormalizeAll :: score_events (pre ++ [p]))
    /\ run (SEngine.request studentId testScores maxScores)
       = (Raise (ValueError SEngine.normalize_error),
          EvNormalizeAll :: score_events (pre ++ [p])).
Proof.
  intros H. destruct (first_invalid_split _ H) as (pre & p & post & Hc & Hpre & Hp).
  exists pre, p, post. repeat (split; [assumption|]).
  destruct (normalize_pairs_first_invalid pre post p Hpre Hp) as [Hn Ha].
  unfold run. rewrite normalizeAllScores_run, request_run.
  unfold build_base, normalize_log. rewrite Hc, Hn, Ha. split; reflexivity.
Qed.

Lemma C9_fail_fast_no_partial_report_witness :
  exists pre p post,
    combine [Fin 8; Fin 11; Fin 5] [Fin 10; Fin 10; Fin 0] = pre ++ p :: post
    /\ forallb (fun q => negb (invalid_pair q)) pre = true
    /\ invalid_pair p = true
    /\ run (SEngine._normalizeAllScores [Fin 8; Fin 11; Fin 5]
              [Fin 10; Fin 10; Fin 0])
       = (Raise (ValueError SEngine.normalize_error),
          EvNormalizeAll :: score_events (pre ++ [p]))
    /\ run (SEngine.request 1 [Fin 8; Fin 11; Fin 5] [Fin 10; Fin 10; Fin 0])
       = (Raise (ValueError SEngine.normalize_error),
          EvNormalizeAll :: score_events (pre ++ [p])).
Proof.
  apply (C9_fail_fast_no_partial_report 1 [Fin 8; Fin 11; Fin 5]
           [Fin 10; Fin 10; Fin 0]).
  unfold fgtb. simpl.
  rewrite (bool_decide_eq_true_2 (10 < 11)) by lra.
  rewrite !orb_true_r. reflexivity.
Defined.

(** ** The merged report *)

Lemma dict_or_lookup (a b : gmap string pyfloat) (k : string) :
  dict_or a b !! k = match b !! k with Some y => Some y | None => a !! k end.
Proof.
  unfold dict_or. destruct (b !! k) as [y|] eqn:Hb.
  - now apply lookup_union_Some_l.
  - rewrite lookup_union_r by assumption. reflexivity.
Qed.

Lemma dom_dict_or (a b : gmap string pyfloat) :
  dom (dict_or a b) = dom a ∪ dom b.
Proof. unfold dict_or. rewrite dom_union_L. apply (comm_L union). Qed.

(** Key sets and lookups of dictionary literals. *)
Ltac dom_of_literal :=
  cbv zeta; rewrite ?dom_dict_or, ?dom_insert_L, ?dom_singleton_L.

Ltac lookup_literal :=
  repeat first
    [ rewrite lookup_insert_eq
    | rewrite lookup_insert_ne by discriminate
    | rewrite lookup_singleton_eq
    | rewrite lookup_singleton_ne by discriminate ].

Lemma dom_returnConsistencyScores (self : SEngine.ConsistencyComputeEngine) :
  dom (SEngine.returnConsistencyScores self) = {[ "consistency"; "mad" ]}.
Proof.
  unfold SEngine.returnConsistencyScores. cbv zeta.
  rewrite !dom_insert_L, dom_singleton_L. reflexivity.
Qed.

Lemma dom_returnStatistics (self : SEngine.StatisticsComputeEngine) :
  dom (SEngine.returnStatistics self)
  = {[ "mean"; "skewness"; "min"; "max" ]} ∪ {[ "q1"; "median"; "q3" ]}.
Proof.
  unfold SEngine.returnStatistics, SEngine._calculatePercentiles. cbv zeta.
  rewrite dom_dict_or, !dom_insert_L, !dom_singleton_L. reflexivity.
Qed.

Lemma dom_returnDistributionScores (self : SEngine.DistributionComputeEngine) :
  dom (SEngine.returnDistributionScores self)
  = {[ "entropy"; "range"; "cv"; "std" ]}.
Proof.
  unfold SEngine.returnDistributionScores.
  rewrite !dom_insert_L, dom_singleton_L. reflexivity.
Qed.

Lemma size_metric_keys : size metric_keys = 13%nat.
Proof. reflexivity. Qed.

Lemma dom_compute (self : SEngine.ComputeStudentPerformance) :
  dom (SEngine.compute self) = metric_keys.
Proof.
  unfold SEngine.compute. cbv zeta.
  rewrite !dom_dict_or, dom_returnConsistencyScores, dom_returnStatistics,
    dom_returnDistributionScores.
  unfold metric_keys. set_solver.
Qed.

(** C2 as stated fails on the count: the report of the request over the single
    pair (8, 10) has thirteen keys, not nine. *)
Lemma C2_thirteen_keys_counterexample :
  exists report,
    fst (run (SEngine.request 1 [Fin 8] [Fin 10])) = Return report
    /\ size (dom report) = 13%nat
    /\ size (dom report) <> 9%nat.
Proof.
  unfold run. rewrite request_run, (build_base_single 8 10) by lra.
  eexists. split; [reflexivity|]. rewrite dom_compute, size_metric_keys.
  split; [reflexivity | discriminate].
Qed.

(** C2, amended. For every wrapper object of either variant the merged report
    has exactly the thirteen keys consistency, mad, mean, skewness, min, max,
    q1, median, q3, entropy, range, cv and std.  The key sets of the three
    engines are pairwise disjoint and the merged key set is their union.  The
    merge is the plain dictionary union: it asserts nothing, and on a shared
    key it would keep the right-hand value. *)
Theorem C2_merged_report_keys (self : SEngine.ComputeStudentPerformance)
    (self' : StudentEngine.ComputeStudentPerformance) :
  let c := SEngine.returnConsistencyScores (SEngine.consistencyScoresObj self) in
  let s := SEngine.returnStatistics (SEngine.statisticsObj self) in
  let d := SEngine.returnDistributionScores (SEngine.distributionScoresObj self) in
  let c' := StudentEngine.returnConsistencyScores
              (StudentEngine.consistencyScoresObj self') in
  let s' := StudentEngine.returnStatistics (StudentEngine.statisticsObj self') in
  let d' := StudentEngine.returnDistributionScores
              (StudentEngine.distributionScoresObj self') in
  (dom (SEngine.compute self) = metric_keys
   /\ dom (StudentEngine.compute self') = metric_keys
   /\ size metric_keys = 13%nat)
  /\ (dom c ## dom s /\ dom c ## dom d /\ dom s ## dom d)
  /\ (dom c' ## dom s' /\ dom c' ## dom d' /\ dom s' ## dom d')
  /\ dom (SEngine.compute self) = dom c ∪ dom s ∪ dom d
  /\ dom (StudentEngine.compute self') = dom c' ∪ dom s' ∪ dom d'
  /\ (forall (a b : gmap string pyfloat) (k : string),
        dict_or a b !! k
        = match b !! k with Some y => Some y | None => a !! k end).
Proof.
  intros c s d c' s' d'.
  assert (Hc : dom c = {[ "consistency"; "mad" ]})
    by apply dom_returnConsistencyScores.
  assert (Hs : dom s = {[ "mean"; "skewness"; "min"; "max" ]}
                       ∪ {[ "q1"; "median"; "q3" ]})
    by apply dom_returnStatistics.
  assert (Hd : dom d = {[ "entropy"; "range"; "cv"; "std" ]})
    by apply dom_returnDistributionScores.
  assert (Hc' : dom c' = {[ "consistency"; "mad" ]}).
  { subst c'. unfold StudentEngine.returnConsistencyScores. now dom_of_literal. }
  assert (Hs' : dom s' = {[ "mean"; "skewness"; "min"; "max" ]}
                         ∪ {[ "q1"; "median"; "q3" ]}).
  { subst s'. unfold StudentEngine.returnStatistics,
      StudentEngine._calculatePercentiles. now dom_of_literal. }
  assert (Hd' : dom d' = {[ "entropy"; "range"; "cv"; "std" ]}).
  { subst d'. unfold StudentEngine.returnDistributionScores. now dom_of_literal. }
  assert (Hall : dom (SEngine.compute self) = dom c ∪ dom s ∪ dom d).
  { unfold SEngine.compute. cbv zeta. now rewrite !dom_dict_or. }
  assert (Hall' : dom (StudentEngine.compute self') = dom c' ∪ dom s' ∪ dom d').
  { unfold StudentEngine.compute. cbv zeta. now rewrite !dom_dict_or. }
  split; [split; [apply dom_compute | split; [| apply size_metric_keys]] |].
  { rewrite Hall', Hc', Hs', Hd'. unfold metric_keys. set_solver. }
  rewrite Hall, Hall'. rewrite Hc, Hs, Hd, Hc', Hs', Hd'.
  repeat split; try set_solver. apply dict_or_lookup.
Qed.

(** ** Arrays of finite values *)

Lemma np_sum_Fin (l : list R) : np_sum (map Fin l) = Fin (Rsum l).
Proof.
  induction l as [|x l IH]; [reflexivity|].
  change (np_sum (map Fin (x :: l))) with (fadd (Fin x) (np_sum (map Fin l))).
  now rewrite IH.
Qed.

Lemma INR_length_pos {A} (l : list A) : l <> [] -> 0 < INR (length l).
Proof.
  destruct l; [congruence|]. intros _. apply lt_0_INR. simpl. lia.
Qed.

Lemma np_mean_Fin (l : list R) : l <> [] -> np_mean (map Fin l) = Fin (Rmean l).
Proof.
  intros Hl. unfold np_mean, array_size, Rmean.
  rewrite np_sum_Fin, length_map, fdiv_Fin; [reflexivity|].
  apply Rgt_not_eq, INR_length_pos, Hl.
Qed.

Lemma map_square_dev (m : R) (l : list R) :
  map (fun x => let d := fsub x (Fin m) in fmul d d) (map Fin l)
  = map Fin (map (fun x => (x - m) * (x - m)) l).
Proof. rewrite !map_map. reflexivity. Qed.

Lemma map_cube_dev (m : R) (l : list R) :
  map (fun x => let d := fsub x (Fin m) in fmul (fmul d d) d) (map Fin l)
  = map Fin (map (fun x => (x - m) * (x - m) * (x - m)) l).
Proof. rewrite !map_map. reflexivity. Qed.

Lemma map_abs_dev (m : R) (l : list R) :
  map (fun x => fabs (fsub x (Fin m))) (map Fin l)
  = map Fin (map (fun x => Rabs (x - m)) l).
Proof. rewrite !map_map. reflexivity. Qed.

Lemma map_nonempty {A B} (f : A -> B) (l : list A) : l <> [] -> map f l <> [].
Proof. destruct l; simpl; congruence. Qed.

Lemma np_var_Fin (l : list R) : l <> [] -> np_var (map Fin l) = Fin (Rvar l).
Proof.
  intros Hl. unfold np_var, Rvar. cbv zeta.
  rewrite (np_mean_Fin l Hl), map_square_dev.
  apply np_mean_Fin, map_nonempty, Hl.
Qed.

Lemma Rsum_nonneg (l : list R) : Forall (fun x => 0 <= x) l -> 0 <= Rsum l.
Proof.
  induction 1 as [|x l Hx _ IH]; simpl; lra.
Qed.

Lemma Rsum_zero_all (l : list R) :
  Forall (fun x => 0 <= x) l -> Rsum l = 0 -> Forall (fun x => x = 0) l.
Proof.
  induction 1 as [|x l Hx Hl IH]; simpl; intros Hs; constructor.
  - pose proof (Rsum_nonneg l Hl). lra.
  - apply IH. pose proof (Rsum_nonneg l Hl). lra.
Qed.

Lemma Rsum_all_zero (l : list R) : Forall (fun x => x = 0) l -> Rsum l = 0.
Proof. induction 1 as [|x l Hx _ IH]; simpl; lra. Qed.

Lemma Rsum_const (c : R) (l : list R) :
  Forall (fun x => x = c) l -> Rsum l = INR (length l) * c.
Proof.
  induction 1 as [|x l Hx _ IH]; [simpl; lra|].
  cbn [Rsum fold_right length]. fold (Rsum l). rewrite S_INR, IH, Hx. lra.
Qed.

Lemma Rmean_zero_iff (l : list R) : l <> [] -> Rmean l = 0 <-> Rsum l = 0.
Proof.
  intros Hl. pose proof (INR_length_pos l Hl) as Hn. unfold Rmean. split.
  - intros H. apply (Rmult_eq_reg_r (/ INR (length l))).
    + unfold Rdiv in H. lra.
    + apply Rinv_neq_0_compat. lra.
  - intros ->. unfold Rdiv. lra.
Qed.

Lemma squares_nonneg (m : R) (l : list R) :
  Forall (fun x => 0 <= x) (map (fun x => (x - m) * (x - m)) l).
Proof.
  induction l as [|a l IH]; simpl; [constructor|].
  constructor; [apply (Rle_0_sqr (a - m)) | exact IH].
Qed.

Lemma Rvar_nonneg (l : list R) : l <> [] -> 0 <= Rvar l.
Proof.
  intros Hl. unfold Rvar, Rmean at 1. rewrite length_map.
  pose proof (INR_length_pos l Hl) as Hn.
  pose proof (Rsum_nonneg _ (squares_nonneg (Rmean l) l)) as Hs.
  apply Rmult_le_pos; [exact Hs|]. left. now apply Rinv_0_lt_compat.
Qed.

(** Zero population variance means every entry is the mean. *)
Lemma Rvar_zero_all_mean (l : list R) :
  l <> [] -> Rvar l = 0 -> Forall (fun x => x = Rmean l) l.
Proof.
  intros Hl Hv. unfold Rvar in Hv.
  apply Rmean_zero_iff in Hv; [| now apply map_nonempty].
  apply Rsum_zero_all in Hv; [| apply squares_nonneg].
  rewrite Forall_map in Hv. eapply List.Forall_impl; [| exact Hv].
  intros x Hx. simpl in Hx. nra.
Qed.

Lemma Rvar_all_mean (l : list R) :
  l <> [] -> Forall (fun x => x = Rmean l) l -> Rvar l = 0.
Proof.
  intros Hl Hall. unfold Rvar.
  apply Rmean_zero_iff; [now apply map_nonempty|].
  apply Rsum_all_zero. rewrite Forall_map.
  eapply List.Forall_impl; [| exact Hall]. intros x ->. simpl. lra.
Qed.

Lemma Rmean_const (c : R) (l : list R) :
  l <> [] -> Forall (fun x => x = c) l -> Rmean l = c.
Proof.
  intros Hl Hall. unfold Rmean. rewrite (Rsum_const c l Hall).
  pose proof (INR_length_pos l Hl). field. lra.
Qed.

(** Zero population variance is the same as all entries being equal. *)
Lemma Rvar_zero_iff_identical (l : list R) :
  l <> [] ->
  Rvar l = 0 <-> (forall x y, In x l -> In y l -> x = y).
Proof.
  intros Hl. split.
  - intros Hv x y Hx Hy.
    pose proof (Rvar_zero_all_mean l Hl Hv) as Hall.
    rewrite List.Forall_forall in Hall. rewrite (Hall x), (Hall y); auto.
  - intros Heq. apply Rvar_all_mean; [exact Hl|].
    destruct l as [|c l]; [congruence|].
    assert (Hc : Forall (fun x => x = c) (c :: l)).
    { apply List.Forall_forall. intros x Hx. apply Heq; simpl; auto. }
    rewrite (Rmean_const c _ Hl Hc). exact Hc.
Qed.

(** ** The consistency score *)

Lemma consistency_init_run (testScores maxScores : list pyfloat)
    (log : list event) :
  SEngine.ConsistencyComputeEngine_init testScores maxScores log =
  (base ← build_base testScores maxScores;
   mret {| SEngine.consistency_base :=
             SEngine.set_name "Consistency Compute Engine" base;
           SEngine.ALPHA := Fin 0.3;
           SEngine.BETA := Fin 0.7 |},
   log ++ normalize_log testScores maxScores).
Proof.
  unfold SEngine.ConsistencyComputeEngine_init, mbind at 1.
  unfold M_bind, bind, ret. rewrite init_run.
  destruct (build_base testScores maxScores); reflexivity.
Qed.

Lemma consistency_value (v s : R) :
  0 <= v -> 0 <= s ->
  fdiv (Fin 1) (fadd (fadd (Fin 1) (fmul (Fin 0.3) (Fin v))) (fmul (Fin 0.7) (Fin s)))
  = Fin (1 / (1 + 0.3 * v + 0.7 * s)).
Proof. intros Hv Hs. simpl fadd. apply fdiv_Fin. lra. Qed.

Lemma consistency_bounds (v s : R) :
  0 <= v -> 0 <= s ->
  let c := 1 / (1 + 0.3 * v + 0.7 * s) in
  0 < c <= 1 /\ (c = 1 <-> v = 0 /\ s = 0).
Proof.
  intros Hv Hs c. subst c.
  set (d := 1 + 0.3 * v + 0.7 * s). assert (Hd : 1 <= d) by (unfold d; lra).
  assert (Hinv : 0 < / d) by (apply Rinv_0_lt_compat; lra).
  assert (Hmul : d * / d = 1) by (apply Rinv_r; lra).
  unfold Rdiv. rewrite Rmult_1_l. split; [split; [exact Hinv | nra] |].
  split.
  - intros H1. rewrite H1 in Hmul. unfold d in Hmul. lra.
  - intros [Hv0 Hs0]. assert (Hd1 : d = 1) by (unfold d; lra).
    clearbody d. subst d. lra.
Qed.




(** ** The coefficient of variation *)

Lemma distribution_init_run (testScores maxScores : list pyfloat)
    (log : list event) :
  SEngine.DistributionComputeEngine_init testScores maxScores log =
  (base ← build_base testScores maxScores;
   mret {| SEngine.distribution_base :=
             SEngine.set_name "Distribution Compute Engine" base;
           SEngine.logarithmBase := 2 |},
   log ++ normalize_log testScores maxScores).
Proof.
  unfold SEngine.DistributionComputeEngine_init, mbind at 1.
  unfold M_bind, bind, ret. rewrite init_run.
  destruct (build_base testScores maxScores); reflexivity.
Qed.

Lemma build_base_exists (testScores maxScores v : list pyfloat) :
  normalize_pairs (combine testScores maxScores) = Return v -> v <> [] ->
  exists base, build_base testScores maxScores = Return base
               /\ SEngine.normalizedTestScores base = v.
Proof.
  intros Hv Hne. unfold build_base. rewrite Hv.
  destruct v as [|x v]; [congruence|]. simpl. eauto.
Qed.

Lemma np_std_Fin (xs : list R) : xs <> [] -> np_std (map Fin xs) = Fin (Rstd xs).
Proof.
  intros Hl. unfold np_std. rewrite (np_var_Fin xs Hl).
  apply fsqrt_Fin, Rvar_nonneg, Hl.
Qed.

(** The quotient [std / mean] on a finite non-empty array. *)
Lemma cv_Fin (xs : list R) :
  xs <> [] ->
  fdiv (np_std (map Fin xs)) (np_mean (map Fin xs))
  = if bool_decide (Rmean xs = 0)
    then if bool_decide (Rstd xs = 0) then NaN else PInf
    else Fin (Rstd xs / Rmean xs).
Proof.
  intros Hl. rewrite (np_std_Fin xs Hl), (np_mean_Fin xs Hl). simpl.
  case_bool_decide; [| reflexivity].
  case_bool_decide; [reflexivity|].
  rewrite bool_decide_eq_true_2; [reflexivity|].
  pose proof (sqrt_pos (Rvar xs)). unfold Rstd in *. lra.
Qed.


Lemma Rvar_single (x : R) : Rvar [x] = 0.
Proof.
  apply Rvar_all_mean; [discriminate|].
  constructor; [| constructor]. unfold Rmean, Rsum. simpl. field.
Qed.




(** ** Skewness *)

Lemma statistics_init_run (testScores maxScores : list pyfloat)
    (log : list event) :
  SEngine.StatisticsComputeEngine_init testScores maxScores log =
  (base ← build_base testScores maxScores;
   mret {| SEngine.statistics_base :=
             SEngine.set_name "Statistics Compute Engine" base |},
   log ++ normalize_log testScores maxScores).
Proof.
  unfold SEngine.StatisticsComputeEngine_init, mbind at 1.
  unfold M_bind, bind, ret. rewrite init_run.
  destruct (build_base testScores maxScores); reflexivity.
Qed.

(** On constant data the second central moment vanishes, which the test of
    [skew] catches whatever the tolerance. *)
Lemma skew_with_degenerate (tolerance : R) (xs : list R) :
  xs <> [] -> Rvar xs = 0 -> skew_with tolerance (map Fin xs) = NaN.
Proof.
  intros Hl Hv. unfold skew_with. cbv zeta.
  rewrite (np_mean_Fin xs Hl), map_square_dev.
  rewrite (np_mean_Fin _ (map_nonempty _ _ Hl)).
  fold (Rvar xs). rewrite Hv. simpl.
  rewrite bool_decide_eq_true_2; [reflexivity|].
  apply Rle_0_sqr.
Qed.

Lemma skew_degenerate (xs : list R) :
  xs <> [] -> Rvar xs = 0 -> skew (map Fin xs) = NaN.
Proof. apply skew_with_degenerate. Qed.

(** A single value, finite or not, has no skewness. *)
Lemma skew_with_single (tolerance : R) (x : pyfloat) :
  skew_with tolerance [x] = NaN.
Proof.
  destruct x as [| | |a].
  - reflexivity.
  - unfold skew_with, np_mean, np_sum, array_size. simpl.
    rewrite !bool_decide_eq_false_2 by lra. reflexivity.
  - unfold skew_with, np_mean, np_sum, array_size. simpl.
    rewrite !bool_decide_eq_false_2 by lra. reflexivity.
  - apply (skew_with_degenerate tolerance [a]);
      [discriminate | apply Rvar_single].
Qed.

Lemma compute_lookup_skewness (self : SEngine.ComputeStudentPerformance) :
  SEngine.compute self !! "skewness"
  = Some (SEngine._checkSkewness (SEngine.statisticsObj self)).
Proof.
  unfold SEngine.compute. cbv zeta. rewrite !dict_or_lookup.
  unfold SEngine.returnDistributionScores, SEngine.returnStatistics,
    SEngine._calculatePercentiles. cbv zeta. rewrite dict_or_lookup.
  lookup_literal. reflexivity.
Qed.

(** C5 as stated fails on the value: for the single pair (7, 10) the request
    succeeds and reports NaN as skewness, which is not the sentinel 0.0. *)
Lemma C5_single_score_counterexample :
  exists report,
    fst (run (SEngine.request 1 [Fin 7] [Fin 10])) = Return report
    /\ report !! "skewness" = Some NaN
    /\ feqb NaN (Fin 0) = false.
Proof.
  unfold run. rewrite request_run, (build_base_single 7 10) by lra.
  eexists. split; [reflexivity|]. split; [| reflexivity].
  rewrite compute_lookup_skewness. f_equal.
  unfold SEngine._checkSkewness. simpl SEngine.normalizedTestScores.
  apply (skew_degenerate [7 / 10 * 10]); [discriminate | apply Rvar_single].
Qed.

(** C5, amended. For a statistics engine of either variant whose normalised
    vector holds a single score, the skewness is computed without raising
    and is NaN: for a finite score the second central moment is 0, which the
    test of [scipy.stats.skew] catches for every tolerance, and for an
    infinite one the moments are NaN themselves.  No 0.0 is substituted, and
    the report carries that NaN under "skewness". *)
Theorem C5_single_score_skewness_is_nan
    (self : SEngine.StatisticsComputeEngine) (x : pyfloat) :
  SEngine.normalizedTestScores (SEngine.statistics_base self) = [x] ->
  SEngine._checkSkewness self = NaN
  /\ SEngine.returnStatistics self !! "skewness" = Some NaN
  /\ (forall tolerance, skew_with tolerance [x] = NaN)
  /\ exists self', StudentEngine.StatisticsComputeEngine_init [x] = Return self'
                   /\ StudentEngine._checkSkewness self' = NaN
                   /\ StudentEngine.returnStatistics self' !! "skewness"
                      = Some NaN.
Proof.
  intros Hx.
  assert (Hskew : SEngine._checkSkewness self = NaN).
  { unfold SEngine._checkSkewness. rewrite Hx. apply skew_with_single. }
  split; [exact Hskew | split; [| split]].
  - unfold SEngine.returnStatistics, SEngine._calculatePercentiles. cbv zeta.
    rewrite dict_or_lookup. lookup_literal. now rewrite Hskew.
  - intros tolerance. apply skew_with_single.
  - unfold StudentEngine.StatisticsComputeEngine_init, StudentEngine.init.
    simpl. eexists. split; [reflexivity|].
    assert (Hskew' : forall self' : StudentEngine.StatisticsComputeEngine,
               StudentEngine.normalizedTestScores
                 (StudentEngine.statistics_base self') = [x] ->
               StudentEngine._checkSkewness self' = NaN).
    { intros self' Hx'. unfold StudentEngine._checkSkewness. rewrite Hx'.
      apply skew_with_single. }
    split; [now apply Hskew'|].
    unfold StudentEngine.returnStatistics, StudentEngine._calculatePercentiles.
    cbv zeta. rewrite dict_or_lookup. lookup_literal.
    now rewrite Hskew'.
Qed.

Lemma C5_single_score_skewness_is_nan_witness :
  let self := SEngine.statisticsObj
                (build_wrapper 1 [Fin 7] [Fin 10] (single_base 7 10)) in
  SEngine._checkSkewness self = NaN
  /\ SEngine.returnStatistics self !! "skewness" = Some NaN
  /\ (forall tolerance, skew_with tolerance [Fin (7 / 10 * 10)] = NaN)
  /\ exists self', StudentEngine.StatisticsComputeEngine_init [Fin (7 / 10 * 10)]
                   = Return self'
                   /\ StudentEngine._checkSkewness self' = NaN
                   /\ StudentEngine.returnStatistics self' !! "skewness"
                      = Some NaN.
Proof.
  apply (C5_single_score_skewness_is_nan _ (Fin (7 / 10 * 10))).
  reflexivity.
Defined.

(** ** Shannon entropy *)

Lemma filter_positive_Fin (xs : list R) :
  List.filter (fun x => fgtb x (Fin 0)) (map Fin xs) = map Fin (positives xs).
Proof.
  induction xs as [|x xs IH]; [reflexivity|].
  cbn [map List.filter positives]. unfold fgtb at 1. cbn [fltb].
  fold (positives xs). destruct (bool_decide (0 < x)); cbn [map]; now rewrite IH.
Qed.

Lemma positives_positive (xs : list R) : Forall (fun x => 0 < x) (positives xs).
Proof.
  induction xs as [|x xs IH]; [constructor|].
  cbn [positives List.filter]. fold (positives xs).
  case_bool_decide; [constructor; assumption | assumption].
Qed.

Lemma Rsum_pos (l : list R) : l <> [] -> Forall (fun x => 0 < x) l -> 0 < Rsum l.
Proof.
  intros Hl Hall. destruct Hall as [|x l Hx Hall]; [congruence|].
  assert (0 <= Rsum l); [| simpl; lra].
  apply Rsum_nonneg. eapply List.Forall_impl; [| exact Hall].
  intros a Ha. simpl in Ha. lra.
Qed.

Lemma mem_le_Rsum (l : list R) (x : R) :
  Forall (fun x => 0 < x) l -> In x l -> x <= Rsum l.
Proof.
  induction 1 as [|a l Ha Hall IH]; simpl; [tauto|].
  assert (0 <= Rsum l).
  { apply Rsum_nonneg. eapply List.Forall_impl; [| exact Hall].
    intros b Hb. simpl in Hb. lra. }
  intros [-> | Hx]; [lra|]. specialize (IH Hx). lra.
Qed.

Lemma mem_lt_Rsum (l : list R) (x : R) :
  Forall (fun x => 0 < x) l -> (2 <= length l)%nat -> In x l -> x < Rsum l.
Proof.
  intros Hall Hlen Hx. destruct Hall as [|a l Ha Hall]; [simpl in Hlen; lia|].
  simpl. destruct Hx as [-> | Hx].
  - assert (0 < Rsum l); [| lra].
    apply Rsum_pos; [| assumption]. destruct l; simpl in Hlen; [lia | discriminate].
  - pose proof (mem_le_Rsum l x Hall Hx). lra.
Qed.

Lemma ln_2_pos : 0 < ln 2.
Proof. rewrite <- ln_1. apply ln_increasing; lra. Qed.

Lemma log2_1 : log2 1 = 0.
Proof. unfold log2. rewrite ln_1. unfold Rdiv. lra. Qed.

Lemma log2_lt_0 (p : R) : 0 < p < 1 -> log2 p < 0.
Proof.
  intros [H0 H1]. unfold log2, Rdiv.
  assert (ln p < 0) by (rewrite <- ln_1; now apply ln_increasing).
  pose proof (Rinv_0_lt_compat _ ln_2_pos). nra.
Qed.

Lemma log2_gt_0 (p : R) : 1 < p -> 0 < log2 p.
Proof.
  intros H1. unfold log2, Rdiv.
  assert (0 < ln p) by (rewrite <- ln_1; apply ln_increasing; lra).
  pose proof (Rinv_0_lt_compat _ ln_2_pos). nra.
Qed.

Lemma Rsum_map_nonpos {A} (f : A -> R) (l : list A) :
  (forall x, In x l -> f x <= 0) -> Rsum (map f l) <= 0.
Proof.
  induction l as [|a l IH]; simpl; intros H; [lra|].
  pose proof (H a (or_introl eq_refl)).
  assert (Rsum (map f l) <= 0) by (apply IH; intros; apply H; now right).
  unfold Rsum in *. lra.
Qed.

Lemma Rsum_map_neg {A} (f : A -> R) (l : list A) :
  l <> [] -> (forall x, In x l -> f x < 0) -> Rsum (map f l) < 0.
Proof.
  intros Hl H. destruct l as [|a l]; [congruence|]. simpl.
  pose proof (H a (or_introl eq_refl)).
  assert (Rsum (map f l) <= 0).
  { apply Rsum_map_nonpos. intros x Hx. left. apply H. now right. }
  unfold Rsum in *. lra.
Qed.

Lemma ratio_bounds (x s : R) : 0 < x -> x <= s -> 0 < x / s <= 1.
Proof.
  intros Hx Hs. assert (Hinv : 0 < / s) by (apply Rinv_0_lt_compat; lra).
  assert (Hmul : s * / s = 1) by (apply Rinv_r; lra).
  unfold Rdiv. split; nra.
Qed.

Lemma ratio_lt_1 (x s : R) : 0 < x -> x < s -> x / s < 1.
Proof.
  intros Hx Hs. assert (Hinv : 0 < / s) by (apply Rinv_0_lt_compat; lra).
  assert (Hmul : s * / s = 1) by (apply Rinv_r; lra).
  unfold Rdiv. nra.
Qed.

Lemma plogp_nonpos (p : R) : 0 < p <= 1 -> p * log2 p <= 0.
Proof.
  intros [H0 [H1 | ->]].
  - pose proof (log2_lt_0 p (conj H0 H1)). nra.
  - rewrite log2_1. lra.
Qed.

Lemma plogp_neg (p : R) : 0 < p < 1 -> p * log2 p < 0.
Proof. intros Hp. pose proof (log2_lt_0 p Hp). nra. Qed.

Lemma shannon_nonneg (l : list R) : Forall (fun x => 0 < x) l -> 0 <= shannon l.
Proof.
  intros Hall. unfold shannon.
  assert (Rsum (map (fun x => x / Rsum l * log2 (x / Rsum l)) l) <= 0); [| lra].
  apply Rsum_map_nonpos. intros x Hx. apply plogp_nonpos, ratio_bounds.
  - rewrite List.Forall_forall in Hall. now apply Hall.
  - now apply mem_le_Rsum.
Qed.

Lemma shannon_zero_iff (l : list R) :
  Forall (fun x => 0 < x) l -> shannon l = 0 <-> (length l <= 1)%nat.
Proof.
  intros Hall. split.
  - intros Hz. destruct (Nat.le_gt_cases (length l) 1) as [| Hlen]; [assumption|].
    exfalso. unfold shannon in Hz.
    assert (Rsum (map (fun x => x / Rsum l * log2 (x / Rsum l)) l) < 0); [| lra].
    apply Rsum_map_neg; [destruct l; simpl in Hlen; [lia | discriminate] |].
    intros x Hx. apply plogp_neg.
    assert (0 < x) by (rewrite List.Forall_forall in Hall; now apply Hall).
    pose proof (mem_lt_Rsum l x Hall Hlen Hx).
    split; [apply ratio_bounds; lra | now apply ratio_lt_1].
  - intros Hlen. destruct l as [|x [|y l]]; simpl in Hlen; [| | lia].
    + unfold shannon. simpl. lra.
    + inversion Hall as [|? ? Hx _]; subst. unfold shannon, Rsum. simpl.
      replace (x / (x + 0)) with 1 by (field; lra). rewrite log2_1. lra.
Qed.

Lemma map_plogp_Fin (q : list R) :
  Forall (fun p => 0 < p) q ->
  map (fun p => fmul p (flog2 p)) (map Fin q)
  = map Fin (map (fun p => p * log2 p) q).
Proof.
  induction 1 as [|p q Hp _ IH]; [reflexivity|].
  cbn [map]. rewrite IH, (flog2_Fin p Hp). reflexivity.
Qed.

Lemma map_fdiv_Fin (s : R) (l : list R) :
  s <> 0 ->
  map (fun x => fdiv x (Fin s)) (map Fin l) = map Fin (map (fun x => x / s) l).
Proof.
  intros Hs. induction l as [|x l IH]; [reflexivity|].
  cbn [map]. rewrite IH, (fdiv_Fin x s Hs). reflexivity.
Qed.

(** The entropy computation of the engines on a list of positive values. *)
Lemma entropy_positive_Fin (l : list R) :
  Forall (fun x => 0 < x) l ->
  fneg (np_sum (map (fun p => fmul p (flog2 p))
                  (map (fun x => fdiv x (np_sum (map Fin l))) (map Fin l))))
  = Fin (shannon l).
Proof.
  intros Hall. destruct l as [|a l]; [reflexivity|].
  set (P := a :: l) in *. assert (HP : P <> []) by discriminate.
  pose proof (Rsum_pos P HP Hall) as HS.
  rewrite np_sum_Fin, map_fdiv_Fin by lra.
  rewrite map_plogp_Fin, np_sum_Fin.
  - unfold shannon. rewrite map_map. reflexivity.
  - rewrite Forall_map. eapply List.Forall_impl; [| exact Hall].
    intros x Hx. simpl in *. apply Rdiv_lt_0_compat; lra.
Qed.

(** The same computation without the division, as [main.py] has it. *)
Lemma raw_entropy_positive_Fin (l : list R) :
  Forall (fun x => 0 < x) l ->
  fneg (np_sum (map (fun p => fmul p (flog2 p)) (map Fin l)))
  = Fin (raw_xlog2x l).
Proof.
  intros Hall. rewrite map_plogp_Fin, np_sum_Fin by assumption. reflexivity.
Qed.

Lemma engine_entropy_Fin (self : SEngine.DistributionComputeEngine) (xs : list R) :
  SEngine.normalizedTestScores (SEngine.distribution_base self) = map Fin xs ->
  SEngine._calculateShannonEntropy self = Fin (shannon (positives xs)).
Proof.
  intros Hxs. unfold SEngine._calculateShannonEntropy. cbv zeta.
  rewrite Hxs, filter_positive_Fin.
  apply entropy_positive_Fin, positives_positive.
Qed.

Lemma main_entropy_Fin (self : Main.DistributionAnalyzer) (xs : list R) :
  Main.normalizedTestScores (Main.distribution_base self) = map Fin xs ->
  Main._calculateShannonEntropy self = Fin (raw_xlog2x (positives xs)).
Proof.
  intros Hxs. unfold Main._calculateShannonEntropy. cbv zeta.
  rewrite Hxs, filter_positive_Fin.
  apply raw_entropy_positive_Fin, positives_positive.
Qed.

Lemma main_distribution_init_run (studentId : Z)
    (testScores maxScores : list pyfloat) (log : list event) :
  Main.DistributionAnalyzer_init studentId testScores maxScores log =
  (normalized ← normalize_pairs (combine testScores maxScores);
   maximum ← np_max normalized;
   minimum ← np_min normalized;
   mret {| Main.distribution_base :=
             {| Main.studentId := studentId;
                Main.testScores := testScores;
                Main.maxScores := maxScores;
                Main.normalizedTestScores := normalized;
                Main.maximumScore := maximum;
                Main.minimumScore := minimum |};
           Main.name := "Distribution Analyzer Engine";
           Main.logarithmBase := 2 |},
   log ++ normalize_log testScores maxScores).
Proof.
  unfold Main.DistributionAnalyzer_init, Main.init.
  change (Main._normalizeAllScores testScores maxScores)
    with (SEngine._normalizeAllScores testScores maxScores).
  unfold mbind at 1 2. unfold M_bind, bind. rewrite normalizeAllScores_run.
  destruct (normalize_pairs (combine testScores maxScores)) as [e|v];
    [reflexivity|].
  unfold mbind, M_bind, bind, lift, ret, outcome_bind.
  destruct (np_max v); [reflexivity|]. destruct (np_min v); reflexivity.
Qed.

Lemma positives_single (x : R) : 0 < x -> positives [x] = [x].
Proof.
  intros Hx. unfold positives. simpl. now rewrite bool_decide_eq_true_2.
Qed.

(** C1 as stated fails: the three equal scores 8 out of 10 leave one distinct
    positive value, yet the entropy is not 0. *)
Lemma C1_entropy_counterexample :
  exists self log h,
    run (SEngine.DistributionComputeEngine_init
           [Fin 8; Fin 8; Fin 8] [Fin 10; Fin 10; Fin 10]) = (Return self, log)
    /\ SEngine.normalizedTestScores (SEngine.distribution_base self)
       = [Fin (8 / 10 * 10); Fin (8 / 10 * 10); Fin (8 / 10 * 10)]
    /\ SEngine._calculateShannonEntropy self = Fin h
    /\ h <> 0.
Proof.
  set (v := 8 / 10 * 10). assert (Hv : 0 < v) by (unfold v; lra).
  destruct (build_base_exists [Fin 8; Fin 8; Fin 8] [Fin 10; Fin 10; Fin 10]
              (map Fin [v; v; v])) as (base & Hb & Hn).
  { simpl. rewrite !normalizeScore_Fin by lra. reflexivity. }
  { discriminate. }
  unfold run. rewrite distribution_init_run, Hb.
  do 3 eexists. split; [reflexivity|]. split; [exact Hn|].
  split; [apply (engine_entropy_Fin _ [v; v; v]); exact Hn|].
  assert (Hp : positives [v; v; v] = [v; v; v]).
  { unfold positives. simpl. now rewrite bool_decide_eq_true_2. }
  rewrite Hp. intros Hz. apply shannon_zero_iff in Hz; [simpl in Hz; lia|].
  repeat constructor; exact Hv.
Qed.

(** C1, amended. On finite normalised scores the distribution engine of
    [s_engine.py] filters the strictly positive values, divides each by their
    sum and returns [H = -sum (p * log2 p)], which is 0 when nothing is left.
    The result is at least 0 and equals 0 exactly when at most one positive
    entry is left, entries counted with repetition. *)
Theorem C1_shannon_entropy (self : SEngine.DistributionComputeEngine)
    (xs : list R) :
  SEngine.normalizedTestScores (SEngine.distribution_base self) = map Fin xs ->
  let filtered := positives xs in
  SEngine._calculateShannonEntropy self = Fin (shannon filtered)
  /\ SEngine.returnDistributionScores self !! "entropy"
     = Some (Fin (shannon filtered))
  /\ (filtered = [] -> shannon filtered = 0)
  /\ 0 <= shannon filtered
  /\ (shannon filtered = 0 <-> (length filtered <= 1)%nat).
Proof.
  intros Hxs filtered.
  pose proof (positives_positive xs) as Hpos. fold filtered in Hpos.
  pose proof (engine_entropy_Fin self xs Hxs) as He. fold filtered in He.
  split; [exact He | split; [| split; [| split]]].
  - unfold SEngine.returnDistributionScores. rewrite lookup_insert_eq.
    now rewrite He.
  - intros ->. unfold shannon. simpl. lra.
  - now apply shannon_nonneg.
  - now apply shannon_zero_iff.
Qed.

Lemma C1_shannon_entropy_witness :
  let self := SEngine.distributionScoresObj
                (build_wrapper 1 [Fin 8] [Fin 10] (single_base 8 10)) in
  let filtered := positives [8 / 10 * 10] in
  SEngine._calculateShannonEntropy self = Fin (shannon filtered)
  /\ SEngine.returnDistributionScores self !! "entropy"
     = Some (Fin (shannon filtered))
  /\ (filtered = [] -> shannon filtered = 0)
  /\ 0 <= shannon filtered
  /\ (shannon filtered = 0 <-> (length filtered <= 1)%nat).
Proof.
  apply (C1_shannon_entropy
           (SEngine.distributionScoresObj
              (build_wrapper 1 [Fin 8] [Fin 10] (single_base 8 10)))
           [8 / 10 * 10]).
  reflexivity.
Defined.

(** ** The two wrappers and the analyzer variant *)

Lemma compute_lookup_entropy (self : SEngine.ComputeStudentPerformance) :
  SEngine.compute self !! "entropy"
  = Some (SEngine._calculateShannonEntropy (SEngine.distributionScoresObj self)).
Proof.
  unfold SEngine.compute. cbv zeta. rewrite dict_or_lookup.
  unfold SEngine.returnDistributionScores. lookup_literal. reflexivity.
Qed.

Lemma masked_filter (f : pyfloat -> bool) (a : list pyfloat) :
  StudentEngineTyped.masked a (map f a) = List.filter f a.
Proof.
  induction a as [|x a IH]; [reflexivity|]. simpl.
  destruct (f x); now rewrite IH.
Qed.

(** On an array the vector wrapper computes the report of [StudentEngine]. *)
Lemma compute_ndarray (self : StudentEngine.ComputeStudentPerformance) :
  StudentEngineTyped.compute NdArray self = Return (StudentEngine.compute self).
Proof.
  unfold StudentEngineTyped.compute, StudentEngineTyped.returnDistributionScores,
    StudentEngineTyped._calculateShannonEntropy,
    StudentEngineTyped.greater_than_zero.
  cbv zeta. simpl. rewrite masked_filter. reflexivity.
Qed.

(** The raw-input wrapper agrees with the vector wrapper on the array it
    normalises to, errors included. *)
Lemma request_agrees (studentId : Z) (testScores maxScores v : list pyfloat) :
  normalize_pairs (combine testScores maxScores) = Return v ->
  fst (run (SEngine.request studentId testScores maxScores))
  = StudentEngineTyped.request studentId NdArray v.
Proof.
  intros Hv. unfold run. rewrite request_run. unfold build_base. rewrite Hv.
  destruct v as [|x v]; [reflexivity|].
  unfold StudentEngineTyped.request. simpl. rewrite compute_ndarray.
  reflexivity.
Qed.

Lemma log2_ratio (x s : R) : 0 < x -> 0 < s -> log2 (x / s) = log2 x - log2 s.
Proof.
  intros Hx Hs. unfold log2. change (x / s) with (x * / s).
  rewrite ln_mult, ln_Rinv; [| assumption | assumption |
                              now apply Rinv_0_lt_compat].
  pose proof ln_2_pos. field. lra.
Qed.

Lemma log2_8 : log2 8 = 3.
Proof.
  unfold log2. replace 8 with (2 * 2 * 2) by lra.
  rewrite !ln_mult by lra. pose proof ln_2_pos. field. lra.
Qed.

(** C10. The first half holds where the vector wrapper is given the array;
    the second half fails in [main.py], whose analyzer leaves out the
    division by the sum that both engine files perform.  For the single pair
    (8, 10) the report holds entropy 0, and the analyzer, built from the same
    input, returns [-(8 * log2 8)], that is -24. *)
Theorem C10_main_entropy_omits_division :
  exists report analyzer log,
    fst (run (SEngine.request 1 [Fin 8] [Fin 10])) = Return report
    /\ StudentEngineTyped.request 1 NdArray [Fin (8 / 10 * 10)] = Return report
    /\ run (Main.DistributionAnalyzer_init 1 [Fin 8] [Fin 10])
       = (Return analyzer, log)
    /\ report !! "entropy" = Some (Fin 0)
    /\ Main._calculateShannonEntropy analyzer = Fin (-24).
Proof.
  assert (Hv : 0 < 8 / 10 * 10) by lra.
  assert (Hn : normalize_pairs (combine [Fin 8] [Fin 10])
               = Return [Fin (8 / 10 * 10)]).
  { simpl. rewrite normalizeScore_Fin by lra. reflexivity. }
  rewrite <- (request_agrees 1 _ _ _ Hn).
  unfold run. rewrite request_run, (build_base_single 8 10) by lra.
  rewrite main_distribution_init_run, Hn. simpl.
  do 3 eexists. split; [reflexivity|]. split; [reflexivity|].
  split; [reflexivity|]. split.
  - rewrite compute_lookup_entropy.
    rewrite (engine_entropy_Fin _ [8 / 10 * 10]) by reflexivity.
    do 2 f_equal. rewrite positives_single by exact Hv.
    apply shannon_zero_iff; [repeat constructor; exact Hv | simpl; lia].
  - rewrite (main_entropy_Fin _ [8 / 10 * 10]) by reflexivity. f_equal.
    rewrite positives_single by exact Hv. unfold raw_xlog2x, Rsum. simpl.
    replace (8 / 10 * 10) with 8 by lra. rewrite log2_8. lra.
Qed.

(** * Further properties of the engines *)

(** ** The normalised vector: length, order, empty and ragged input *)

Lemma normalize_pairs_Forall2 (pairs : list (pyfloat * pyfloat)) (v : list pyfloat) :
  normalize_pairs pairs = Return v ->
  Forall2 (fun p n => SEngine._normalizeScore (snd p) (fst p) = Return n) pairs v.
Proof.
  revert v. induction pairs as [|[score maxScore] pairs IH]; intros v; simpl.
  - intros [= <-]. constructor.
  - destruct (SEngine._normalizeScore maxScore score) as [e|n] eqn:Hn;
      simpl; [discriminate|].
    destruct (normalize_pairs pairs) as [e|rest]; simpl; [discriminate|].
    intros [= <-]. constructor; [exact Hn | now apply IH].
Qed.

Lemma attempted_all (pairs : list (pyfloat * pyfloat)) (v : list pyfloat) :
  normalize_pairs pairs = Return v -> attempted pairs = pairs.
Proof.
  revert v. induction pairs as [|[score maxScore] pairs IH]; intros v; simpl;
    [reflexivity|].
  destruct (SEngine._normalizeScore maxScore score) as [e|n]; simpl; [discriminate|].
  destruct (normalize_pairs pairs) as [e|rest] eqn:Hrest; simpl; [discriminate|].
  intros _. f_equal. now apply (IH rest).
Qed.

(** X1. When [_normalizeAllScores] returns, the vector has one entry per
    zipped pair, so its length is the shorter of the two input lengths; entry
    [i] is the normalisation of pair [i]; and the loop has visited every pair
    once, in input order. *)
Theorem X1_normalized_length_and_order (testScores maxScores v : list pyfloat)
    (log : list event) :
  run (SEngine._normalizeAllScores testScores maxScores) = (Return v, log) ->
  length v = Nat.min (length testScores) (length maxScores)
  /\ Forall2 (fun p n => SEngine._normalizeScore (snd p) (fst p) = Return n)
       (combine testScores maxScores) v
  /\ log = EvNormalizeAll :: score_events (combine testScores maxScores).
Proof.
  unfold run. rewrite normalizeAllScores_run, app_nil_l.
  intros Heq. apply pair_equal_spec in Heq as [Hv <-].
  pose proof (normalize_pairs_Forall2 _ _ Hv) as Hall.
  split; [| split; [exact Hall|]].
  - rewrite <- (List.Forall2_length Hall). apply length_combine.
  - unfold normalize_log. now rewrite (attempted_all _ _ Hv).
Qed.

Lemma X1_normalized_length_and_order_witness :
  length [Fin (8 / 10 * 10)] = Nat.min (length [Fin 8]) (length [Fin 10; Fin 20])
  /\ Forall2 (fun p n => SEngine._normalizeScore (snd p) (fst p) = Return n)
       (combine [Fin 8] [Fin 10; Fin 20]) [Fin (8 / 10 * 10)]
  /\ normalize_log [Fin 8] [Fin 10]
     = EvNormalizeAll :: score_events (combine [Fin 8] [Fin 10; Fin 20]).
Proof.
  apply (X1_normalized_length_and_order [Fin 8] [Fin 10; Fin 20]).
  unfold run. rewrite normalizeAllScores_run. simpl normalize_pairs.
  rewrite normalizeScore_Fin by lra. unfold normalize_log. simpl.
  rewrite normalizeScore_Fin by lra. reflexivity.
Defined.

(** X2. With no pair to normalise (either input list empty) the request does
    not return an empty report: the constructor of the first engine raises
    NumPy's [ValueError] for the maximum of an empty array, after a single
    normalisation that visited no pair. *)
Theorem X2_empty_input_raises (studentId : Z) (testScores maxScores : list pyfloat) :
  testScores = [] \/ maxScores = [] ->
  run (SEngine.request studentId testScores maxScores)
  = (Raise (ValueError zero_size_max), [EvNormalizeAll]).
Proof.
  intros Hempty.
  assert (Hc : combine testScores maxScores = []).
  { destruct Hempty as [-> | ->]; [reflexivity | now destruct testScores]. }
  unfold run. rewrite request_run. unfold build_base, normalize_log.
  rewrite Hc. reflexivity.
Qed.

Lemma X2_empty_input_raises_witness :
  run (SEngine.request 1 [Fin 5] [])
  = (Raise (ValueError zero_size_max), [EvNormalizeAll]).
Proof. apply (X2_empty_input_raises 1 [Fin 5] []). right. reflexivity. Defined.

Lemma normalize_pairs_ok_iff (pairs : list (pyfloat * pyfloat)) :
  (exists v, normalize_pairs pairs = Return v)
  <-> existsb invalid_pair pairs = false.
Proof.
  induction pairs as [|[score maxScore] pairs IH].
  - simpl. split; eauto.
  - cbn [existsb normalize_pairs].
    destruct (invalid_pair (score, maxScore)) eqn:Hp; cbn [orb].
    + rewrite (normalizeScore_invalid _ _ Hp). simpl.
      split; [intros [v Hv]; discriminate | discriminate].
    + destruct (normalizeScore_valid _ _ Hp) as [n ->]. simpl.
      rewrite <- IH. split.
      * intros [v Hv]. destruct (normalize_pairs pairs); simpl in Hv;
          [discriminate | eauto].
      * intros [v ->]. simpl. eauto.
Qed.

(** X3. A request over raw scores returns a report exactly when there is at
    least one zipped pair and no zipped pair is invalid; nothing else in the
    pipeline can raise. *)
Theorem X3_request_succeeds_iff (studentId : Z) (testScores maxScores : list pyfloat) :
  (exists report,
     fst (run (SEngine.request studentId testScores maxScores)) = Return report)
  <-> combine testScores maxScores <> []
      /\ existsb invalid_pair (combine testScores maxScores) = false.
Proof.
  unfold run. rewrite request_run. unfold build_base.
  rewrite <- normalize_pairs_ok_iff.
  destruct (normalize_pairs (combine testScores maxScores)) as [e|v] eqn:Hv; simpl.
  - split; [intros [r Hr]; discriminate | intros [_ [v Hv']]; discriminate].
  - destruct v as [|x v]; simpl.
    + split; [intros [r Hr]; discriminate|]. intros [Hne _]. exfalso.
      apply Hne. destruct (combine testScores maxScores) as [|[s m] c];
        [reflexivity|]. simpl in Hv.
      destruct (SEngine._normalizeScore m s); simpl in Hv; [discriminate|].
      destruct (normalize_pairs c); discriminate.
    + split; [| eauto]. intros _. split; [| eauto].
      intros Hc. rewrite Hc in Hv. discriminate.
Qed.

Lemma combine_truncated {A B} (l : list A) (l' : list B) :
  let n := Nat.min (length l) (length l') in
  combine (firstn n l) (firstn n l') = combine l l'.
Proof.
  revert l'. induction l as [|a l IH]; intros [|b l']; simpl; try reflexivity.
  f_equal. apply IH.
Qed.

(** X4. The two score lists are zipped, never compared in length: the
    surplus entries of the longer list are ignored without error, and the
    request gives the same result and the same log as on the two lists cut to
    the shorter length. *)
Theorem X4_surplus_scores_ignored (studentId : Z) (testScores maxScores : list pyfloat) :
  let n := Nat.min (length testScores) (length maxScores) in
  run (SEngine.request studentId testScores maxScores)
  = run (SEngine.request studentId (firstn n testScores) (firstn n maxScores)).
Proof.
  intros n. unfold run. rewrite !request_run. unfold build_base, normalize_log.
  subst n. rewrite combine_truncated.
  destruct (normalize_pairs (combine testScores maxScores)) as [e|v]; [reflexivity|].
  destruct v as [|x v]; [reflexivity|]. simpl. f_equal.
Qed.

(** ** The report once a vector exists *)

Lemma dom_compute_vector (self : StudentEngine.ComputeStudentPerformance) :
  dom (StudentEngine.compute self) = metric_keys.
Proof.
  unfold StudentEngine.compute, StudentEngine.returnConsistencyScores,
    StudentEngine.returnStatistics, StudentEngine._calculatePercentiles,
    StudentEngine.returnDistributionScores.
  dom_of_literal. unfold metric_keys. set_solver.
Qed.

(** X5. What the wrapper over a normalised vector does depends on what it is
    given.  For an empty vector of either kind the constructor raises NumPy's
    [ValueError] for the maximum of an empty array.  For a non-empty Python
    list, the type its annotation names, [compute] raises [TypeError] at the
    comparison of the list with 0.  For a non-empty array it returns a
    report with all thirteen keys, whatever the entries. *)
Theorem X5_vector_request_by_container (studentId : Z) :
  (forall kind,
     StudentEngineTyped.request studentId kind []
     = Raise (ValueError zero_size_max))
  /\ (forall (x : pyfloat) (v : list pyfloat),
        StudentEngineTyped.request studentId PyList (x :: v)
        = Raise (TypeError list_int_order))
  /\ (forall (x : pyfloat) (v : list pyfloat),
        exists report,
          StudentEngineTyped.request studentId NdArray (x :: v) = Return report
          /\ dom report = metric_keys).
Proof.
  split; [| split].
  - intros kind. reflexivity.
  - intros x v. reflexivity.
  - intros x v. unfold StudentEngineTyped.request. simpl.
    rewrite compute_ndarray. eexists. split; [reflexivity|].
    apply dom_compute_vector.
Qed.

(** X24. When the raw pairs normalise to the vector [v], a request to the
    raw-input wrapper gives what the vector wrapper gives on the array [v]:
    the same dictionary, key for key and value for value, or the same error
    when [v] is empty. *)
Theorem X24_wrappers_agree_on_array (studentId : Z)
    (testScores maxScores v : list pyfloat) :
  normalize_pairs (combine testScores maxScores) = Return v ->
  fst (run (SEngine.request studentId testScores maxScores))
  = StudentEngineTyped.request studentId NdArray v.
Proof. apply request_agrees. Qed.

Lemma X24_wrappers_agree_on_array_witness :
  fst (run (SEngine.request 1 [Fin 8] [Fin 10]))
  = StudentEngineTyped.request 1 NdArray [Fin (8 / 10 * 10)].
Proof.
  apply (X24_wrappers_agree_on_array 1 [Fin 8] [Fin 10] [Fin (8 / 10 * 10)]).
  simpl. rewrite normalizeScore_Fin by lra. reflexivity.
Defined.

Ltac report_lookup :=
  unfold SEngine.compute, SEngine.returnConsistencyScores,
    SEngine.returnStatistics, SEngine._calculatePercentiles,
    SEngine.returnDistributionScores;
  cbv zeta; rewrite !dict_or_lookup; lookup_literal; reflexivity.

(** X6. The merged report holds under each of its thirteen keys the value
    the owning engine computed: the union overwrites nothing. *)
Theorem X6_report_holds_engine_values (self : SEngine.ComputeStudentPerformance) :
  let c := SEngine.consistencyScoresObj self in
  let s := SEngine.statisticsObj self in
  let d := SEngine.distributionScoresObj self in
  let report := SEngine.compute self in
  (report !! "consistency"
   = Some (fdiv (Fin 1)
             (fadd (fadd (Fin 1) (fmul (SEngine.ALPHA c) (SEngine._calculateVariance c)))
                (fmul (SEngine.BETA c)
                   (SEngine._calculateStandardDeviation (SEngine.consistency_base c)))))
   /\ report !! "mad" = Some (SEngine._calculateMeanAbsoluteDeviation c))
  /\ (report !! "mean" = Some (SEngine._calculateMean (SEngine.statistics_base s))
      /\ report !! "skewness" = Some (SEngine._checkSkewness s)
      /\ report !! "min" = Some (SEngine.minimumScore (SEngine.statistics_base s))
      /\ report !! "max" = Some (SEngine.maximumScore (SEngine.statistics_base s))
      /\ report !! "q1"
         = Some (np_percentile
                   (SEngine.normalizedTestScores (SEngine.statistics_base s)) 25)
      /\ report !! "median"
         = Some (np_percentile
                   (SEngine.normalizedTestScores (SEngine.statistics_base s)) 50)
      /\ report !! "q3"
         = Some (np_percentile
                   (SEngine.normalizedTestScores (SEngine.statistics_base s)) 75))
  /\ (report !! "entropy" = Some (SEngine._calculateShannonEntropy d)
      /\ report !! "range" = Some (SEngine._calculateRange d)
      /\ report !! "cv" = Some (SEngine._calculateCoefficientOfVariation d)
      /\ report !! "std"
         = Some (SEngine._calculateStandardDeviation (SEngine.distribution_base d))).
Proof.
  intros c s d report. subst c s d report.
  repeat split; report_lookup.
Qed.

(** ** Extremes, mean and mean absolute deviation *)

Lemma fmax_Fin (a b : R) : fmax (Fin a) (Fin b) = Fin (Rmax a b).
Proof.
  unfold fmax, Rmax. simpl. destruct (Rle_dec a b) as [H|H].
  - now rewrite bool_decide_eq_true_2.
  - now rewrite bool_decide_eq_false_2.
Qed.

Lemma fmin_Fin (a b : R) : fmin (Fin a) (Fin b) = Fin (Rmin a b).
Proof.
  unfold fmin, Rmin. simpl. destruct (Rle_dec a b) as [H|H].
  - now rewrite bool_decide_eq_true_2.
  - now rewrite bool_decide_eq_false_2.
Qed.

Lemma np_max_Fin (x : R) (l : list R) :
  np_max (map Fin (x :: l)) = Return (Fin (Rmaxl x l)).
Proof.
  simpl. f_equal. unfold Rmaxl. revert x.
  induction l as [|a l IH]; intros x; [reflexivity|].
  simpl. rewrite fmax_Fin. apply IH.
Qed.

Lemma np_min_Fin (x : R) (l : list R) :
  np_min (map Fin (x :: l)) = Return (Fin (Rminl x l)).
Proof.
  simpl. f_equal. unfold Rminl. revert x.
  induction l as [|a l IH]; intros x; [reflexivity|].
  simpl. rewrite fmin_Fin. apply IH.
Qed.

Lemma Rmaxl_spec (x : R) (l : list R) :
  In (Rmaxl x l) (x :: l) /\ forall y, In y (x :: l) -> y <= Rmaxl x l.
Proof.
  unfold Rmaxl. revert x. induction l as [|a l IH]; intros x.
  - simpl. split; [auto|]. intros y [-> | []]. lra.
  - cbn [fold_left]. destruct (IH (Rmax x a)) as [Hin Hle]. split.
    + destruct Hin as [Heq | Hin]; [| right; right; exact Hin].
      rewrite <- Heq. unfold Rmax. destruct (Rle_dec x a); simpl; auto.
    + intros y [-> | [-> | Hy]].
      * apply Rle_trans with (Rmax y a); [apply Rmax_l | apply Hle; now left].
      * apply Rle_trans with (Rmax x y); [apply Rmax_r | apply Hle; now left].
      * apply Hle. now right.
Qed.

Lemma Rminl_spec (x : R) (l : list R) :
  In (Rminl x l) (x :: l) /\ forall y, In y (x :: l) -> Rminl x l <= y.
Proof.
  unfold Rminl. revert x. induction l as [|a l IH]; intros x.
  - simpl. split; [auto|]. intros y [-> | []]. lra.
  - cbn [fold_left]. destruct (IH (Rmin x a)) as [Hin Hle]. split.
    + destruct Hin as [Heq | Hin]; [| right; right; exact Hin].
      rewrite <- Heq. unfold Rmin. destruct (Rle_dec x a); simpl; auto.
    + intros y [-> | [-> | Hy]].
      * apply Rle_trans with (Rmin y a); [apply Hle; now left | apply Rmin_l].
      * apply Rle_trans with (Rmin x y); [apply Hle; now left | apply Rmin_r].
      * apply Hle. now right.
Qed.

Lemma Rsum_bounds (a b : R) (l : list R) :
  (forall y, In y l -> a <= y <= b) ->
  INR (length l) * a <= Rsum l <= INR (length l) * b.
Proof.
  induction l as [|x l IH]; intros H.
  - simpl. lra.
  - cbn [length Rsum fold_right]. fold (Rsum l). rewrite S_INR.
    pose proof (H x (or_introl eq_refl)).
    assert (INR (length l) * a <= Rsum l <= INR (length l) * b)
      by (apply IH; intros; apply H; now right).
    lra.
Qed.

Lemma Rmean_bounds (a b : R) (l : list R) :
  l <> [] -> (forall y, In y l -> a <= y <= b) -> a <= Rmean l <= b.
Proof.
  intros Hl H. pose proof (INR_length_pos l Hl) as Hn.
  pose proof (Rsum_bounds a b l H) as [Hlo Hhi]. unfold Rmean.
  assert (Hinv : 0 < / INR (length l)) by now apply Rinv_0_lt_compat.
  assert (Hone : INR (length l) * / INR (length l) = 1) by (apply Rinv_r; lra).
  unfold Rdiv. split.
  - apply Rle_trans with (INR (length l) * a * / INR (length l)); [| nra].
    rewrite Rmult_comm, <- Rmult_assoc, (Rmult_comm (/ _)), Hone. lra.
  - apply Rle_trans with (INR (length l) * b * / INR (length l)); [nra|].
    rewrite Rmult_comm, <- Rmult_assoc, (Rmult_comm (/ _)), Hone. lra.
Qed.

Lemma abs_dev_nonneg (m : R) (l : list R) :
  Forall (fun x => 0 <= x) (map (fun x => Rabs (x - m)) l).
Proof.
  induction l as [|a l IH]; simpl; [constructor|].
  constructor; [apply Rabs_pos | exact IH].
Qed.

Lemma Rmad_nonneg (l : list R) : l <> [] -> 0 <= Rmad l.
Proof.
  intros Hl. unfold Rmad, Rmean at 1. rewrite length_map.
  pose proof (INR_length_pos l Hl) as Hn.
  pose proof (Rsum_nonneg _ (abs_dev_nonneg (Rmean l) l)) as Hs.
  apply Rmult_le_pos; [exact Hs|]. left. now apply Rinv_0_lt_compat.
Qed.

Lemma Rmad_zero_iff_identical (l : list R) :
  l <> [] -> Rmad l = 0 <-> (forall x y, In x l -> In y l -> x = y).
Proof.
  intros Hl. rewrite <- (Rvar_zero_iff_identical l Hl). split.
  - intros Hm. apply Rvar_all_mean; [exact Hl|]. unfold Rmad in Hm.
    apply Rmean_zero_iff in Hm; [| now apply map_nonempty].
    apply Rsum_zero_all in Hm; [| apply abs_dev_nonneg].
    rewrite Forall_map in Hm. eapply List.Forall_impl; [| exact Hm].
    intros x Hx. simpl in Hx.
    destruct (Req_dec (x - Rmean l) 0) as [H0|H0]; [lra|].
    apply Rabs_no_R0 in H0. contradiction.
  - intros Hv. pose proof (Rvar_zero_all_mean l Hl Hv) as Hall. unfold Rmad.
    apply Rmean_zero_iff; [now apply map_nonempty|].
    apply Rsum_all_zero. rewrite Forall_map.
    eapply List.Forall_impl; [| exact Hall]. intros x ->. simpl.
    rewrite Rminus_diag. apply Rabs_R0.
Qed.

(** X7. For a consistency engine over finite, non-empty normalised scores the
    reported mad is the mean of the absolute deviations from the mean; it is
    never negative, and it is 0 for a single score. *)
Theorem X7_mad_formula_and_single (self : SEngine.ConsistencyComputeEngine)
    (xs : list R) :
  SEngine.normalizedTestScores (SEngine.consistency_base self) = map Fin xs ->
  xs <> [] ->
  SEngine.returnConsistencyScores self !! "mad" = Some (Fin (Rmad xs))
  /\ 0 <= Rmad xs
  /\ (length xs = 1%nat -> Rmad xs = 0).
Proof.
  intros Hxs Hl. split; [| split].
  - unfold SEngine.returnConsistencyScores. cbv zeta. lookup_literal. f_equal.
    unfold SEngine._calculateMeanAbsoluteDeviation, SEngine._calculateMean.
    cbv zeta. rewrite Hxs, (np_mean_Fin xs Hl), map_abs_dev.
    apply np_mean_Fin, map_nonempty, Hl.
  - now apply Rmad_nonneg.
  - intros Hone. apply (Rmad_zero_iff_identical xs Hl).
    destruct xs as [|a [|b xs]]; try discriminate.
    intros x y [<- | []] [<- | []]. reflexivity.
Qed.

Lemma X7_mad_formula_and_single_witness :
  let self := SEngine.consistencyScoresObj
                (build_wrapper 1 [Fin 8] [Fin 10] (single_base 8 10)) in
  let xs := [8 / 10 * 10] in
  SEngine.returnConsistencyScores self !! "mad" = Some (Fin (Rmad xs))
  /\ 0 <= Rmad xs
  /\ (length xs = 1%nat -> Rmad xs = 0).
Proof.
  apply (X7_mad_formula_and_single
           (SEngine.consistencyScoresObj
              (build_wrapper 1 [Fin 8] [Fin 10] (single_base 8 10)))
           [8 / 10 * 10]).
  - reflexivity.
  - discriminate.
Defined.

Lemma base_extrema (testScores maxScores : list pyfloat)
    (base : SEngine.StudentPerformanceComputeEngine) (xs : list R) :
  build_base testScores maxScores = Return base ->
  SEngine.normalizedTestScores base = map Fin xs ->
  xs <> []
  /\ exists mn mx,
       SEngine.minimumScore base = Fin mn /\ SEngine.maximumScore base = Fin mx
       /\ In mn xs /\ In mx xs /\ forall y, In y xs -> mn <= y <= mx.
Proof.
  intros Hbase Hxs.
  destruct (build_base_normalized _ _ _ Hbase) as (_ & Hne & Hmax & Hmin).
  rewrite Hxs in Hmax, Hmin, Hne.
  destruct xs as [|x l]; [exfalso; now apply Hne|]. split; [discriminate|].
  rewrite np_max_Fin in Hmax. rewrite np_min_Fin in Hmin.
  injection Hmax as Hmax. injection Hmin as Hmin.
  destruct (Rmaxl_spec x l) as [Hmaxin Hmaxle].
  destruct (Rminl_spec x l) as [Hminin Hminle].
  exists (Rminl x l), (Rmaxl x l). repeat split; auto.
Qed.

(** X8. For a distribution engine built by the constructor over finite
    normalised scores, the stored minimum and maximum are entries of the
    vector that bound every entry, the reported range is their difference, it
    is never negative, and it is 0 exactly when all scores are identical. *)
Theorem X8_range_of_extremes (testScores maxScores : list pyfloat)
    (self : SEngine.DistributionComputeEngine) (log : list event) (xs : list R) :
  run (SEngine.DistributionComputeEngine_init testScores maxScores)
  = (Return self, log) ->
  SEngine.normalizedTestScores (SEngine.distribution_base self) = map Fin xs ->
  exists mn mx,
    (In mn xs /\ In mx xs /\ forall y, In y xs -> mn <= y <= mx)
    /\ SEngine.returnDistributionScores self !! "range" = Some (Fin (mx - mn))
    /\ 0 <= mx - mn
    /\ (mx - mn = 0 <-> forall x y, In x xs -> In y xs -> x = y).
Proof.
  unfold run. rewrite distribution_init_run.
  destruct (build_base testScores maxScores) as [e|base] eqn:Hbase;
    simpl; [discriminate|].
  intros Heq Hxs. apply pair_equal_spec in Heq as [Hs _].
  injection Hs as <-. simpl in Hxs.
  destruct (base_extrema _ _ _ _ Hbase Hxs)
    as (Hl & mn & mx & Hmn & Hmx & Hinmn & Hinmx & Hb).
  exists mn, mx. split; [auto|]. split; [| split].
  - unfold SEngine.returnDistributionScores. lookup_literal. f_equal.
    unfold SEngine._calculateRange. simpl. now rewrite Hmn, Hmx.
  - specialize (Hb mn Hinmn). lra.
  - split.
    + intros Hz x y Hx Hy. pose proof (Hb x Hx). pose proof (Hb y Hy). lra.
    + intros Hall. rewrite (Hall mx mn Hinmx Hinmn). lra.
Qed.

Lemma X8_range_of_extremes_witness :
  let self := SEngine.distributionScoresObj
                (build_wrapper 1 [Fin 8] [Fin 10] (single_base 8 10)) in
  let xs := [8 / 10 * 10] in
  exists mn mx,
    (In mn xs /\ In mx xs /\ forall y, In y xs -> mn <= y <= mx)
    /\ SEngine.returnDistributionScores self !! "range" = Some (Fin (mx - mn))
    /\ 0 <= mx - mn
    /\ (mx - mn = 0 <-> forall x y, In x xs -> In y xs -> x = y).
Proof.
  apply (X8_range_of_extremes [Fin 8] [Fin 10] _
           (normalize_log [Fin 8] [Fin 10])).
  - unfold run. rewrite distribution_init_run, (build_base_single 8 10) by lra.
    reflexivity.
  - reflexivity.
Defined.

(** ** Percentiles *)

Lemma no_nan_Fin (xs : list R) : existsb isnan (map Fin xs) = false.
Proof. induction xs as [|x xs IH]; simpl; auto. Qed.

Lemma insert_sorted_Fin (x : R) (l : list R) :
  insert_sorted (Fin x) (map Fin l) = map Fin (Rinsert x l).
Proof.
  induction l as [|y l IH]; [reflexivity|].
  cbn [map insert_sorted Rinsert fleb].
  destruct (bool_decide (x <= y)); cbn [map]; [reflexivity | now rewrite IH].
Qed.

Lemma np_sort_Fin (xs : list R) : np_sort (map Fin xs) = map Fin (Rsort xs).
Proof.
  induction xs as [|x xs IH]; [reflexivity|].
  unfold np_sort, Rsort in *. cbn [map fold_right].
  rewrite IH. apply insert_sorted_Fin.
Qed.

Lemma Rinsert_perm (x : R) (l : list R) : Permutation (Rinsert x l) (x :: l).
Proof.
  induction l as [|y l IH]; [reflexivity|]. cbn [Rinsert].
  destruct (bool_decide (x <= y)); [reflexivity|].
  rewrite IH. apply perm_swap.
Qed.

Lemma Rsort_perm (xs : list R) : Permutation (Rsort xs) xs.
Proof.
  induction xs as [|x xs IH]; [reflexivity|].
  unfold Rsort in *. cbn [fold_right]. rewrite Rinsert_perm. now constructor.
Qed.

Lemma Rsort_length (xs : list R) : length (Rsort xs) = length xs.
Proof. apply Permutation_length, Rsort_perm. Qed.

Lemma Rinsert_ascending (x : R) (l : list R) :
  ascending l -> ascending (Rinsert x l).
Proof.
  induction 1 as [|y|y z l Hyz Hasc IH].
  - constructor.
  - cbn [Rinsert]. case_bool_decide.
    + constructor; [assumption | constructor].
    + constructor; [lra | constructor].
  - cbn [Rinsert] in *. destruct (bool_decide_reflect (x <= y)) as [Hxy|Hxy].
    + constructor; [assumption|]. now constructor.
    + destruct (bool_decide_reflect (x <= z)) as [Hxz|Hxz].
      * constructor; [lra | exact IH].
      * constructor; [assumption | exact IH].
Qed.

Lemma Rsort_ascending (xs : list R) : ascending (Rsort xs).
Proof.
  induction xs as [|x xs IH]; [constructor|].
  unfold Rsort in *. cbn [fold_right]. now apply Rinsert_ascending.
Qed.

Lemma ascending_tail (x : R) (l : list R) : ascending (x :: l) -> ascending l.
Proof. inversion 1; subst; [constructor | assumption]. Qed.

Lemma ascending_head_le (x : R) (l : list R) :
  ascending (x :: l) -> forall y, In y l -> x <= y.
Proof.
  revert x. induction l as [|z l IH]; intros x Hasc y Hy; [destruct Hy|].
  inversion Hasc as [| |? ? ? Hxz Htail]; subst.
  destruct Hy as [-> | Hy]; [assumption|].
  apply Rle_trans with z; [assumption | now apply IH].
Qed.

Lemma ascending_nth (s : list R) (i j : nat) :
  ascending s -> (i <= j)%nat -> (j < length s)%nat -> nth i s 0 <= nth j s 0.
Proof.
  revert i j. induction s as [|x l IH]; intros i j Hasc Hij Hj; simpl in Hj; [lia|].
  destruct i as [|i], j as [|j]; simpl; try lia.
  - lra.
  - apply (ascending_head_le x l Hasc). apply nth_In. lia.
  - apply IH; [now apply ascending_tail in Hasc | lia | lia].
Qed.

Lemma nth_map_Fin (s : list R) (i : nat) :
  (i < length s)%nat -> nth i (map Fin s) NaN = Fin (nth i s 0).
Proof.
  revert i. induction s as [|x s IH]; intros i Hi; simpl in Hi; [lia|].
  destruct i as [|i]; [reflexivity|]. simpl. apply IH. lia.
Qed.

Lemma lerp_Fin (a b t : R) : lerp (Fin a) (Fin b) (Fin t) = Fin (a + (b - a) * t).
Proof.
  unfold lerp. cbv zeta. simpl. case_bool_decide; f_equal; lra.
Qed.

(** The virtual index never leaves the array. *)
Lemma percentile_index_bound (q m : nat) :
  (q <= 100)%nat -> (q * m / 100 <= m)%nat.
Proof.
  intros Hq. apply Nat.Div0.div_le_upper_bound. nia.
Qed.

Lemma np_percentile_Fin (xs : list R) (q : nat) :
  xs <> [] -> (q <= 100)%nat ->
  np_percentile (map Fin xs) q = Fin (Rpercentile (Rsort xs) q).
Proof.
  intros Hl Hq. unfold np_percentile, Rpercentile. cbv zeta.
  rewrite no_nan_Fin, np_sort_Fin, length_map, Rsort_length.
  assert (Hn : (0 < length xs)%nat) by (destruct xs; simpl; [congruence | lia]).
  pose proof (percentile_index_bound q (length xs - 1) Hq) as Hlo.
  rewrite !nth_map_Fin by (rewrite Rsort_length; lia).
  apply lerp_Fin.
Qed.

Lemma INR_100 : INR 100 = 100.
Proof. rewrite INR_IZR_INZ. reflexivity. Qed.

Lemma Rpercentile_median_odd (s : list R) (k : nat) :
  length s = (2 * k + 1)%nat -> Rpercentile s 50 = nth k s 0.
Proof.
  intros Hlen. unfold Rpercentile. cbv zeta. rewrite Hlen.
  replace (50 * (2 * k + 1 - 1))%nat with (k * 100)%nat by lia.
  rewrite Nat.div_mul by lia. rewrite Nat.Div0.mod_mul. simpl INR. lra.
Qed.

Lemma Rpercentile_median_even (s : list R) (k : nat) :
  length s = (2 * k + 2)%nat ->
  Rpercentile s 50 = (nth k s 0 + nth (k + 1) s 0) / 2.
Proof.
  intros Hlen. unfold Rpercentile. cbv zeta. rewrite Hlen.
  replace (50 * (2 * k + 2 - 1))%nat with (50 + k * 100)%nat by lia.
  rewrite Nat.div_add by lia. rewrite Nat.Div0.mod_add.
  replace (50 / 100 + k)%nat with k by (now rewrite (Nat.div_small 50 100) by lia).
  rewrite (Nat.mod_small 50 100) by lia.
  replace (Nat.min (k + 1) (2 * k + 2 - 1)) with (k + 1)%nat by lia.
  replace (INR 50) with 50 by (rewrite INR_IZR_INZ; reflexivity). lra.
Qed.

(** A percentile lies between the two order statistics it interpolates. *)
Lemma Rpercentile_between (s : list R) (q : nat) :
  ascending s -> s <> [] -> (q <= 100)%nat ->
  let m := (length s - 1)%nat in
  let lo := (q * m / 100)%nat in
  let hi := Nat.min (lo + 1) m in
  (lo <= hi)%nat /\ (hi < length s)%nat
  /\ nth lo s 0 <= Rpercentile s q <= nth hi s 0.
Proof.
  intros Hasc Hne Hq m lo hi.
  assert (Hn : (0 < length s)%nat) by (destruct s; simpl; [congruence | lia]).
  assert (Hlo : (lo <= m)%nat) by (apply percentile_index_bound; exact Hq).
  assert (Hlohi : (lo <= hi)%nat) by (unfold hi; lia).
  assert (Hhi : (hi < length s)%nat) by (unfold hi, m; lia).
  split; [exact Hlohi | split; [exact Hhi|]].
  pose proof (ascending_nth s lo hi Hasc Hlohi Hhi) as Hab.
  unfold Rpercentile. cbv zeta. fold m. fold lo. fold hi.
  assert (Hr : (q * m mod 100 < 100)%nat) by (apply Nat.mod_upper_bound; lia).
  pose proof (pos_INR (q * m mod 100)) as H0.
  apply lt_INR in Hr. rewrite INR_100 in Hr.
  set (g := INR (q * m mod 100) / 100).
  assert (Hg : 0 <= g < 1) by (unfold g; lra).
  split; nra.
Qed.

Lemma Rpercentile_mono (s : list R) (q q' : nat) :
  ascending s -> s <> [] -> (q <= q')%nat -> (q' <= 100)%nat ->
  Rpercentile s q <= Rpercentile s q'.
Proof.
  intros Hasc Hne Hqq Hq'.
  assert (Hq : (q <= 100)%nat) by lia.
  destruct (Rpercentile_between s q Hasc Hne Hq) as (Hlohi & Hhi & Ha & Hb).
  destruct (Rpercentile_between s q' Hasc Hne Hq') as (Hlohi' & Hhi' & Ha' & Hb').
  set (m := (length s - 1)%nat) in *.
  set (lo := (q * m / 100)%nat) in *. set (lo' := (q' * m / 100)%nat) in *.
  set (hi := Nat.min (lo + 1) m) in *. set (hi' := Nat.min (lo' + 1) m) in *.
  assert (Hv : (q * m <= q' * m)%nat) by nia.
  assert (Hlolo : (lo <= lo')%nat) by (apply Nat.Div0.div_le_mono; exact Hv).
  destruct (Nat.eq_dec lo lo') as [Heq | Hneq].
  - unfold Rpercentile. cbv zeta. fold m. fold lo. fold lo'. fold hi. fold hi'.
    assert (Hhh : hi' = hi) by (unfold hi, hi'; now rewrite Heq).
    rewrite Hhh, <- Heq.
    pose proof (Nat.div_mod_eq (q * m) 100) as Hd.
    pose proof (Nat.div_mod_eq (q' * m) 100) as Hd'.
    fold lo in Hd. fold lo' in Hd'. rewrite <- Heq in Hd'.
    assert (Hrr : (q * m mod 100 <= q' * m mod 100)%nat) by lia.
    apply le_INR in Hrr.
    pose proof (ascending_nth s lo hi Hasc Hlohi Hhi) as Hab.
    pose proof (pos_INR (q * m mod 100)). nra.
  - assert (Hstep : (hi <= lo')%nat) by (unfold hi; lia).
    assert (Hlo' : (lo' < length s)%nat) by lia.
    pose proof (ascending_nth s hi lo' Hasc Hstep Hlo'). lra.
Qed.

(** X10. For a statistics engine over finite, non-empty normalised scores the
    reported median is the median of the sorted scores: the middle one for an
    odd count, the mean of the two middle ones for an even count.  The sorted
    list is an ascending rearrangement of the scores. *)
Theorem X10_median_of_sorted (self : SEngine.StatisticsComputeEngine)
    (xs : list R) (k : nat) :
  SEngine.normalizedTestScores (SEngine.statistics_base self) = map Fin xs ->
  xs <> [] ->
  let s := Rsort xs in
  Permutation s xs /\ ascending s
  /\ (length xs = (2 * k + 1)%nat ->
      SEngine.returnStatistics self !! "median" = Some (Fin (nth k s 0)))
  /\ (length xs = (2 * k + 2)%nat ->
      SEngine.returnStatistics self !! "median"
      = Some (Fin ((nth k s 0 + nth (k + 1) s 0) / 2))).
Proof.
  intros Hxs Hl s.
  assert (Hmed : SEngine.returnStatistics self !! "median"
                 = Some (Fin (Rpercentile s 50))).
  { unfold SEngine.returnStatistics, SEngine._calculatePercentiles. cbv zeta.
    rewrite dict_or_lookup. lookup_literal.
    now rewrite Hxs, np_percentile_Fin by (assumption || lia). }
  split; [apply Rsort_perm | split; [apply Rsort_ascending | split]].
  - intros Hlen. rewrite Hmed. do 2 f_equal.
    apply Rpercentile_median_odd. unfold s. now rewrite Rsort_length.
  - intros Hlen. rewrite Hmed. do 2 f_equal.
    apply Rpercentile_median_even. unfold s. now rewrite Rsort_length.
Qed.

Lemma X10_median_of_sorted_witness :
  let self := SEngine.statisticsObj
                (build_wrapper 1 [Fin 8] [Fin 10] (single_base 8 10)) in
  let xs := [8 / 10 * 10] in
  let s := Rsort xs in
  Permutation s xs /\ ascending s
  /\ (length xs = (2 * 0 + 1)%nat ->
      SEngine.returnStatistics self !! "median" = Some (Fin (nth 0 s 0)))
  /\ (length xs = (2 * 0 + 2)%nat ->
      SEngine.returnStatistics self !! "median"
      = Some (Fin ((nth 0 s 0 + nth (0 + 1) s 0) / 2))).
Proof.
  apply (X10_median_of_sorted
           (SEngine.statisticsObj
              (build_wrapper 1 [Fin 8] [Fin 10] (single_base 8 10)))
           [8 / 10 * 10] 0).
  - reflexivity.
  - discriminate.
Defined.

(** X11. For a statistics engine built by the constructor over finite
    normalised scores, the five summary values of the report are ordered:
    min, q1, median, q3, max, each at most the next. *)
Theorem X11_five_number_summary_ordered (testScores maxScores : list pyfloat)
    (self : SEngine.StatisticsComputeEngine) (log : list event) (xs : list R) :
  run (SEngine.StatisticsComputeEngine_init testScores maxScores)
  = (Return self, log) ->
  SEngine.normalizedTestScores (SEngine.statistics_base self) = map Fin xs ->
  exists mn q1 median q3 mx,
    SEngine.returnStatistics self !! "min" = Some (Fin mn)
    /\ SEngine.returnStatistics self !! "q1" = Some (Fin q1)
    /\ SEngine.returnStatistics self !! "median" = Some (Fin median)
    /\ SEngine.returnStatistics self !! "q3" = Some (Fin q3)
    /\ SEngine.returnStatistics self !! "max" = Some (Fin mx)
    /\ mn <= q1 /\ q1 <= median /\ median <= q3 /\ q3 <= mx.
Proof.
  unfold run. rewrite statistics_init_run.
  destruct (build_base testScores maxScores) as [e|base] eqn:Hbase;
    simpl; [discriminate|].
  intros Heq Hxs. apply pair_equal_spec in Heq as [Hs _].
  injection Hs as <-. simpl in Hxs.
  destruct (base_extrema _ _ _ _ Hbase Hxs)
    as (Hl & mn & mx & Hmn & Hmx & Hinmn & Hinmx & Hb).
  set (s := Rsort xs).
  assert (Hasc : ascending s) by apply Rsort_ascending.
  assert (Hne : s <> []).
  { intros Hs. apply Hl. apply Permutation_nil. rewrite <- Hs.
    apply Rsort_perm. }
  assert (Hin : forall i, (i < length s)%nat -> mn <= nth i s 0 <= mx).
  { intros i Hi. apply Hb.
    apply (Permutation_in _ (Rsort_perm xs)). now apply nth_In. }
  exists mn, (Rpercentile s 25), (Rpercentile s 50), (Rpercentile s 75), mx.
  unfold SEngine.returnStatistics, SEngine._calculatePercentiles. cbv zeta.
  rewrite !dict_or_lookup. lookup_literal. simpl.
  rewrite Hmn, Hmx, Hxs, !np_percentile_Fin by (assumption || lia).
  do 5 (split; [reflexivity|]).
  destruct (Rpercentile_between s 25 Hasc Hne) as (H1 & H2 & H3 & _); [lia|].
  destruct (Rpercentile_between s 75 Hasc Hne) as (H4 & H5 & _ & H6); [lia|].
  repeat split.
  - eapply Rle_trans; [| exact H3]. apply Hin. lia.
  - apply Rpercentile_mono; auto; lia.
  - apply Rpercentile_mono; auto; lia.
  - eapply Rle_trans; [exact H6|]. now apply Hin.
Qed.

Lemma X11_five_number_summary_ordered_witness :
  let self := SEngine.statisticsObj
                (build_wrapper 1 [Fin 8] [Fin 10] (single_base 8 10)) in
  exists mn q1 median q3 mx,
    SEngine.returnStatistics self !! "min" = Some (Fin mn)
    /\ SEngine.returnStatistics self !! "q1" = Some (Fin q1)
    /\ SEngine.returnStatistics self !! "median" = Some (Fin median)
    /\ SEngine.returnStatistics self !! "q3" = Some (Fin q3)
    /\ SEngine.returnStatistics self !! "max" = Some (Fin mx)
    /\ mn <= q1 /\ q1 <= median /\ median <= q3 /\ q3 <= mx.
Proof.
  apply (X11_five_number_summary_ordered [Fin 8] [Fin 10] _
           (normalize_log [Fin 8] [Fin 10]) [8 / 10 * 10]).
  - unfold run. rewrite statistics_init_run, (build_base_single 8 10) by lra.
    reflexivity.
  - reflexivity.
Defined.

(** ** Dispersion: bounds and comparisons *)

Lemma Rsum_sq_shift (m c : R) (l : list R) :
  Rsum (map (fun x => (x - c) * (x - c)) l)
  = Rsum (map (fun x => (x - m) * (x - m)) l)
    + (m - c) * (2 * Rsum l - INR (length l) * (c + m)).
Proof.
  induction l as [|x l IH]; [simpl; lra|].
  cbn [map Rsum fold_right length].
  fold (Rsum (map (fun x => (x - c) * (x - c)) l)).
  fold (Rsum (map (fun x => (x - m) * (x - m)) l)). fold (Rsum l).
  rewrite S_INR, IH. ring.
Qed.

Lemma Rsum_mean (l : list R) : l <> [] -> Rsum l = INR (length l) * Rmean l.
Proof.
  intros Hl. pose proof (INR_length_pos l Hl). unfold Rmean. field. lra.
Qed.

(** The sum of squared distances from any point exceeds the one from the mean
    by the squared distance of the point from the mean, once per entry. *)
Lemma Rsum_sq_center (c : R) (l : list R) :
  l <> [] ->
  Rsum (map (fun x => (x - c) * (x - c)) l)
  = Rsum (map (fun x => (x - Rmean l) * (x - Rmean l)) l)
    + INR (length l) * ((Rmean l - c) * (Rmean l - c)).
Proof.
  intros Hl. rewrite (Rsum_sq_shift (Rmean l) c l), (Rsum_mean l Hl). ring.
Qed.

Lemma Rvar_times_n (l : list R) :
  l <> [] ->
  INR (length l) * Rvar l = Rsum (map (fun x => (x - Rmean l) * (x - Rmean l)) l).
Proof.
  intros Hl. pose proof (INR_length_pos l Hl). unfold Rvar, Rmean at 1.
  rewrite length_map. field. lra.
Qed.

(** Popoviciu's bound: scores within [a, b] have variance at most
    [((b - a) / 2)^2]. *)
Lemma Rvar_bounded (a b : R) (l : list R) :
  l <> [] -> (forall x, In x l -> a <= x <= b) ->
  Rvar l <= (b - a) / 2 * ((b - a) / 2).
Proof.
  intros Hl Hb. pose proof (INR_length_pos l Hl) as Hn.
  set (c := (a + b) / 2). set (h := (b - a) / 2).
  assert (Hsq : Rsum (map (fun x => (x - c) * (x - c)) l) <= INR (length l) * (h * h)).
  { rewrite <- (length_map (fun x => (x - c) * (x - c)) l).
    apply (Rsum_bounds 0 (h * h)). intros y Hy.
    apply in_map_iff in Hy as (x & <- & Hx). specialize (Hb x Hx).
    assert (Hprod : 0 <= (x - a) * (b - x)) by (apply Rmult_le_pos; lra).
    split; [apply (Rle_0_sqr (x - c))|].
    replace (h * h) with ((x - c) * (x - c) + (x - a) * (b - x))
      by (unfold c, h; field).
    lra. }
  rewrite (Rsum_sq_center c l Hl), <- (Rvar_times_n l Hl) in Hsq.
  fold h.
  assert (HD : 0 <= INR (length l) * ((Rmean l - c) * (Rmean l - c))).
  { apply Rmult_le_pos; [lra | apply (Rle_0_sqr (Rmean l - c))]. }
  apply (Rmult_le_reg_l (INR (length l))); [exact Hn | lra].
Qed.

Lemma Rabs_sq (x : R) : Rabs x * Rabs x = x * x.
Proof. unfold Rabs. destruct (Rcase_abs x); ring. Qed.

(** The squared mean absolute deviation is at most the variance. *)
Lemma Rmad_sq_le_Rvar (l : list R) : l <> [] -> Rmad l * Rmad l <= Rvar l.
Proof.
  intros Hl. pose proof (INR_length_pos l Hl) as Hn.
  set (y := map (fun x => Rabs (x - Rmean l)) l).
  assert (Hy : y <> []) by now apply map_nonempty.
  assert (Hlen : length y = length l) by apply length_map.
  pose proof (Rsum_sq_center 0 y Hy) as Hc.
  assert (Hsq : Rsum (map (fun x => (x - 0) * (x - 0)) y)
                = INR (length l) * Rvar l).
  { rewrite (Rvar_times_n l Hl). unfold y. rewrite map_map. f_equal.
    apply map_ext. intros x. rewrite Rminus_0_r. apply Rabs_sq. }
  assert (Hpos : 0 <= Rsum (map (fun x => (x - Rmean y) * (x - Rmean y)) y))
    by apply Rsum_nonneg, squares_nonneg.
  rewrite Hsq, Hlen in Hc.
  set (S := Rsum (map (fun x => (x - Rmean y) * (x - Rmean y)) y)) in *.
  change (Rmean y) with (Rmad l) in Hc.
  replace ((Rmad l - 0) * (Rmad l - 0)) with (Rmad l * Rmad l) in Hc by ring.
  apply (Rmult_le_reg_l (INR (length l))); [exact Hn | lra].
Qed.

Lemma Rmad_le_Rstd (l : list R) : l <> [] -> Rmad l <= Rstd l.
Proof.
  intros Hl. pose proof (Rmad_nonneg l Hl) as H0.
  rewrite <- (sqrt_square (Rmad l) H0). unfold Rstd.
  apply sqrt_le_1_alt, Rmad_sq_le_Rvar, Hl.
Qed.

Lemma Rstd_bounded (a b : R) (l : list R) :
  l <> [] -> a <= b -> (forall x, In x l -> a <= x <= b) ->
  Rstd l <= (b - a) / 2.
Proof.
  intros Hl Hab Hb. unfold Rstd.
  rewrite <- (sqrt_square ((b - a) / 2)) by lra.
  apply sqrt_le_1_alt, Rvar_bounded; assumption.
Qed.

Lemma consistency_monotone (v1 v2 : R) :
  0 <= v1 -> v1 <= v2 ->
  1 / (1 + 0.3 * v2 + 0.7 * sqrt v2) <= 1 / (1 + 0.3 * v1 + 0.7 * sqrt v1).
Proof.
  intros H1 H12. pose proof (sqrt_le_1_alt v1 v2 H12) as Hs.
  pose proof (sqrt_pos v1) as Hs1.
  unfold Rdiv. rewrite !Rmult_1_l.
  apply Rinv_le_contravar; lra.
Qed.

Lemma consistency_report_value (testScores maxScores : list pyfloat)
    (self : SEngine.ConsistencyComputeEngine) (log : list event) (xs : list R) :
  run (SEngine.ConsistencyComputeEngine_init testScores maxScores)
  = (Return self, log) ->
  SEngine.normalizedTestScores (SEngine.consistency_base self) = map Fin xs ->
  xs <> []
  /\ SEngine.returnConsistencyScores self !! "consistency"
     = Some (Fin (1 / (1 + 0.3 * Rvar xs + 0.7 * Rstd xs))).
Proof.
  unfold run. rewrite consistency_init_run.
  destruct (build_base testScores maxScores) as [e|base] eqn:Hbase;
    simpl; [discriminate|].
  intros Heq Hxs. apply pair_equal_spec in Heq as [Hs _].
  injection Hs as <-. simpl in Hxs.
  destruct (build_base_normalized _ _ _ Hbase) as (_ & Hne & _).
  assert (Hl : xs <> []) by (intros ->; apply Hne; rewrite Hxs; reflexivity).
  split; [exact Hl|].
  unfold SEngine.returnConsistencyScores. cbv zeta.
  rewrite lookup_insert_eq. f_equal.
  unfold SEngine._calculateVariance, SEngine._calculateStandardDeviation.
  simpl. rewrite Hxs, (np_std_Fin xs Hl), (np_var_Fin xs Hl).
  apply consistency_value; [now apply Rvar_nonneg | apply sqrt_pos].
Qed.

(** X12. Of two consistency engines built by the constructor over finite
    normalised scores, the one that computes the larger variance does not
    report the larger consistency. *)
Theorem X12_consistency_monotone_in_variance
    (ts1 ms1 ts2 ms2 : list pyfloat)
    (self1 self2 : SEngine.ConsistencyComputeEngine) (log1 log2 : list event)
    (xs ys : list R) :
  run (SEngine.ConsistencyComputeEngine_init ts1 ms1) = (Return self1, log1) ->
  run (SEngine.ConsistencyComputeEngine_init ts2 ms2) = (Return self2, log2) ->
  SEngine.normalizedTestScores (SEngine.consistency_base self1) = map Fin xs ->
  SEngine.normalizedTestScores (SEngine.consistency_base self2) = map Fin ys ->
  exists v1 v2 c1 c2,
    SEngine._calculateVariance self1 = Fin v1
    /\ SEngine._calculateVariance self2 = Fin v2
    /\ SEngine.returnConsistencyScores self1 !! "consistency" = Some (Fin c1)
    /\ SEngine.returnConsistencyScores self2 !! "consistency" = Some (Fin c2)
    /\ (v1 <= v2 -> c2 <= c1).
Proof.
  intros Hrun1 Hrun2 Hxs Hys.
  destruct (consistency_report_value _ _ _ _ _ Hrun1 Hxs) as [Hl1 Hc1].
  destruct (consistency_report_value _ _ _ _ _ Hrun2 Hys) as [Hl2 Hc2].
  exists (Rvar xs), (Rvar ys). do 2 eexists.
  split; [| split; [| split; [exact Hc1 | split; [exact Hc2|]]]].
  - unfold SEngine._calculateVariance. rewrite Hxs. now apply np_var_Fin.
  - unfold SEngine._calculateVariance. rewrite Hys. now apply np_var_Fin.
  - intros Hle. apply consistency_monotone; [now apply Rvar_nonneg | exact Hle].
Qed.

Lemma X12_consistency_monotone_in_variance_witness :
  let base1 := single_base 8 10 in
  let base2 :=
    {| SEngine.name := "Basic Compute Engine";
       SEngine.testScores := [Fin 0; Fin 10];
       SEngine.maxScores := [Fin 10; Fin 10];
       SEngine.normalizedTestScores := [Fin (0 / 10 * 10); Fin (10 / 10 * 10)];
       SEngine.maximumScore := fmax (Fin (0 / 10 * 10)) (Fin (10 / 10 * 10));
       SEngine.minimumScore := fmin (Fin (0 / 10 * 10)) (Fin (10 / 10 * 10)) |} in
  let self1 := SEngine.consistencyScoresObj (build_wrapper 1 [Fin 8] [Fin 10] base1) in
  let self2 := SEngine.consistencyScoresObj
                 (build_wrapper 1 [Fin 0; Fin 10] [Fin 10; Fin 10] base2) in
  exists v1 v2 c1 c2,
    SEngine._calculateVariance self1 = Fin v1
    /\ SEngine._calculateVariance self2 = Fin v2
    /\ SEngine.returnConsistencyScores self1 !! "consistency" = Some (Fin c1)
    /\ SEngine.returnConsistencyScores self2 !! "consistency" = Some (Fin c2)
    /\ (v1 <= v2 -> c2 <= c1).
Proof.
  intros base1 base2 self1 self2.
  apply (X12_consistency_monotone_in_variance
           [Fin 8] [Fin 10] [Fin 0; Fin 10] [Fin 10; Fin 10] _ _
           (normalize_log [Fin 8] [Fin 10])
           (normalize_log [Fin 0; Fin 10] [Fin 10; Fin 10])
           [8 / 10 * 10] [0 / 10 * 10; 10 / 10 * 10]).
  - unfold run. rewrite consistency_init_run, (build_base_single 8 10) by lra.
    reflexivity.
  - unfold run. rewrite consistency_init_run. unfold build_base. simpl.
    rewrite !normalizeScore_Fin by lra. reflexivity.
  - reflexivity.
  - reflexivity.
Defined.

Lemma normalizeScore_graded (p : pyfloat * pyfloat) :
  graded_pair p ->
  exists r, SEngine._normalizeScore (snd p) (fst p) = Return (Fin r) /\ 0 <= r <= 10.
Proof.
  intros [Hn | (o & m & -> & Ho & Hm)].
  - rewrite normalizeScore_rule. unfold normalize_rule. rewrite Hn.
    exists 0. split; [reflexivity | lra].
  - simpl. rewrite normalizeScore_Fin by lra. eexists. split; [reflexivity|].
    pose proof (ratio_bounds o m) as Hr.
    destruct (Req_dec o 0) as [-> | Hne].
    + unfold Rdiv. lra.
    + assert (0 < o / m <= 1) by (apply Hr; lra). lra.
Qed.

Lemma normalize_pairs_graded (pairs : list (pyfloat * pyfloat)) :
  Forall graded_pair pairs ->
  exists xs, normalize_pairs pairs = Return (map Fin xs)
             /\ length xs = length pairs
             /\ forall x, In x xs -> 0 <= x <= 10.
Proof.
  induction 1 as [|[s m] pairs Hp _ IH].
  - exists []. simpl. split; [reflexivity | split; [reflexivity | tauto]].
  - destruct IH as (xs & Hxs & Hlen & Hb).
    destruct (normalizeScore_graded _ Hp) as (r & Hr & Hr01). simpl in Hr.
    exists (r :: xs). simpl. rewrite Hr, Hxs. simpl.
    split; [reflexivity | split; [now rewrite Hlen|]].
    intros x [<- | Hx]; [exact Hr01 | now apply Hb].
Qed.

(** The report of a wrapper whose engines hold finite scores, in closed form,
    for the entries that are then always finite. *)
Lemma finite_report_values (studentId : Z) (ts ms : list pyfloat)
    (base : SEngine.StudentPerformanceComputeEngine) (xs : list R) (mn mx : R) :
  SEngine.normalizedTestScores base = map Fin xs -> xs <> [] ->
  SEngine.minimumScore base = Fin mn -> SEngine.maximumScore base = Fin mx ->
  let report := SEngine.compute (build_wrapper studentId ts ms base) in
  report !! "consistency" = Some (Fin (1 / (1 + 0.3 * Rvar xs + 0.7 * Rstd xs)))
  /\ report !! "mad" = Some (Fin (Rmad xs))
  /\ report !! "mean" = Some (Fin (Rmean xs))
  /\ report !! "min" = Some (Fin mn)
  /\ report !! "max" = Some (Fin mx)
  /\ report !! "range" = Some (Fin (mx - mn))
  /\ report !! "std" = Some (Fin (Rstd xs))
  /\ report !! "entropy" = Some (Fin (shannon (positives xs))).
Proof.
  intros Hxs Hl Hmn Hmx report.
  assert (Hc : report !! "consistency"
               = Some (Fin (1 / (1 + 0.3 * Rvar xs + 0.7 * Rstd xs)))).
  { transitivity (Some (fdiv (Fin 1)
       (fadd (fadd (Fin 1) (fmul (Fin 0.3) (np_var (SEngine.normalizedTestScores base))))
          (fmul (Fin 0.7) (np_std (SEngine.normalizedTestScores base)))))).
    - subst report. report_lookup.
    - rewrite Hxs, (np_std_Fin xs Hl), (np_var_Fin xs Hl). f_equal.
      apply consistency_value; [now apply Rvar_nonneg | apply sqrt_pos]. }
  assert (Hmad : report !! "mad" = Some (Fin (Rmad xs))).
  { transitivity (Some (np_mean (map (fun x => fabs (fsub x
       (np_mean (SEngine.normalizedTestScores base))))
       (SEngine.normalizedTestScores base)))).
    - subst report. report_lookup.
    - rewrite Hxs, (np_mean_Fin xs Hl), map_abs_dev. f_equal.
      apply np_mean_Fin, map_nonempty, Hl. }
  assert (Hmean : report !! "mean" = Some (Fin (Rmean xs))).
  { transitivity (Some (np_mean (SEngine.normalizedTestScores base))).
    - subst report. report_lookup.
    - now rewrite Hxs, (np_mean_Fin xs Hl). }
  assert (Hmin : report !! "min" = Some (Fin mn)).
  { rewrite <- Hmn. subst report. report_lookup. }
  assert (Hmax : report !! "max" = Some (Fin mx)).
  { rewrite <- Hmx. subst report. report_lookup. }
  assert (Hrange : report !! "range" = Some (Fin (mx - mn))).
  { transitivity (Some (fsub (SEngine.maximumScore base) (SEngine.minimumScore base))).
    - subst report. report_lookup.
    - now rewrite Hmn, Hmx. }
  assert (Hstd : report !! "std" = Some (Fin (Rstd xs))).
  { transitivity (Some (np_std (SEngine.normalizedTestScores base))).
    - subst report. report_lookup.
    - now rewrite Hxs, (np_std_Fin xs Hl). }
  assert (Hent : report !! "entropy" = Some (Fin (shannon (positives xs)))).
  { subst report. rewrite compute_lookup_entropy. f_equal.
    now apply engine_entropy_Fin. }
  repeat split; assumption.
Qed.

(** X13. A request over at least one pair, every pair either a missing score
    (NaN) or a finite score between 0 and a finite positive maximum, always
    returns a report, and its dispersion entries are bounded: mean, min and
    max lie between 0 and 10, the range between 0 and 10, the standard
    deviation and the mean absolute deviation between 0 and 5, and the
    consistency between 1/12 and 1. *)
Theorem X13_graded_scores_bounded_report (studentId : Z)
    (testScores maxScores : list pyfloat) :
  Forall graded_pair (combine testScores maxScores) ->
  combine testScores maxScores <> [] ->
  exists report c d m s mn mx,
    fst (run (SEngine.request studentId testScores maxScores)) = Return report
    /\ (report !! "consistency" = Some (Fin c) /\ 1 / 12 <= c <= 1)
    /\ (report !! "std" = Some (Fin s) /\ 0 <= s <= 5)
    /\ (report !! "mad" = Some (Fin d) /\ 0 <= d <= 5)
    /\ (report !! "mean" = Some (Fin m) /\ 0 <= m <= 10)
    /\ (report !! "min" = Some (Fin mn) /\ report !! "max" = Some (Fin mx)
        /\ report !! "range" = Some (Fin (mx - mn))
        /\ 0 <= mn /\ mn <= mx /\ mx <= 10).
Proof.
  intros Hgraded Hne.
  destruct (normalize_pairs_graded _ Hgraded) as (xs & Hv & Hlen & Hb).
  assert (Hl : xs <> []).
  { intros ->. apply Hne. now apply length_zero_iff_nil. }
  destruct (build_base_exists testScores maxScores (map Fin xs) Hv)
    as (base & Hbase & Hxs); [now apply map_nonempty|].
  destruct (base_extrema _ _ _ _ Hbase Hxs)
    as (_ & mn & mx & Hmn & Hmx & Hinmn & Hinmx & Hbound).
  destruct (finite_report_values studentId testScores maxScores base xs mn mx
              Hxs Hl Hmn Hmx)
    as (Hc & Hmad & Hmean & Hmin & Hmax & Hrange & Hstd & _).
  unfold run. rewrite request_run, Hbase. cbn [fst].
  eexists _, _, _, _, _, mn, mx. split; [reflexivity|].
  pose proof (Rvar_nonneg xs Hl) as Hv0.
  pose proof (Rvar_bounded 0 10 xs Hl Hb) as Hv25.
  assert (Hs5 : Rstd xs <= 5).
  { replace 5 with ((10 - 0) / 2) by lra. apply Rstd_bounded; auto. lra. }
  pose proof (sqrt_pos (Rvar xs)) as Hs0. fold (Rstd xs) in Hs0.
  split; [split; [exact Hc|]|].
  { destruct (consistency_bounds (Rvar xs) (Rstd xs) Hv0 Hs0) as [[_ Hle] _].
    split; [| exact Hle].
    assert (Hd : 0 < 1 + 0.3 * Rvar xs + 0.7 * Rstd xs <= 12) by lra.
    unfold Rdiv. rewrite !Rmult_1_l.
    apply Rinv_le_contravar; lra. }
  split; [split; [exact Hstd | lra]|].
  split; [split; [exact Hmad|]|].
  { pose proof (Rmad_le_Rstd xs Hl). split; [now apply Rmad_nonneg | lra]. }
  split; [split; [exact Hmean | now apply Rmean_bounds]|].
  split; [exact Hmin | split; [exact Hmax | split; [exact Hrange|]]].
  pose proof (Hb mn Hinmn). pose proof (Hb mx Hinmx).
  pose proof (Hbound mx Hinmx). lra.
Qed.

Lemma X13_graded_scores_bounded_report_witness :
  exists report c d m s mn mx,
    fst (run (SEngine.request 1 [NaN; Fin 5] [Fin 10; Fin 10])) = Return report
    /\ (report !! "consistency" = Some (Fin c) /\ 1 / 12 <= c <= 1)
    /\ (report !! "std" = Some (Fin s) /\ 0 <= s <= 5)
    /\ (report !! "mad" = Some (Fin d) /\ 0 <= d <= 5)
    /\ (report !! "mean" = Some (Fin m) /\ 0 <= m <= 10)
    /\ (report !! "min" = Some (Fin mn) /\ report !! "max" = Some (Fin mx)
        /\ report !! "range" = Some (Fin (mx - mn))
        /\ 0 <= mn /\ mn <= mx /\ mx <= 10).
Proof.
  apply (X13_graded_scores_bounded_report 1 [NaN; Fin 5] [Fin 10; Fin 10]).
  - simpl. constructor; [left; reflexivity|].
    constructor; [| constructor]. right. exists 5, 10.
    split; [reflexivity | lra].
  - discriminate.
Defined.

(** ** Entropy: uniform scores, upper bound, scaling *)

Lemma ln_le_minus_1 (y : R) : 0 < y -> ln y <= y - 1.
Proof.
  intros Hy. pose proof (exp_ineq1_le (ln y)) as H.
  rewrite (exp_ln y Hy) in H. lra.
Qed.

Lemma log2_le (a b : R) : 0 < a -> a <= b -> log2 a <= log2 b.
Proof.
  intros Ha [Hlt | ->]; [| lra]. unfold log2, Rdiv.
  pose proof (ln_increasing a b Ha Hlt).
  pose proof (Rinv_0_lt_compat _ ln_2_pos). nra.
Qed.

Lemma Rsum_map_le {A} (f g : A -> R) (l : list A) :
  (forall x, In x l -> f x <= g x) -> Rsum (map f l) <= Rsum (map g l).
Proof.
  induction l as [|a l IH]; intros H; [simpl; lra|].
  cbn [map Rsum fold_right]. fold (Rsum (map f l)). fold (Rsum (map g l)).
  pose proof (H a (or_introl eq_refl)).
  assert (Rsum (map f l) <= Rsum (map g l)) by (apply IH; intros; apply H; now right).
  lra.
Qed.

Lemma Rsum_map_affine (a b : R) (l : list R) :
  Rsum (map (fun x => a * x + b) l) = a * Rsum l + INR (length l) * b.
Proof.
  induction l as [|x l IH]; [simpl; lra|].
  cbn [map Rsum fold_right length]. fold (Rsum l).
  fold (Rsum (map (fun x => a * x + b) l)). rewrite S_INR, IH. ring.
Qed.

Lemma Rsum_map_opp {A} (f : A -> R) (l : list A) :
  Rsum (map (fun x => - f x) l) = - Rsum (map f l).
Proof.
  induction l as [|x l IH]; [simpl; lra|].
  cbn [map Rsum fold_right]. fold (Rsum (map f l)).
  fold (Rsum (map (fun x => - f x) l)). rewrite IH. ring.
Qed.

(** One term of the entropy against the uniform distribution on [n] points. *)
Lemma plogp_gibbs (p n : R) :
  0 < p -> 0 < n ->
  - (p * log2 p) <= p * log2 n - p / ln 2 + / (n * ln 2).
Proof.
  intros Hp Hn. pose proof ln_2_pos as HL.
  assert (Hnp : 0 < n * p) by now apply Rmult_lt_0_compat.
  pose proof (ln_le_minus_1 (/ (n * p)) (Rinv_0_lt_compat _ Hnp)) as H.
  rewrite ln_Rinv, ln_mult in H by assumption.
  assert (Hmul : p * - (ln n + ln p) <= p * (/ (n * p) - 1))
    by (apply Rmult_le_compat_l; lra).
  replace (p * (/ (n * p) - 1)) with (/ n - p) in Hmul by (field; lra).
  assert (HiL : 0 < / ln 2) by now apply Rinv_0_lt_compat.
  apply (Rmult_le_compat_r (/ ln 2)) in Hmul; [| lra].
  unfold log2.
  replace (- (p * (ln p / ln 2)))
    with (p * - (ln n + ln p) * / ln 2 + p * (ln n / ln 2)) by (field; lra).
  replace (p * (ln n / ln 2) - p / ln 2 + / (n * ln 2))
    with ((/ n - p) * / ln 2 + p * (ln n / ln 2)) by (field; lra).
  lra.
Qed.

(** The entropy of positive values is at most the logarithm of their count. *)
Lemma shannon_upper (l : list R) :
  l <> [] -> Forall (fun x => 0 < x) l -> shannon l <= log2 (INR (length l)).
Proof.
  intros Hl Hall. pose proof (Rsum_pos l Hl Hall) as HS.
  pose proof (INR_length_pos l Hl) as Hn. pose proof ln_2_pos as HL.
  set (S := Rsum l) in *. set (n := INR (length l)) in *.
  set (a := log2 n / S - / (S * ln 2)). set (b := / (n * ln 2)).
  unfold shannon. fold S. rewrite <- Rsum_map_opp.
  apply Rle_trans with (Rsum (map (fun x => a * x + b) l)).
  - apply Rsum_map_le. intros x Hx.
    assert (Hxpos : 0 < x) by (rewrite List.Forall_forall in Hall; now apply Hall).
    assert (Hp : 0 < x / S) by now apply Rdiv_lt_0_compat.
    pose proof (plogp_gibbs (x / S) n Hp Hn) as Hg.
    replace (a * x + b) with (x / S * log2 n - x / S / ln 2 + / (n * ln 2))
      by (unfold a, b; field; lra).
    exact Hg.
  - rewrite Rsum_map_affine. fold S. fold n. unfold a, b.
    right. field. lra.
Qed.

Lemma Rsum_repeat (x : R) (k : nat) : Rsum (repeat x k) = INR k * x.
Proof.
  rewrite (Rsum_const x); [now rewrite repeat_length|].
  apply List.Forall_forall. intros y Hy. now apply repeat_spec in Hy.
Qed.

(** [k] equal positive values carry the entropy of [k] equally likely
    outcomes. *)
Lemma shannon_repeat (x : R) (k : nat) :
  0 < x -> (1 <= k)%nat -> shannon (repeat x k) = log2 (INR k).
Proof.
  intros Hx Hk. assert (Hn : 0 < INR k) by (apply lt_0_INR; lia).
  unfold shannon. rewrite Rsum_repeat, map_repeat, Rsum_repeat.
  replace (x / (INR k * x)) with (1 / INR k) by (field; lra).
  rewrite (log2_ratio 1 (INR k)) by lra. rewrite log2_1. field. lra.
Qed.

Lemma positives_all (l : list R) : Forall (fun x => 0 < x) l -> positives l = l.
Proof.
  induction 1 as [|x l Hx _ IH]; [reflexivity|].
  unfold positives in *. cbn [List.filter].
  now rewrite bool_decide_eq_true_2, IH.
Qed.

Lemma positives_length (l : list R) : (length (positives l) <= length l)%nat.
Proof.
  induction l as [|x l IH]; [simpl; lia|].
  unfold positives in *. cbn [List.filter].
  destruct (bool_decide (0 < x)); simpl; lia.
Qed.

Lemma shannon_scale (c : R) (l : list R) :
  0 < c -> Forall (fun x => 0 < x) l ->
  shannon (map (fun x => c * x) l) = shannon l.
Proof.
  intros Hc Hall. destruct l as [|a l]; [reflexivity|].
  set (P := a :: l) in *.
  assert (HS : 0 < Rsum P) by (apply Rsum_pos; [discriminate | assumption]).
  assert (Hsum : Rsum (map (fun x => c * x) P) = c * Rsum P).
  { replace (map (fun x => c * x) P) with (map (fun x => c * x + 0) P)
      by (apply map_ext; intros; lra).
    rewrite Rsum_map_affine. lra. }
  unfold shannon. rewrite Hsum, map_map. do 2 f_equal.
  apply map_ext. intros x.
  replace (c * x / (c * Rsum P)) with (x / Rsum P) by (field; lra).
  reflexivity.
Qed.

Lemma positives_scale (c : R) (l : list R) :
  0 < c -> positives (map (fun x => c * x) l) = map (fun x => c * x) (positives l).
Proof.
  intros Hc. induction l as [|x l IH]; [reflexivity|].
  unfold positives in *. cbn [map List.filter].
  destruct (bool_decide_reflect (0 < x)) as [Hx|Hx].
  - rewrite bool_decide_eq_true_2 by nra. cbn [map]. now rewrite IH.
  - rewrite bool_decide_eq_false_2 by nra. exact IH.
Qed.

(** X14. For a distribution engine over finite, non-empty normalised scores
    the entropy is a finite number between 0 and the base-2 logarithm of the
    number of scores. *)
Theorem X14_entropy_at_most_log2_count (self : SEngine.DistributionComputeEngine)
    (xs : list R) :
  SEngine.normalizedTestScores (SEngine.distribution_base self) = map Fin xs ->
  xs <> [] ->
  exists h, SEngine._calculateShannonEntropy self = Fin h
            /\ 0 <= h <= log2 (INR (length xs)).
Proof.
  intros Hxs Hl. exists (shannon (positives xs)).
  split; [now apply engine_entropy_Fin|].
  pose proof (positives_positive xs) as Hpos.
  split; [now apply shannon_nonneg|].
  assert (Hn : 1 <= INR (length xs)).
  { change 1 with (INR 1). apply le_INR. destruct xs; simpl; [congruence | lia]. }
  destruct (positives xs) as [|p P] eqn:HP.
  - unfold shannon. simpl.
    pose proof (log2_le 1 (INR (length xs))) as Hle.
    rewrite log2_1 in Hle. lra.
  - apply Rle_trans with (log2 (INR (length (p :: P)))).
    + apply shannon_upper; [discriminate | exact Hpos].
    + apply log2_le; [apply lt_0_INR; simpl; lia|].
      apply le_INR. rewrite <- HP. apply positives_length.
Qed.

Lemma X14_entropy_at_most_log2_count_witness :
  let self := SEngine.distributionScoresObj
                (build_wrapper 1 [Fin 8] [Fin 10] (single_base 8 10)) in
  exists h, SEngine._calculateShannonEntropy self = Fin h
            /\ 0 <= h <= log2 (INR (length [8 / 10 * 10])).
Proof.
  apply (X14_entropy_at_most_log2_count
           (SEngine.distributionScoresObj
              (build_wrapper 1 [Fin 8] [Fin 10] (single_base 8 10)))
           [8 / 10 * 10]).
  - reflexivity.
  - discriminate.
Defined.

(** X15. When all [k] normalised scores are one and the same positive number,
    the entropy is the base-2 logarithm of [k], whatever the number: 0 for a
    single score and positive as soon as there are two. *)
Theorem X15_entropy_of_equal_scores (self : SEngine.DistributionComputeEngine)
    (x : R) (k : nat) :
  SEngine.normalizedTestScores (SEngine.distribution_base self)
  = map Fin (repeat x k) ->
  0 < x -> (1 <= k)%nat ->
  SEngine._calculateShannonEntropy self = Fin (log2 (INR k))
  /\ ((2 <= k)%nat -> 0 < log2 (INR k)).
Proof.
  intros Hxs Hx Hk. split.
  - rewrite (engine_entropy_Fin self _ Hxs). f_equal.
    rewrite positives_all; [now apply shannon_repeat|].
    apply List.Forall_forall. intros y Hy. apply repeat_spec in Hy. now subst.
  - intros H2. apply log2_gt_0. change 1 with (INR 1). apply lt_INR. lia.
Qed.

Lemma X15_entropy_of_equal_scores_witness :
  let self := SEngine.distributionScoresObj
                (build_wrapper 1 [Fin 8] [Fin 10] (single_base 8 10)) in
  SEngine._calculateShannonEntropy self = Fin (log2 (INR 1))
  /\ ((2 <= 1)%nat -> 0 < log2 (INR 1)).
Proof.
  apply (X15_entropy_of_equal_scores
           (SEngine.distributionScoresObj
              (build_wrapper 1 [Fin 8] [Fin 10] (single_base 8 10)))
           (8 / 10 * 10) 1).
  - reflexivity.
  - lra.
  - lia.
Defined.

(** X16. The entropy of the engines depends on the proportions of the scores
    only: two distribution engines whose finite normalised scores differ by a
    common positive factor report the same entropy. *)
Theorem X16_entropy_scale_invariant (self1 self2 : SEngine.DistributionComputeEngine)
    (xs : list R) (c : R) :
  SEngine.normalizedTestScores (SEngine.distribution_base self1) = map Fin xs ->
  SEngine.normalizedTestScores (SEngine.distribution_base self2)
  = map Fin (map (fun x => c * x) xs) ->
  0 < c ->
  SEngine._calculateShannonEntropy self2 = SEngine._calculateShannonEntropy self1.
Proof.
  intros H1 H2 Hc.
  rewrite (engine_entropy_Fin self1 _ H1), (engine_entropy_Fin self2 _ H2).
  f_equal. rewrite positives_scale by exact Hc.
  apply shannon_scale; [exact Hc | apply positives_positive].
Qed.

Lemma X16_entropy_scale_invariant_witness :
  SEngine._calculateShannonEntropy
    (SEngine.distributionScoresObj
       (build_wrapper 1 [Fin 4] [Fin 10]
          {| SEngine.name := "Basic Compute Engine";
             SEngine.testScores := [Fin 4];
             SEngine.maxScores := [Fin 10];
             SEngine.normalizedTestScores := map Fin (map (fun x => 2 * x) [2]);
             SEngine.maximumScore := Fin 4;
             SEngine.minimumScore := Fin 4 |}))
  = SEngine._calculateShannonEntropy
      (SEngine.distributionScoresObj
         (build_wrapper 1 [Fin 2] [Fin 10]
            {| SEngine.name := "Basic Compute Engine";
               SEngine.testScores := [Fin 2];
               SEngine.maxScores := [Fin 10];
               SEngine.normalizedTestScores := map Fin [2];
               SEngine.maximumScore := Fin 2;
               SEngine.minimumScore := Fin 2 |})).
Proof.
  apply (X16_entropy_scale_invariant _ _ [2] 2).
  - reflexivity.
  - reflexivity.
  - lra.
Defined.

(** ** The analyzers of [main.py] against the report *)

Lemma main_init_run (studentId : Z) (testScores maxScores : list pyfloat)
    (log : list event) :
  Main.init studentId testScores maxScores log =
  (normalized ← normalize_pairs (combine testScores maxScores);
   maximum ← np_max normalized;
   minimum ← np_min normalized;
   mret {| Main.studentId := studentId;
           Main.testScores := testScores;
           Main.maxScores := maxScores;
           Main.normalizedTestScores := normalized;
           Main.maximumScore := maximum;
           Main.minimumScore := minimum |},
   log ++ normalize_log testScores maxScores).
Proof.
  unfold Main.init.
  change (Main._normalizeAllScores testScores maxScores)
    with (SEngine._normalizeAllScores testScores maxScores).
  unfold mbind at 1. unfold M_bind, bind. rewrite normalizeAllScores_run.
  destruct (normalize_pairs (combine testScores maxScores)) as [e|v];
    [reflexivity|].
  unfold mbind, M_bind, bind, lift, ret, outcome_bind.
  destruct (np_max v); [reflexivity|]. destruct (np_min v); reflexivity.
Qed.

(** X17. On the same raw scores the analyzers of [main.py] compute the values
    the report holds for consistency, skewness, the three percentiles, range
    and cv, and the mean absolute deviation; this holds for every input, NaN
    and infinities included. *)
Theorem X17_main_analyzers_match_report (studentId : Z)
    (testScores maxScores : list pyfloat) (report : gmap string pyfloat)
    (ca : MainAnalyzers.ConsistencyAnalyzer) (sa : MainAnalyzers.StatisticsAnalyzer)
    (da : Main.DistributionAnalyzer) (log1 log2 log3 : list event) :
  fst (run (SEngine.request studentId testScores maxScores)) = Return report ->
  run (MainAnalyzers.ConsistencyAnalyzer_init studentId testScores maxScores)
  = (Return ca, log1) ->
  run (MainAnalyzers.StatisticsAnalyzer_init studentId testScores maxScores)
  = (Return sa, log2) ->
  run (Main.DistributionAnalyzer_init studentId testScores maxScores)
  = (Return da, log3) ->
  report !! "consistency" = Some (MainAnalyzers.analyzeStudentConsistency ca)
  /\ report !! "mad" = Some (MainAnalyzers._calculateMeanAbsoluteDeviation ca)
  /\ report !! "skewness" = Some (MainAnalyzers._checkSkewness sa)
  /\ report !! "q1" = MainAnalyzers._calculatePercentiles sa !! "q1"
  /\ report !! "median" = MainAnalyzers._calculatePercentiles sa !! "median"
  /\ report !! "q3" = MainAnalyzers._calculatePercentiles sa !! "q3"
  /\ report !! "range" = Some (MainAnalyzers._calculateRange da)
  /\ report !! "cv" = Some (MainAnalyzers._calculateCoefficientOfVariation da).
Proof.
  unfold run, MainAnalyzers.ConsistencyAnalyzer_init,
    MainAnalyzers.StatisticsAnalyzer_init.
  rewrite request_run, main_distribution_init_run.
  unfold mbind at 1 2. unfold M_bind, bind, ret. rewrite !main_init_run.
  unfold build_base.
  destruct (normalize_pairs (combine testScores maxScores)) as [e|v];
    [discriminate|].
  destruct v as [|x v]; [discriminate|]. simpl.
  intros [= <-] Hca Hsa Hda.
  apply pair_equal_spec in Hca as [[= <-] _].
  apply pair_equal_spec in Hsa as [[= <-] _].
  apply pair_equal_spec in Hda as [[= <-] _].
  unfold MainAnalyzers._calculatePercentiles. cbv zeta.
  repeat split; report_lookup.
Qed.

Lemma X17_main_analyzers_match_report_witness :
  let report := SEngine.compute (build_wrapper 1 [Fin 8] [Fin 10] (single_base 8 10)) in
  let base := {| Main.studentId := 1;
                 Main.testScores := [Fin 8];
                 Main.maxScores := [Fin 10];
                 Main.normalizedTestScores := [Fin (8 / 10 * 10)];
                 Main.maximumScore := Fin (8 / 10 * 10);
                 Main.minimumScore := Fin (8 / 10 * 10) |} in
  let ca := {| MainAnalyzers.consistency_base := base;
               MainAnalyzers.consistency_name := "Consistency Analyzer Engine";
               MainAnalyzers.ALPHA := Fin 0.3;
               MainAnalyzers.BETA := Fin 0.7 |} in
  let sa := {| MainAnalyzers.statistics_base := base;
               MainAnalyzers.statistics_name := "Statistics Analyzer Engine" |} in
  let da := {| Main.distribution_base := base;
               Main.name := "Distribution Analyzer Engine";
               Main.logarithmBase := 2 |} in
  report !! "consistency" = Some (MainAnalyzers.analyzeStudentConsistency ca)
  /\ report !! "mad" = Some (MainAnalyzers._calculateMeanAbsoluteDeviation ca)
  /\ report !! "skewness" = Some (MainAnalyzers._checkSkewness sa)
  /\ report !! "q1" = MainAnalyzers._calculatePercentiles sa !! "q1"
  /\ report !! "median" = MainAnalyzers._calculatePercentiles sa !! "median"
  /\ report !! "q3" = MainAnalyzers._calculatePercentiles sa !! "q3"
  /\ report !! "range" = Some (MainAnalyzers._calculateRange da)
  /\ report !! "cv" = Some (MainAnalyzers._calculateCoefficientOfVariation da).
Proof.
  intros report base ca sa da.
  apply (X17_main_analyzers_match_report 1 [Fin 8] [Fin 10] report ca sa da
           (normalize_log [Fin 8] [Fin 10]) (normalize_log [Fin 8] [Fin 10])
           (normalize_log [Fin 8] [Fin 10])).
  - unfold run. rewrite request_run, (build_base_single 8 10) by lra. reflexivity.
  - unfold run, MainAnalyzers.ConsistencyAnalyzer_init.
    unfold mbind, M_bind, bind, ret. rewrite main_init_run. simpl normalize_pairs.
    rewrite normalizeScore_Fin by lra. reflexivity.
  - unfold run, MainAnalyzers.StatisticsAnalyzer_init.
    unfold mbind, M_bind, bind, ret. rewrite main_init_run. simpl normalize_pairs.
    rewrite normalizeScore_Fin by lra. reflexivity.
  - unfold run. rewrite main_distribution_init_run. simpl normalize_pairs.
    rewrite normalizeScore_Fin by lra. reflexivity.
Defined.

(** ** More on the normaliser and on cv *)

(** X18. The normalised score depends on the ratio of score and maximum only:
    multiplying both by the same positive factor changes neither the result
    nor whether the pair is rejected. *)
Theorem X18_normalizeScore_ratio_only (o m k : R) :
  0 < k ->
  exists r, SEngine._normalizeScore (Fin (k * m)) (Fin (k * o)) = r
            /\ SEngine._normalizeScore (Fin m) (Fin o) = r
            /\ (m <> 0 -> o <= m -> r = Return (Fin (o / m * 10)))
            /\ (m = 0 \/ m < o -> r = Raise (ValueError SEngine.normalize_error)).
Proof.
  intros Hk. destruct (Req_dec m 0) as [Hm | Hm].
  - exists (Raise (ValueError SEngine.normalize_error)).
    assert (Hinv : forall a b, b = 0 ->
              SEngine._normalizeScore (Fin b) (Fin a)
              = Raise (ValueError SEngine.normalize_error)).
    { intros a b ->. apply normalizeScore_invalid. simpl.
      now rewrite bool_decide_eq_true_2. }
    split; [apply Hinv; subst; lra | split; [now apply Hinv|]].
    split; [intros; contradiction | reflexivity].
  - destruct (Rle_dec o m) as [Hom | Hom].
    + exists (Return (Fin (o / m * 10))).
      rewrite !normalizeScore_Fin by nra.
      split; [do 2 f_equal; field; lra | split; [reflexivity|]].
      split; [reflexivity | intros [? | ?]; lra].
    + exists (Raise (ValueError SEngine.normalize_error)).
      assert (Hinv : forall a b, b < a ->
                SEngine._normalizeScore (Fin b) (Fin a)
                = Raise (ValueError SEngine.normalize_error)).
      { intros a b Hab. apply normalizeScore_invalid. unfold invalid_pair, fgtb.
        simpl. rewrite (bool_decide_eq_true_2 (b < a)) by exact Hab.
        now rewrite orb_true_r. }
      split; [apply Hinv; nra | split; [apply Hinv; lra|]].
      split; [intros; lra | reflexivity].
Qed.

Lemma X18_normalizeScore_ratio_only_witness :
  exists r, SEngine._normalizeScore (Fin (5 * 10)) (Fin (5 * 8)) = r
            /\ SEngine._normalizeScore (Fin 10) (Fin 8) = r
            /\ (10 <> 0 -> 8 <= 10 -> r = Return (Fin (8 / 10 * 10)))
            /\ (10 = 0 \/ 10 < 8 -> r = Raise (ValueError SEngine.normalize_error)).
Proof. apply (X18_normalizeScore_ratio_only 8 10 5). lra. Defined.

Lemma report_cv_Fin (studentId : Z) (ts ms : list pyfloat)
    (base : SEngine.StudentPerformanceComputeEngine) (xs : list R) :
  SEngine.normalizedTestScores base = map Fin xs -> xs <> [] ->
  SEngine.compute (build_wrapper studentId ts ms base) !! "cv"
  = Some (if bool_decide (Rmean xs = 0)
          then if bool_decide (Rstd xs = 0) then NaN else PInf
          else Fin (Rstd xs / Rmean xs)).
Proof.
  intros Hxs Hl.
  transitivity (Some (fdiv (np_std (SEngine.normalizedTestScores base))
                        (np_mean (SEngine.normalizedTestScores base)))).
  - report_lookup.
  - now rewrite Hxs, cv_Fin.
Qed.

(** X19. For a request over at least one pair, every pair a missing score or
    a finite score between 0 and a finite positive maximum, the reported cv is
    NaN exactly in the case that every normalised score is 0; otherwise it is
    a finite number that is not negative.  Infinite cv cannot occur. *)
Theorem X19_graded_scores_cv (studentId : Z) (testScores maxScores : list pyfloat) :
  Forall graded_pair (combine testScores maxScores) ->
  combine testScores maxScores <> [] ->
  exists report xs,
    fst (run (SEngine.request studentId testScores maxScores)) = Return report
    /\ normalize_pairs (combine testScores maxScores) = Return (map Fin xs)
    /\ ((forall x, In x xs -> x = 0) -> report !! "cv" = Some NaN)
    /\ ((exists x, In x xs /\ x <> 0) ->
        exists cv, report !! "cv" = Some (Fin cv) /\ 0 <= cv).
Proof.
  intros Hgraded Hne.
  destruct (normalize_pairs_graded _ Hgraded) as (xs & Hv & Hlen & Hb).
  assert (Hl : xs <> []).
  { intros ->. apply Hne. now apply length_zero_iff_nil. }
  destruct (build_base_exists testScores maxScores (map Fin xs) Hv)
    as (base & Hbase & Hxs); [now apply map_nonempty|].
  unfold run. rewrite request_run, Hbase. cbn [fst].
  exists (SEngine.compute (build_wrapper studentId testScores maxScores base)), xs.
  split; [reflexivity | split; [exact Hv|]].
  rewrite (report_cv_Fin _ _ _ _ xs Hxs Hl).
  assert (Hnonneg : Forall (fun x => 0 <= x) xs).
  { apply List.Forall_forall. intros x Hx. now apply Hb. }
  split.
  - intros Hzero.
    assert (Hall : Forall (fun x => x = 0) xs) by now apply List.Forall_forall.
    assert (Hm : Rmean xs = 0) by (apply Rmean_zero_iff, Rsum_all_zero; assumption).
    assert (Hs : Rstd xs = 0).
    { unfold Rstd. rewrite Rvar_all_mean; [apply sqrt_0 | exact Hl|].
      now rewrite Hm. }
    now rewrite !bool_decide_eq_true_2.
  - intros (x & Hx & Hx0).
    assert (Hm : 0 < Rmean xs).
    { destruct (Rmean_bounds 0 10 xs Hl Hb) as [[Hpos | Hz] _]; [exact Hpos|].
      exfalso. apply Hx0. symmetry in Hz.
      apply (Rmean_zero_iff xs Hl) in Hz.
      pose proof (Rsum_zero_all xs Hnonneg Hz) as Hall.
      rewrite List.Forall_forall in Hall. now apply Hall. }
    rewrite bool_decide_eq_false_2 by lra.
    eexists. split; [reflexivity|].
    pose proof (sqrt_pos (Rvar xs)). unfold Rstd.
    apply Rmult_le_pos; [assumption|]. left. now apply Rinv_0_lt_compat.
Qed.

Lemma X19_graded_scores_cv_witness :
  exists report xs,
    fst (run (SEngine.request 1 [NaN; Fin 5] [Fin 10; Fin 10])) = Return report
    /\ normalize_pairs (combine [NaN; Fin 5] [Fin 10; Fin 10]) = Return (map Fin xs)
    /\ ((forall x, In x xs -> x = 0) -> report !! "cv" = Some NaN)
    /\ ((exists x, In x xs /\ x <> 0) ->
        exists cv, report !! "cv" = Some (Fin cv) /\ 0 <= cv).
Proof.
  apply (X19_graded_scores_cv 1 [NaN; Fin 5] [Fin 10; Fin 10]).
  - simpl. constructor; [left; reflexivity|].
    constructor; [| constructor]. right. exists 5, 10.
    split; [reflexivity | lra].
  - discriminate.
Defined.

(** ** A NaN inside a vector handed in *)

Lemma fadd_NaN_r (x : pyfloat) : fadd x NaN = NaN.
Proof. now destruct x. Qed.

Lemma np_sum_NaN (l : list pyfloat) : In NaN l -> np_sum l = NaN.
Proof.
  induction l as [|x l IH]; [intros []|].
  intros [-> | Hin]; [reflexivity|].
  change (np_sum (x :: l)) with (fadd x (np_sum l)).
  rewrite (IH Hin). apply fadd_NaN_r.
Qed.

Lemma np_mean_NaN (l : list pyfloat) : In NaN l -> np_mean l = NaN.
Proof. intros Hin. unfold np_mean. now rewrite (np_sum_NaN l Hin). Qed.

Lemma np_mean_map_NaN (f : pyfloat -> pyfloat) (l : list pyfloat) :
  l <> [] -> (forall x, f x = NaN) -> np_mean (map f l) = NaN.
Proof.
  intros Hl Hf. apply np_mean_NaN. destruct l as [|x l]; [congruence|].
  left. apply Hf.
Qed.

Lemma existsb_isnan (l : list pyfloat) : In NaN l -> existsb isnan l = true.
Proof. intros Hin. apply existsb_exists. exists NaN. auto. Qed.

Lemma fmax_NaN_r (x : pyfloat) : fmax x NaN = NaN.
Proof. unfold fmax. simpl. now rewrite orb_true_r. Qed.

Lemma fmin_NaN_r (x : pyfloat) : fmin x NaN = NaN.
Proof. unfold fmin. simpl. now rewrite orb_true_r. Qed.

Lemma fold_fmax_NaN (l : list pyfloat) (x : pyfloat) :
  x = NaN \/ In NaN l -> fold_left fmax l x = NaN.
Proof.
  revert x. induction l as [|y l IH]; intros x [Hx | Hin]; simpl.
  - exact Hx.
  - destruct Hin.
  - apply IH. left. now subst.
  - apply IH. destruct Hin as [-> | Hin]; [left; apply fmax_NaN_r | now right].
Qed.

Lemma fold_fmin_NaN (l : list pyfloat) (x : pyfloat) :
  x = NaN \/ In NaN l -> fold_left fmin l x = NaN.
Proof.
  revert x. induction l as [|y l IH]; intros x [Hx | Hin]; simpl.
  - exact Hx.
  - destruct Hin.
  - apply IH. left. now subst.
  - apply IH. destruct Hin as [-> | Hin]; [left; apply fmin_NaN_r | now right].
Qed.

Lemma np_var_NaN (l : list pyfloat) : In NaN l -> np_var l = NaN.
Proof.
  intros Hin. unfold np_var. cbv zeta. rewrite (np_mean_NaN l Hin).
  apply np_mean_map_NaN; [intros ->; destruct Hin|].
  intros x. unfold fsub. simpl. now rewrite fadd_NaN_r.
Qed.

Lemma skew_NaN (l : list pyfloat) : In NaN l -> skew l = NaN.
Proof.
  intros Hin. unfold skew, skew_with. cbv zeta. rewrite (np_mean_NaN l Hin).
  rewrite !np_mean_map_NaN; try reflexivity; try (intros ->; destruct Hin);
    intros x; unfold fsub; simpl; now rewrite fadd_NaN_r.
Qed.

(** X21. The wrapper over a normalised vector accepts an array that holds a
    NaN: it raises nothing and returns a report in which every entry except
    the entropy is NaN. *)
Theorem X21_nan_in_array_spreads (studentId : Z) (v : list pyfloat) :
  In NaN v ->
  exists report,
    StudentEngineTyped.request studentId NdArray v = Return report
    /\ Forall (fun key => report !! key = Some NaN)
         [ "consistency"; "mad"; "mean"; "skewness"; "min"; "max"; "q1";
           "median"; "q3"; "range"; "cv"; "std" ]%string.
Proof.
  intros Hin. destruct v as [|x v]; [destruct Hin|].
  unfold StudentEngineTyped.request. simpl. rewrite compute_ndarray.
  eexists. split; [reflexivity|].
  set (l := x :: v) in *.
  assert (Hmean : np_mean l = NaN) by now apply np_mean_NaN.
  assert (Hvar : np_var l = NaN) by now apply np_var_NaN.
  assert (Hstd : np_std l = NaN) by (unfold np_std; now rewrite Hvar).
  assert (Hskew : skew l = NaN) by now apply skew_NaN.
  assert (Hmax : fold_left fmax v x = NaN).
  { apply fold_fmax_NaN. destruct Hin as [-> | Hin]; auto. }
  assert (Hmin : fold_left fmin v x = NaN).
  { apply fold_fmin_NaN. destruct Hin as [-> | Hin]; auto. }
  assert (Hmad : np_mean (map (fun y => fabs (fsub y (np_mean l))) l) = NaN).
  { rewrite Hmean. apply np_mean_map_NaN; [discriminate|].
    intros y. unfold fsub. simpl. now rewrite fadd_NaN_r. }
  assert (Hperc : forall q, np_percentile l q = NaN).
  { intros q. unfold np_percentile. now rewrite existsb_isnan. }
  unfold StudentEngine.compute, StudentEngine.returnConsistencyScores,
    StudentEngine.returnStatistics, StudentEngine._calculatePercentiles,
    StudentEngine.returnDistributionScores, StudentEngine._calculateVariance,
    StudentEngine._calculateMeanAbsoluteDeviation, StudentEngine._checkSkewness,
    StudentEngine._calculateCoefficientOfVariation, StudentEngine._calculateRange,
    StudentEngine._calculateStandardDeviation, StudentEngine._calculateMean.
  cbn [StudentEngine.consistencyScoresObj StudentEngine.statisticsObj
       StudentEngine.distributionScoresObj StudentEngine.consistency_base
       StudentEngine.statistics_base StudentEngine.distribution_base
       StudentEngine.set_name StudentEngine.normalizedTestScores
       StudentEngine.maximumScore StudentEngine.minimumScore
       StudentEngine.ALPHA StudentEngine.BETA].
  fold l. cbv zeta. rewrite Hmad, Hvar, Hstd, Hskew, Hmax, Hmin, !Hperc, !Hmean.
  repeat constructor; rewrite !dict_or_lookup; lookup_literal; reflexivity.
Qed.

Lemma X21_nan_in_array_spreads_witness :
  exists report,
    StudentEngineTyped.request 1 NdArray [Fin 5; NaN] = Return report
    /\ Forall (fun key => report !! key = Some NaN)
         [ "consistency"; "mad"; "mean"; "skewness"; "min"; "max"; "q1";
           "median"; "q3"; "range"; "cv"; "std" ]%string.
Proof.
  apply (X21_nan_in_array_spreads 1 [Fin 5; NaN]). right. left. reflexivity.
Defined.

(** X23. What the sign of a finite maximum does to an accepted finite pair:
    against a positive maximum the normalised score is at most 10, and at
    least 0 exactly when the score is not negative; against a negative
    maximum the pair is accepted as well and the normalised score is at
    least 10. *)
Theorem X23_sign_of_maximum (o m : R) :
  m <> 0 -> o <= m ->
  exists r,
    SEngine._normalizeScore (Fin m) (Fin o) = Return (Fin r)
    /\ (0 < m -> r <= 10 /\ (0 <= r <-> 0 <= o))
    /\ (m < 0 -> 10 <= r).
Proof.
  intros Hm Hom. exists (o / m * 10).
  split; [now apply normalizeScore_Fin|].
  unfold Rdiv. split.
  - intros Hpos. assert (Hi : 0 < / m) by now apply Rinv_0_lt_compat.
    assert (Hgap : 0 <= (m - o) * / m) by (apply Rmult_le_pos; lra).
    replace ((m - o) * / m) with (1 - o * / m) in Hgap by (field; lra).
    split; [lra|]. split; intros H.
    + assert (Ho : 0 <= o * / m) by lra.
      replace o with (o * / m * m) by (field; lra).
      apply Rmult_le_pos; lra.
    + assert (0 <= o * / m) by (apply Rmult_le_pos; lra). lra.
  - intros Hneg. assert (Hi : / m < 0) by now apply Rinv_lt_0_compat.
    assert (Hgap : 0 <= (m - o) * - / m) by (apply Rmult_le_pos; lra).
    replace ((m - o) * - / m) with (o * / m - 1) in Hgap by (field; lra).
    lra.
Qed.

Lemma X23_sign_of_maximum_witness :
  exists r,
    SEngine._normalizeScore (Fin (-10)) (Fin (-20)) = Return (Fin r)
    /\ (0 < -10 -> r <= 10 /\ (0 <= r <-> 0 <= -20))
    /\ (-10 < 0 -> 10 <= r).
Proof. apply (X23_sign_of_maximum (-20) (-10)); lra. Defined.
